(** * HPCSA registration search: the service layer, embedded and verified

    The development follows the TypeScript service layer of the application:

    - [Js]: the fragment of the JavaScript runtime the services rely on
      (strings, truthiness, [String(v)], [Array.prototype.slice]);
    - [Types]: the records of [types.ts];
    - [Effects]: a small state-and-exception monad for the asynchronous code
      (requests, timers, the progress callback);
    - [HPCSAService]: [hpcsa-service.ts];
    - [BatchProcessorService]: [batch-processor-service.ts];
    - [RegistrationExtractorService]: [registration-extractor-service.ts].

    Definitions come first, the theorems about them afterwards. *)

From Stdlib Require Import ZArith List String Ascii Bool Lia.
From Stdlib Require Import Decimal DecimalString.
From stdpp Require Import base list strings gmap sorting.

Import ListNotations.
Local Open Scope Z_scope.
Set Warnings "-register-all".

(* ===================================================================== *)
(** * The JavaScript runtime fragment                                     *)
(* ===================================================================== *)

Module Js.

(** A string is a sequence of code units; the model keeps the code units of
    the 8-bit range (Latin-1), which is where the constants of the services
    ("active", "HPCSA", "no", ...) live. *)

(** [WhiteSpace] and [LineTerminator] of ECMAScript, restricted to that
    range: TAB, LF, VT, FF, CR, SP and NBSP.  It is the class that both
    [String.prototype.trim] and the regular expression [\s] use. *)
Definition isWhiteSpace (c : ascii) : bool :=
  let n := N_of_ascii c in
  (((9 <=? n) && (n <=? 13)) || (n =? 32) || (n =? 160))%N.

Fixpoint trimStart (s : string) : string :=
  match s with
  | EmptyString => EmptyString
  | String c s' => if isWhiteSpace c then trimStart s' else s
  end.

Fixpoint trimEnd (s : string) : string :=
  match s with
  | EmptyString => EmptyString
  | String c s' =>
      match trimEnd s' with
      | EmptyString => if isWhiteSpace c then EmptyString else String c EmptyString
      | t => String c t
      end
  end.

(** [s.trim()] *)
Definition trim (s : string) : string := trimEnd (trimStart s).

(** [s.replace(/\s+/g, "")]: every maximal run of white space is replaced
    by the empty string, that is, every white space code unit is dropped. *)
Fixpoint removeWhitespace (s : string) : string :=
  match s with
  | EmptyString => EmptyString
  | String c s' =>
      if isWhiteSpace c then removeWhitespace s' else String c (removeWhitespace s')
  end.

(** Simple case mappings of the Latin-1 range: A-Z and the letters
    U+00C0-U+00DE (the multiplication sign U+00D7 apart) have their lower
    case 32 code units higher; nothing else changes. *)
Definition isUpper (c : ascii) : bool :=
  let n := N_of_ascii c in
  (((65 <=? n) && (n <=? 90)) || ((192 <=? n) && (n <=? 222) && negb (n =? 215)))%N.

Definition isLower (c : ascii) : bool :=
  let n := N_of_ascii c in
  (((97 <=? n) && (n <=? 122)) || ((224 <=? n) && (n <=? 254) && negb (n =? 247)))%N.

Definition toLowerChar (c : ascii) : ascii :=
  if isUpper c then ascii_of_N (N_of_ascii c + 32) else c.

Definition toUpperChar (c : ascii) : ascii :=
  if isLower c then ascii_of_N (N_of_ascii c - 32) else c.

Fixpoint mapChars (f : ascii -> ascii) (s : string) : string :=
  match s with
  | EmptyString => EmptyString
  | String c s' => String (f c) (mapChars f s')
  end.

(** [s.toLowerCase()] and [s.toUpperCase()].  (Upper-casing U+00B5, U+00DF
    and U+00FF leaves the Latin-1 range; the model keeps them unchanged.) *)
Definition toLowerCase : string -> string := mapChars toLowerChar.
Definition toUpperCase : string -> string := mapChars toUpperChar.

(** Values of type [unknown] as a parsed spreadsheet row holds them.  A
    property that is absent reads as [undefined]: lookups return an
    [option JsVal] and [None] stands for [undefined].  Numbers are the
    integers. *)
Inductive JsVal : Type :=
| JNull
| JBool (b : bool)
| JNum (z : Z)
| JStr (s : string).

(** [String(v)] *)
Definition toString (v : JsVal) : string :=
  match v with
  | JNull => "null"
  | JBool true => "true"
  | JBool false => "false"
  | JNum z => NilZero.string_of_int (Z.to_int z)
  | JStr s => s
  end.

(** [ToBoolean] on a string: only the empty string is falsy. *)
Definition truthyStr (s : string) : bool :=
  match s with
  | EmptyString => false
  | String _ _ => true
  end.

(** [ToBoolean] on a value. *)
Definition truthy (v : JsVal) : bool :=
  match v with
  | JNull => false
  | JBool b => b
  | JNum z => negb (z =? 0)
  | JStr s => truthyStr s
  end.

(** [a.slice(start, end)]: relative indices count from the end when
    negative, both are clamped to the array, and the result is empty when
    the interval is. *)
Definition sliceIndex (len k : Z) : Z :=
  if k <? 0 then Z.max (len + k) 0 else Z.min k len.

Definition slice {A : Type} (a : list A) (start stop : Z) : list A :=
  let len := Z.of_nat (length a) in
  let from := sliceIndex len start in
  let to := sliceIndex len stop in
  firstn (Z.to_nat (to - from)) (skipn (Z.to_nat from) a).

(** [Math.ceil(a / b)] on integers, for a positive divisor. *)
Definition ceilDiv (a b : Z) : Z := (a + b - 1) / b.

End Js.

(* ===================================================================== *)
(** * types.ts                                                            *)
(* ===================================================================== *)

Module Types.

Record HPCSARecord : Type := mkRecord {
  rec_name : string;
  rec_registration : string;
  rec_city : string;
  rec_status : string
}.

(** [BatchSearchResult extends HPCSARecord] *)
Record BatchSearchResult : Type := mkResult {
  name : string;
  registration : string;
  city : string;
  status : string;
  found : bool;
  professionalCouncilName : option string;
  timeInSession : option string
}.

Record BatchStatistics : Type := mkStatistics {
  activeCount : nat;
  inactiveCount : nat;
  notFoundCount : nat;
  totalProcessed : nat
}.

Record BatchSearchResponse : Type := mkResponse {
  results : list BatchSearchResult;
  statistics : BatchStatistics
}.

Inductive FileType : Type := csv | excel.

Record ExtractRegistrationResult : Type := mkExtract {
  registrationNumbers : list string;
  skippedCount : nat;
  totalRows : nat
}.

Record CsvMappings : Type := mkCsvMappings {
  csv_attended : list string;
  csv_timeInSession : list string;
  csv_professionalCouncilName : list string;
  csv_registration : list string
}.

(** The optional lists of the excel mapping are [None] when left out. *)
Record ExcelMappings : Type := mkExcelMappings {
  excel_attended : option (list string);
  excel_timeInSession : option (list string);
  excel_professionalCouncilName : option (list string);
  excel_registration : list string
}.

Record FieldMappings : Type := mkFieldMappings {
  fm_csv : CsvMappings;
  fm_excel : ExcelMappings
}.

Record SearchOptions : Type := mkSearchOptions {
  so_timeoutMs : option Z;
  so_maxRetries : option Z
}.

Record HPCSAApiConfig : Type := mkConfig {
  apiUrl : string;
  timeoutMs : Z;
  maxRetries : Z;
  batchSize : Z;
  maxConcurrentRequests : Z;
  delayBetweenBatchesMs : Z
}.

Record BatchProcessorConfig : Type := mkProcessorConfig {
  pc_batchSize : option Z;
  pc_maxConcurrentRequests : option Z;
  pc_delayBetweenBatchesMs : option Z
}.

End Types.

(* ===================================================================== *)
(** * Effects: requests, timers, callbacks                                *)
(* ===================================================================== *)

Module Effects.

(** The errors an [await] of the service can raise. *)
Inductive JsError : Type :=
| AbortError                 (** the timer fired and aborted the request *)
| FetchError                 (** [fetch] rejected: no response at all *)
| ApiReturned (status : Z)   (** [new Error(`API returned ${status}`)] *)
| JsonError.                 (** [response.json()] rejected *)

(** One outbound request: the POST to [apiUrl] for a registration number,
    guarded by a timer of [timeoutMs]. *)
Record Request : Type := mkRequest {
  req_url : string;
  req_regNumber : string;
  req_timeoutMs : Z
}.

(** What is observable of a run, in program order.  The tasks handed to one
    [Promise.all] share no state and are collected by index; their events
    are kept per task under one [All] node, so the events at the top level
    of a trace are those of the coordinating flow of control. *)
Inductive Event : Type :=
| Fetch (r : Request)
| Delay (ms : Z)
| Progress (completed total : Z)
| All (tasks : list (list Event)).

Record World : Type := mkWorld {
  requests : nat;          (** requests issued so far *)
  trace : list Event
}.

(** How an asynchronous computation ends: it fulfils, it rejects, or it is
    still running when the fuel of the model is spent. *)
Inductive Completion (A : Type) : Type :=
| Normal (a : A)
| Throw (e : JsError)
| Pending.

Arguments Normal {A} a.
Arguments Throw {A} e.
Arguments Pending {A}.

Definition M (A : Type) : Type := World -> Completion A * World.

Definition ret {A : Type} (a : A) : M A := fun w => (Normal a, w).

Definition throw {A : Type} (e : JsError) : M A := fun w => (Throw e, w).

Definition pending {A : Type} : M A := fun w => (Pending, w).

Definition bind {A B : Type} (m : M A) (k : A -> M B) : M B :=
  fun w =>
    match m w with
    | (Normal a, w') => k a w'
    | (Throw e, w') => (Throw e, w')
    | (Pending, w') => (Pending, w')
    end.

(** [try { m } catch (e) { handler e }] *)
Definition tryCatch {A : Type} (m : M A) (handler : JsError -> M A) : M A :=
  fun w =>
    match m w with
    | (Throw e, w') => handler e w'
    | r => r
    end.

Definition emit (e : Event) : M unit :=
  fun w => (Normal tt, {| requests := requests w; trace := trace w ++ [e] |}).

(** *** [Promise.all] over the calls of an asynchronous function

    The array handed to [Promise.all] is built by calling the function once
    for each element, one call after the other; each call runs up to its
    first request and returns a promise.  Nothing else runs before the
    array is complete, so the first requests of the tasks are issued in the
    order of the array.  A task whose request is answered has its value; a
    task whose request fails goes on in its [catch] block, which starts
    with a timer.  The timers fire in the order in which the failures were
    handled, and only then are the later requests issued.

    A task is given in two parts for that: what the call does up to the
    answer to its first request, returning its value ([inl]) or the rest
    that waits for the timer ([inr]).  The answer to a request depends on
    the request and on its number only, so it does not matter to the model
    that a task learns it as soon as the request is issued. *)

(** A task that has been called. *)
Record Job (A : Type) : Type := mkJob {
  job_first : nat;                        (** the requests issued before its call *)
  job_state : Completion (A + M A);
  job_events : list Event
}.

Arguments mkJob {A} _ _ _.
Arguments job_first {A} _.
Arguments job_state {A} _.
Arguments job_events {A} _.

(** [array.map(x => f(x))]: the calls, in the order of the array, each with
    a trace of its own. *)
Fixpoint callTasks {A : Type} (tasks : list (M (A + M A))) (n : nat)
  : list (Job A) * nat :=
  match tasks with
  | [] => ([], n)
  | t :: rest =>
      let '(c, w1) := t {| requests := n; trace := [] |} in
      let '(jobs, n') := callTasks rest (requests w1) in
      ({| job_first := n; job_state := c; job_events := trace w1 |} :: jobs, n')
  end.

(** The task at position [p] waits for its timer. *)
Definition waits {A : Type} (jobs : list (Job A)) (p : nat) : bool :=
  match jobs !! p with
  | Some job => match job_state job with Normal (inr _) => true | _ => false end
  | None => false
  end.

(** The instant at which the failure of the task at position [p] is
    handled and its timer set, when [when k] is the instant at which the
    request number [k] is settled. *)
Definition handledAt {A : Type} (when : nat -> nat) (jobs : list (Job A)) (p : nat) : nat :=
  match jobs !! p with
  | Some job => when (job_first job)
  | None => 0
  end.

(** The positions of the tasks that wait, in the order in which their
    timers fire: by the instant of the failure and, within one instant, by
    position. *)
Definition timerOrder {A : Type} (when : nat -> nat) (jobs : list (Job A)) : list nat :=
  @merge_sort nat
    (fun p q => handledAt when jobs p <= handledAt when jobs q)%nat
    (fun p q => decide (handledAt when jobs p <= handledAt when jobs q)%nat)
    (filter (fun p => waits jobs p = true) (seq 0 (length jobs))).

(** The timer of the task at position [p] fires: the rest of the task
    runs, after the requests issued so far and on the trace of the task. *)
Definition resume {A : Type} (st : list (Job A) * nat) (p : nat) : list (Job A) * nat :=
  let '(jobs, n) := st in
  match jobs !! p with
  | Some job =>
      match job_state job with
      | Normal (inr rest) =>
          let '(c, w1) := rest {| requests := n; trace := job_events job |} in
          (<[p := {| job_first := job_first job;
                     job_state := match c with
                                  | Normal a => Normal (inl a)
                                  | Throw e => Throw e
                                  | Pending => Pending
                                  end;
                     job_events := trace w1 |}]> jobs,
           requests w1)
      | _ => (jobs, n)
      end
  | None => (jobs, n)
  end.

(** How the promise of a task is settled in the end. *)
Definition settled {A : Type} (job : Job A) : Completion A :=
  match job_state job with
  | Normal (inl a) => Normal a
  | Normal (inr _) => Pending
  | Throw e => Throw e
  | Pending => Pending
  end.

Fixpoint settleAll {A : Type} (cs : list (Completion A)) : Completion (list A) :=
  match cs with
  | [] => Normal []
  | c :: rest =>
      match c, settleAll rest with
      | Throw e, _ => Throw e
      | _, Throw e => Throw e
      | Normal a, Normal l => Normal (a :: l)
      | _, _ => Pending
      end
  end.

(** [await Promise.all(tasks)]: the tasks are called, those that wait go
    on as their timers fire, and the result holds the values by position,
    whatever the order in which the tasks were settled; it rejects when a
    task does.  The events of each task are kept under one [All] node. *)
Definition promiseAll {A : Type} (when : nat -> nat) (tasks : list (M (A + M A)))
  : M (list A) :=
  fun w =>
    let '(jobs, n1) := callTasks tasks (requests w) in
    let '(jobs', n2) := foldl resume (jobs, n1) (timerOrder when jobs) in
    (settleAll (map settled jobs'),
     {| requests := n2; trace := trace w ++ [All (map job_events jobs')] |}).

End Effects.

Declare Scope js_scope.
Delimit Scope js_scope with js.
Notation "x <- m ;; k" := (Effects.bind m (fun x => k))
  (at level 100, m at next level, right associativity) : js_scope.
Notation "m ;;; k" := (Effects.bind m (fun _ => k))
  (at level 100, right associativity) : js_scope.

(* ===================================================================== *)
(** * hpcsa-service.ts                                                    *)
(* ===================================================================== *)

Module HPCSAService.

Import Js Types Effects.
Local Open Scope js_scope.

(** The console output of the service, and the values computed only for it
    ([totalBatches], [batchNumber], the durations, the counts of found
    records), are left out: nothing reads them back. *)

(** A row of the remote report.  Its columns are textual (0:Title,
    1:Surname, 2:Fullname, 3:Registration, 4:City, 5:PostalCode,
    6:Category, 7:Status) and end up in the [string] fields of
    [HPCSARecord]: a cell is a string, or [None] for [null]. *)
Definition Row : Type := list (option string).

(** The decoded body, of the shape that the interface declares. *)
Record HPCSAApiResponse : Type := mkApiResponse {
  data : option (list Row);      (** [None]: the property is null or absent *)
  headers : list string;
  error : option string
}.

(** What the network makes of a request. *)
Inductive FetchOutcome : Type :=
| TimedOut                        (** no response before the timer fired *)
| Unreachable                     (** [fetch] rejected *)
| Response (status : Z) (body : option HPCSAApiResponse).
                                  (** a response; [None]: the body is not JSON *)

(** The remote endpoint and the network in front of it.  [answer k r] is
    what the request [r] meets when it is the [k]-th request that the run
    issues.  [latency k] is the time that the [k]-th request takes to be
    settled -- answered, failed or timed out --, in instants of the event
    loop; it orders the failures of the requests that a wave issues
    together, and with them the retries.  Nothing is assumed of either, so
    every remote state, every change of it between two requests and every
    order in which the requests of a wave are settled is covered. *)
Record Network : Type := mkNetwork {
  answer :> nat -> Request -> FetchOutcome;
  latency : nat -> nat
}.

(** [response.ok] *)
Definition ok (status : Z) : bool := (200 <=? status) && (status <=? 299).

Record BatchSearchOptions : Type := mkBatchOptions {
  bo_timeoutMs : option Z;
  bo_maxRetries : option Z;
  bo_batchSize : option Z;
  bo_maxConcurrent : option Z;
  bo_delayBetweenBatchesMs : option Z;
  bo_onProgress : option (Z -> Z -> M unit)
}.

(** [row[k]]: [undefined] past the end of the row; [undefined] and [null]
    are told apart nowhere in the service. *)
Definition cell (row : Row) (k : nat) : option string :=
  match nth_error row k with
  | Some c => c
  | None => None
  end.

(** [c || d] *)
Definition orElse (c : option string) (d : string) : string :=
  match c with
  | Some s => if truthyStr s then s else d
  | None => d
  end.

Definition truthyOpt (c : option string) : bool :=
  match c with
  | Some s => truthyStr s
  | None => false
  end.

Section Service.

Variable net : Network.
Variable config : HPCSAApiConfig.     (** [this.config] *)

(** [private delay(ms)] *)
Definition delay (ms : Z) : M unit := emit (Delay ms).

(** [private async executeSearch(registrationNumber, timeoutMs)] *)
Definition executeSearch (registrationNumber : string) (timeoutMs : Z)
  : M HPCSAApiResponse :=
  fun w =>
    let request := mkRequest (apiUrl config) registrationNumber timeoutMs in
    let w' := {| requests := S (requests w); trace := trace w ++ [Fetch request] |} in
    match net (requests w) request with
    | TimedOut => (Throw AbortError, w')
    | Unreachable => (Throw FetchError, w')
    | Response st body =>
        if negb (ok st) then (Throw (ApiReturned st), w')
        else match body with
             | Some json => (Normal json, w')
             | None => (Throw JsonError, w')
             end
    end.

(** [private parseSearchResults(result, registrationNumber)] *)
Definition parseSearchResults (result : HPCSAApiResponse) (registrationNumber : string)
  : list HPCSARecord :=
  match data result with
  | None => []
  | Some rows =>
      if truthyOpt (error result) || (length rows =? 0)%nat then []
      else
        map (fun row =>
               {| rec_name :=
                    trim (orElse (cell row 0) "" +:+ " " +:+ orElse (cell row 1) ""
                          +:+ " " +:+ orElse (cell row 2) "");
                  rec_registration :=
                    removeWhitespace (orElse (cell row 3) registrationNumber);
                  rec_city := orElse (cell row 4) "";
                  rec_status := orElse (cell row 7) "" |})
            rows
  end.

(** [{ registration: registrationNumber, name: "", city: "", status: "",
      found: false }] *)
Definition notFound (registrationNumber : string) : BatchSearchResult :=
  {| name := ""; registration := registrationNumber; city := ""; status := "";
     found := false; professionalCouncilName := None; timeInSession := None |}.

(** [{ ...record, found: true }] *)
Definition foundRecord (record : HPCSARecord) : BatchSearchResult :=
  {| name := rec_name record; registration := rec_registration record;
     city := rec_city record; status := rec_status record;
     found := true; professionalCouncilName := None; timeInSession := None |}.

(** [async searchSingle(registrationNumber, options = {})] *)
Definition searchSingle (registrationNumber : string) (options : SearchOptions)
  : M (list HPCSARecord) :=
  let timeoutMs := default (timeoutMs config) (so_timeoutMs options) in
  tryCatch
    (result <- executeSearch registrationNumber timeoutMs ;;
     ret (parseSearchResults result registrationNumber))
    (fun _error => ret []).

(** [private async searchSingleAsBatchResult(registrationNumber, options)] *)
Definition searchSingleAsBatchResult (registrationNumber : string)
  (options : SearchOptions) : M BatchSearchResult :=
  let timeoutMs := default (timeoutMs config) (so_timeoutMs options) in
  tryCatch
    (result <- executeSearch registrationNumber timeoutMs ;;
     let records := parseSearchResults result registrationNumber in
     match records with
     | [] => ret (notFound registrationNumber)
     | record :: _ => ret (foundRecord record)
     end)
    (fun _error =>
       tryCatch
         (delay 500 ;;;
          result <- executeSearch registrationNumber timeoutMs ;;
          let records := parseSearchResults result registrationNumber in
          match records with
          | [] => ret (notFound registrationNumber)
          | record :: _ => ret (foundRecord record)
          end)
         (fun _retryError => ret (notFound registrationNumber))).

(** The [catch] block of [searchSingleAsBatchResult] *)
Definition retryAfterError (registrationNumber : string) (timeoutMs : Z)
  : M BatchSearchResult :=
  tryCatch
    (delay 500 ;;;
     result <- executeSearch registrationNumber timeoutMs ;;
     let records := parseSearchResults result registrationNumber in
     match records with
     | [] => ret (notFound registrationNumber)
     | record :: _ => ret (foundRecord record)
     end)
    (fun _retryError => ret (notFound registrationNumber)).

(** [this.searchSingleAsBatchResult(reg, options)] as an element of the
    array that [searchBatch] hands to [Promise.all]: the [try] block with
    the first request, and the [catch] block as the rest of the task. *)
Definition searchSingleAsBatchResultTask (registrationNumber : string)
  (options : SearchOptions) : M (BatchSearchResult + M BatchSearchResult) :=
  let timeoutMs := default (timeoutMs config) (so_timeoutMs options) in
  tryCatch
    (result <- executeSearch registrationNumber timeoutMs ;;
     let records := parseSearchResults result registrationNumber in
     match records with
     | [] => ret (inl (notFound registrationNumber))
     | record :: _ => ret (inl (foundRecord record))
     end)
    (fun _error => ret (inr (retryAfterError registrationNumber timeoutMs))).

(** [onProgress?.(completed, total)] *)
Definition callProgress (onProgress : option (Z -> Z -> M unit))
  (completed total : Z) : M unit :=
  match onProgress with
  | Some callback => callback completed total
  | None => ret tt
  end.

(** The [for] loop of [searchBatch], from the test [i < length] on.  The
    loop runs as long as the test holds; [fuel] bounds the iterations of
    the model, and a run that needs more is [Pending]. *)
Fixpoint searchBatchLoop (fuel : nat) (registrationNumbers : list string)
  (maxConcurrent delayBetweenBatchesMs timeoutMs : Z)
  (onProgress : option (Z -> Z -> M unit))
  (i : Z) (results : list BatchSearchResult) : M (list BatchSearchResult) :=
  match fuel with
  | O => pending
  | S fuel' =>
      let len := Z.of_nat (length registrationNumbers) in
      if i <? len then
        let batch := slice registrationNumbers i (i + maxConcurrent) in
        batchResults <-
          promiseAll (latency net)
            (map (fun reg =>
                    searchSingleAsBatchResultTask reg
                      {| so_timeoutMs := Some timeoutMs; so_maxRetries := None |})
                 batch) ;;
        let results := results ++ batchResults in
        callProgress onProgress (Z.min (i + maxConcurrent) len) len ;;;
        (if i + maxConcurrent <? len then delay delayBetweenBatchesMs else ret tt) ;;;
        searchBatchLoop fuel' registrationNumbers maxConcurrent
          delayBetweenBatchesMs timeoutMs onProgress (i + maxConcurrent) results
      else ret results
  end.

(** [async searchBatch(registrationNumbers, options = {})] *)
Definition searchBatch (fuel : nat) (registrationNumbers : list string)
  (options : BatchSearchOptions) : M (list BatchSearchResult) :=
  let maxConcurrent := default (maxConcurrentRequests config) (bo_maxConcurrent options) in
  let delayBetweenBatchesMs :=
    default (delayBetweenBatchesMs config) (bo_delayBetweenBatchesMs options) in
  let timeoutMs := default (timeoutMs config) (bo_timeoutMs options) in
  let onProgress := bo_onProgress options in
  searchBatchLoop fuel registrationNumbers maxConcurrent delayBetweenBatchesMs
    timeoutMs onProgress 0 [].

End Service.

(** A progress callback that does nothing but record its arguments. *)
Definition reportProgress (completed total : Z) : M unit :=
  emit (Progress completed total).

End HPCSAService.

(* ===================================================================== *)
(** * batch-processor-service.ts                                          *)
(* ===================================================================== *)

Module BatchProcessorService.

Import Js Types Effects.
Local Open Scope js_scope.

(** [private calculateStatistics(results)] *)
Definition calculateStatistics (results : list BatchSearchResult) : BatchStatistics :=
  let activeCount :=
    length (List.filter
              (fun r => found r && String.eqb (toLowerCase (status r)) "active")
              results) in
  let inactiveCount :=
    length (List.filter
              (fun r => found r && negb (String.eqb (toLowerCase (status r)) "active"))
              results) in
  let notFoundCount := length (List.filter (fun r => negb (found r)) results) in
  {| activeCount := activeCount;
     inactiveCount := inactiveCount;
     notFoundCount := notFoundCount;
     totalProcessed := length results |}.

Section Processor.

Variable net : HPCSAService.Network.
Variable hpcsaConfig : HPCSAApiConfig.       (** the injected [hpcsaService] *)
Variable config : BatchProcessorConfig.      (** the constructor's argument *)

(** [this.config], as the constructor fills it in *)
Definition cfg_batchSize : Z := default 20 (pc_batchSize config).
Definition cfg_maxConcurrentRequests : Z := default 10 (pc_maxConcurrentRequests config).
Definition cfg_delayBetweenBatchesMs : Z := default 100 (pc_delayBetweenBatchesMs config).

(** [async process(registrationNumbers, onProgress?)] *)
Definition process (fuel : nat) (registrationNumbers : list string)
  (onProgress : option (Z -> Z -> M unit)) : M BatchSearchResponse :=
  let searchOptions :=
    {| HPCSAService.bo_timeoutMs := None;
       HPCSAService.bo_maxRetries := None;
       HPCSAService.bo_batchSize := Some cfg_batchSize;
       HPCSAService.bo_maxConcurrent := Some cfg_maxConcurrentRequests;
       HPCSAService.bo_delayBetweenBatchesMs := Some cfg_delayBetweenBatchesMs;
       HPCSAService.bo_onProgress := onProgress |} in
  results <- HPCSAService.searchBatch net hpcsaConfig fuel registrationNumbers searchOptions ;;
  let statistics := calculateStatistics results in
  ret {| results := results; statistics := statistics |}.

End Processor.

End BatchProcessorService.

(* ===================================================================== *)
(** * registration-extractor-service.ts                                   *)
(* ===================================================================== *)

Module RegistrationExtractorService.

Import Js Types.

(** A parsed row, [Record<string, unknown>]: column name to value. *)
Abbreviation DataRow := (gmap string JsVal).

Definition defaultFieldMappings : FieldMappings :=
  {| fm_csv :=
       {| csv_attended := ["Attended"; "attended"; "ATTENDED"; "Did Attend"; "did_attend"];
          csv_timeInSession :=
            ["Time in Session (minutes)"; "Time in Session";
             "time in session (minutes)"; "time in session";
             "Time in Session (minutes)"; "Duration (minutes)"; "duration"];
          csv_professionalCouncilName :=
            ["Professional council name"; "professional council name";
             "Professional Council Name"; "Council Name"; "council name";
             "CouncilName"];
          csv_registration :=
            ["Professional council number"; "professional council number";
             "Professional Council Number"; "Council Number"; "council number";
             "CouncilNumber"] |};
     fm_excel :=
       {| excel_attended :=
            Some ["Attended"; "attended"; "ATTENDED"; "Did Attend"; "did_attend"];
          excel_timeInSession :=
            Some ["Time in Session (minutes)"; "Time in Session";
                  "time in session (minutes)"; "time in session";
                  "Duration (minutes)"; "duration"];
          excel_professionalCouncilName :=
            Some ["Professional council name"; "professional council name";
                  "Professional Council Name"; "Council Name"; "council name";
                  "CouncilName"];
          excel_registration :=
            ["Registration number"; "registration number"; "Registration Number";
             "RegistrationNumber"; "Registration"; "registration"; "RegNo";
             "regNo"] |} |}.

(** [value !== undefined && value !== null && value !== ""] *)
Definition nonEmpty (value : option JsVal) : bool :=
  match value with
  | None => false
  | Some JNull => false
  | Some (JStr EmptyString) => false
  | Some _ => true
  end.

(** [private getFieldValue(row, possibleFieldNames)] *)
Fixpoint getFieldValue (row : DataRow) (possibleFieldNames : list string)
  : option JsVal :=
  match possibleFieldNames with
  | [] => None
  | fieldName :: rest =>
      let value := row !! fieldName in
      if nonEmpty value then value else getFieldValue row rest
  end.

(** [String(value)] of a value that is not [undefined] *)
Definition stringOf (value : option JsVal) : string :=
  match value with
  | Some v => toString v
  | None => "undefined"
  end.

(** [private shouldProcessRow(row, attendedFields)] *)
Definition shouldProcessRow (row : DataRow) (attendedFields : list string) : bool :=
  let attendedValue := getFieldValue row attendedFields in
  if negb (nonEmpty attendedValue) then false
  else
    let attendedStr := toLowerCase (trim (stringOf attendedValue)) in
    if String.eqb attendedStr "no" || String.eqb attendedStr "false"
       || String.eqb attendedStr "0"
    then false
    else true.

(** [private isHPCSARegistered(row, councilNameFields)] *)
Definition isHPCSARegistered (row : DataRow) (councilNameFields : list string) : bool :=
  let councilNameValue := getFieldValue row councilNameFields in
  if negb (nonEmpty councilNameValue) then false
  else
    let councilName := toUpperCase (trim (stringOf councilNameValue)) in
    if negb (String.eqb councilName "HPCSA") then false else true.

(** The loop variables of [extract]. *)
Record ExtractState : Type := mkState {
  st_registrationNumbers : list string;
  st_skippedCount : nat;
  st_skippedByAttendanceCount : nat;
  st_skippedByCouncilCount : nat
}.

(** [registrationNumbers.includes(regStr)] *)
Definition includes (l : list string) (s : string) : bool :=
  existsb (String.eqb s) l.

Section Extractor.

Variable fieldMappings : FieldMappings.      (** [this.fieldMappings] *)

(** [this.fieldMappings[fileType]?.attended] *)
Definition attendedOf (fileType : FileType) : option (list string) :=
  match fileType with
  | csv => Some (csv_attended (fm_csv fieldMappings))
  | excel => excel_attended (fm_excel fieldMappings)
  end.

(** [this.fieldMappings[fileType]?.professionalCouncilName] *)
Definition councilNameOf (fileType : FileType) : option (list string) :=
  match fileType with
  | csv => Some (csv_professionalCouncilName (fm_csv fieldMappings))
  | excel => excel_professionalCouncilName (fm_excel fieldMappings)
  end.

(** [fields && fields.length > 0] *)
Definition configured (fields : option (list string)) : bool :=
  match fields with
  | Some (_ :: _) => true
  | _ => false
  end.

(** [private getRegistrationNumber(row, fileType)] *)
Definition getRegistrationNumber (row : DataRow) (fileType : FileType) : option string :=
  let fields :=
    match fileType with
    | csv => csv_registration (fm_csv fieldMappings)
    | excel => excel_registration (fm_excel fieldMappings)
    end in
  match getFieldValue row fields with
  | None => None
  | Some value => if negb (truthy value) then None else Some (trim (toString value))
  end.

(** One iteration of the [for (const row of data)] loop of [extract]. *)
Definition extractRow (fileType : FileType) (st : ExtractState) (row : DataRow)
  : ExtractState :=
  let attendedFields := attendedOf fileType in
  if configured attendedFields
     && negb (shouldProcessRow row (default [] attendedFields))
  then
    {| st_registrationNumbers := st_registrationNumbers st;
       st_skippedCount := S (st_skippedCount st);
       st_skippedByAttendanceCount := S (st_skippedByAttendanceCount st);
       st_skippedByCouncilCount := st_skippedByCouncilCount st |}
  else
    let councilNameFields := councilNameOf fileType in
    if configured councilNameFields
       && (match fileType with csv => true | excel => false end)
       && negb (isHPCSARegistered row (default [] councilNameFields))
    then
      {| st_registrationNumbers := st_registrationNumbers st;
         st_skippedCount := S (st_skippedCount st);
         st_skippedByAttendanceCount := st_skippedByAttendanceCount st;
         st_skippedByCouncilCount := S (st_skippedByCouncilCount st) |}
    else
      match getRegistrationNumber row fileType with
      | Some regNumber =>
          if truthyStr regNumber then
            let regStr := trim regNumber in
            if truthyStr regStr && negb (includes (st_registrationNumbers st) regStr)
            then
              {| st_registrationNumbers := st_registrationNumbers st ++ [regStr];
                 st_skippedCount := st_skippedCount st;
                 st_skippedByAttendanceCount := st_skippedByAttendanceCount st;
                 st_skippedByCouncilCount := st_skippedByCouncilCount st |}
            else st
          else
            {| st_registrationNumbers := st_registrationNumbers st;
               st_skippedCount := S (st_skippedCount st);
               st_skippedByAttendanceCount := st_skippedByAttendanceCount st;
               st_skippedByCouncilCount := st_skippedByCouncilCount st |}
      | None =>
          {| st_registrationNumbers := st_registrationNumbers st;
             st_skippedCount := S (st_skippedCount st);
             st_skippedByAttendanceCount := st_skippedByAttendanceCount st;
             st_skippedByCouncilCount := st_skippedByCouncilCount st |}
      end.

Definition initialState : ExtractState :=
  {| st_registrationNumbers := [];
     st_skippedCount := 0;
     st_skippedByAttendanceCount := 0;
     st_skippedByCouncilCount := 0 |}.

(** [extract(data, options)] *)
Definition extract (data : list DataRow) (fileType : FileType)
  : ExtractRegistrationResult :=
  let st := fold_left (extractRow fileType) data initialState in
  {| registrationNumbers := st_registrationNumbers st;
     skippedCount := st_skippedCount st;
     totalRows := length data |}.

End Extractor.

End RegistrationExtractorService.

(* ===================================================================== *)
(** * The vocabulary of the properties                                    *)
(* ===================================================================== *)

Module Spec.

Import Js Types Effects HPCSAService.

(** ** Statistics *)

Inductive Bucket : Type := Active | Inactive | NotFound.

(** The rule of the aggregator, one constructor per bucket. *)
Inductive InBucket (r : BatchSearchResult) : Bucket -> Prop :=
| in_active :
    found r = true -> toLowerCase (status r) = "active"%string -> InBucket r Active
| in_inactive :
    found r = true -> toLowerCase (status r) <> "active"%string -> InBucket r Inactive
| in_not_found :
    found r = false -> InBucket r NotFound.

(** One more outcome in bucket [b]. *)
Definition bump (b : Bucket) (s : BatchStatistics) : BatchStatistics :=
  match b with
  | Active =>
      {| activeCount := S (activeCount s); inactiveCount := inactiveCount s;
         notFoundCount := notFoundCount s; totalProcessed := S (totalProcessed s) |}
  | Inactive =>
      {| activeCount := activeCount s; inactiveCount := S (inactiveCount s);
         notFoundCount := notFoundCount s; totalProcessed := S (totalProcessed s) |}
  | NotFound =>
      {| activeCount := activeCount s; inactiveCount := inactiveCount s;
         notFoundCount := S (notFoundCount s); totalProcessed := S (totalProcessed s) |}
  end.

(** ** Lookups *)

(** A lookup fails when [executeSearch] has nothing to return: the request
    timed out, the network failed, the status is not a success, or the body
    cannot be decoded. *)
Definition failed (o : FetchOutcome) : bool :=
  match o with
  | TimedOut => true
  | Unreachable => true
  | Response st body =>
      negb (ok st) || match body with Some _ => false | None => true end
  end.

(** The decoded body that [executeSearch] returns, if the lookup does not
    fail. *)
Definition bodyOf (o : FetchOutcome) : option HPCSAApiResponse :=
  match o with
  | Response st (Some json) => if ok st then Some json else None
  | _ => None
  end.

(** The world once one more request has been issued. *)
Definition fetched (w : World) (r : Request) : World :=
  {| requests := S (requests w); trace := trace w ++ [Fetch r] |}.

(** The outcome that the wrapper builds from a decoded body. *)
Definition outcomeOf (registrationNumber : string) (json : HPCSAApiResponse)
  : BatchSearchResult :=
  match parseSearchResults json registrationNumber with
  | [] => notFound registrationNumber
  | record :: _ => foundRecord record
  end.

(** The same configuration with another [maxRetries]. *)
Definition withMaxRetries (m : Z) (config : HPCSAApiConfig) : HPCSAApiConfig :=
  {| apiUrl := apiUrl config; timeoutMs := timeoutMs config; maxRetries := m;
     batchSize := batchSize config;
     maxConcurrentRequests := maxConcurrentRequests config;
     delayBetweenBatchesMs := delayBetweenBatchesMs config |}.

(** The text at position [k] of a row; empty when there is none. *)
Definition text (row : Row) (k : nat) : string :=
  match nth_error row k with
  | Some (Some s) => s
  | _ => ""%string
  end.

(** Position [k] holds a text that is not empty. *)
Definition present (row : Row) (k : nat) : bool := truthyStr (text row k).

(** ** Traces of the dispatcher *)

Inductive Step : Type :=
| SWave (size : nat)
| SProgress (completed total : Z)
| SPause (ms : Z)
| SFetch.

Definition stepOf (e : Event) : Step :=
  match e with
  | All tasks => SWave (length tasks)
  | Progress a b => SProgress a b
  | Delay ms => SPause ms
  | Fetch _ => SFetch
  end.

(** The sizes of the waves, the arguments of the progress calls and the
    pauses of the coordinating flow, each in program order. *)
Definition waveSizes (evs : list Event) : list nat :=
  flat_map (fun e => match e with All tasks => [length tasks] | _ => [] end) evs.

Definition progressCalls (evs : list Event) : list (Z * Z) :=
  flat_map (fun e => match e with Progress a b => [(a, b)] | _ => [] end) evs.

Definition pauses (evs : list Event) : list Z :=
  flat_map (fun e => match e with Delay ms => [ms] | _ => [] end) evs.

(** The same three projections, on steps. *)
Definition sizesOf (steps : list Step) : list nat :=
  flat_map (fun s => match s with SWave size => [size] | _ => [] end) steps.

Definition callsOf (steps : list Step) : list (Z * Z) :=
  flat_map (fun s => match s with SProgress a b => [(a, b)] | _ => [] end) steps.

Definition pausesOf (steps : list Step) : list Z :=
  flat_map (fun s => match s with SPause ms => [ms] | _ => [] end) steps.

(** The outcome for an identifier when the remote answers a request the
    same way whenever it is asked: the answer to the first request decides. *)
Definition verdict (net : Network) (config : HPCSAApiConfig) (t : Z) (id : string)
  : BatchSearchResult :=
  match bodyOf (net 0%nat (mkRequest (apiUrl config) id t)) with
  | Some json => outcomeOf id json
  | None => notFound id
  end.

(** The remote answers a request the same way whenever it is asked. *)
Definition steadyRemote (net : Network) : Prop :=
  forall k k' r, net k r = net k' r.

(** The number of waves for [n] identifiers under a limit of [c]. *)
Definition waveCount (n c : Z) : nat := Z.to_nat (ceilDiv n c).

(** What wave [k] contributes to the trace: the wave itself, the progress
    call when a callback observes the run, and the pause when identifiers
    remain after it. *)
Definition waveSteps (observed : bool) (n c d : Z) (k : nat) : list Step :=
  let i := Z.of_nat k * c in
  [SWave (Z.to_nat (Z.min c (n - i)))]
  ++ (if observed then [SProgress (Z.min (i + c) n) n] else [])
  ++ (if i + c <? n then [SPause d] else []).

(** What the retry wrapper makes of the answers that its request meets as
    the [a]-th request of a run and, when that one fails, as the [b]-th. *)
Definition attempt (net : Network) (config : HPCSAApiConfig) (t : Z)
  (id : string) (a b : nat) : BatchSearchResult :=
  let req := mkRequest (apiUrl config) id t in
  match bodyOf (net a req) with
  | Some json => outcomeOf id json
  | None =>
      match bodyOf (net b req) with
      | Some json => outcomeOf id json
      | None => notFound id
      end
  end.

(** [r] is an outcome of the retry wrapper for the identifier [id]: what
    the wrapper makes of its request as some request of the run and, when
    that one fails, as some later one.  Which requests these are depends on
    the other tasks of the wave and is left open. *)
Definition answers (net : Network) (config : HPCSAApiConfig) (t : Z)
  (id : string) (r : BatchSearchResult) : Prop :=
  exists a b, (a < b)%nat /\ r = attempt net config t id a b.

(** The task of one identifier in a wave. *)
Definition task (net : Network) (config : HPCSAApiConfig) (t : Z) (reg : string)
  : M (BatchSearchResult + M BatchSearchResult) :=
  searchSingleAsBatchResultTask net config reg
    {| so_timeoutMs := Some t; so_maxRetries := None |}.

(** A callback that always returns. *)
Definition returns (callback : Z -> Z -> M unit) : Prop :=
  forall a b w, exists w', callback a b w = (Normal tt, w').

Definition returnsIfAny (onProgress : option (Z -> Z -> M unit)) : Prop :=
  forall callback, onProgress = Some callback -> returns callback.

(** The options of a run that is observed by [reportProgress], or not
    observed at all. *)
Definition progressOption (observed : bool) : option (Z -> Z -> M unit) :=
  if observed then Some reportProgress else None.

(** ** Strings *)

(** A string that is empty or starts with a code unit that is not white
    space. *)
Definition startsClean (s : string) : Prop :=
  match s with
  | EmptyString => True
  | String c _ => isWhiteSpace c = false
  end.

(** ** Extraction *)

(** The first occurrences of a list, in order. *)
Fixpoint firstOccurrences (l : list string) : list string :=
  match l with
  | [] => []
  | x :: rest => x :: filter (fun y => y <> x) (firstOccurrences rest)
  end.

(** What [extract] does with a list it has and one more registration
    number. *)
Definition addNew (acc : list string) (s : string) : list string :=
  if RegistrationExtractorService.includes acc s then acc else acc ++ [s].

(** The registration number that a row contributes; [None] when the row is
    skipped: it fails the attendance check, or the council check, or it has
    no registration number. *)
Definition rowRegistration (fieldMappings : FieldMappings) (fileType : FileType)
  (row : gmap string JsVal) : option string :=
  let attendedFields := RegistrationExtractorService.attendedOf fieldMappings fileType in
  let councilNameFields := RegistrationExtractorService.councilNameOf fieldMappings fileType in
  if RegistrationExtractorService.configured attendedFields
     && negb (RegistrationExtractorService.shouldProcessRow row (default [] attendedFields))
  then None
  else if RegistrationExtractorService.configured councilNameFields
          && (match fileType with csv => true | excel => false end)
          && negb (RegistrationExtractorService.isHPCSARegistered row
                     (default [] councilNameFields))
  then None
  else
    match RegistrationExtractorService.getRegistrationNumber fieldMappings row fileType with
    | Some regNumber => if truthyStr regNumber then Some regNumber else None
    | None => None
    end.

(** The registration numbers of the rows that are not skipped, in order,
    repetitions included. *)
Fixpoint candidates (fieldMappings : FieldMappings) (fileType : FileType)
  (data : list (gmap string JsVal)) : list string :=
  match data with
  | [] => []
  | row :: rest =>
      match rowRegistration fieldMappings fileType row with
      | Some s => s :: candidates fieldMappings fileType rest
      | None => candidates fieldMappings fileType rest
      end
  end.

(** The number of rows that are skipped. *)
Fixpoint skippedRows (fieldMappings : FieldMappings) (fileType : FileType)
  (data : list (gmap string JsVal)) : nat :=
  match data with
  | [] => 0
  | row :: rest =>
      match rowRegistration fieldMappings fileType row with
      | Some _ => skippedRows fieldMappings fileType rest
      | None => S (skippedRows fieldMappings fileType rest)
      end
  end.

End Spec.

(* ===================================================================== *)
(** * Sample data                                                         *)
(* ===================================================================== *)

Module Demo.

Import Js Types Effects HPCSAService.
Local Open Scope string_scope.

(** [defaultConfig], with an empty environment. *)
Definition defaultConfig : HPCSAApiConfig :=
  {| apiUrl := "https://hpcsaonline.custhelp.com/cc/ReportController/getDataFromRnow";
     timeoutMs := 15000;
     maxRetries := 3;
     batchSize := 20;
     maxConcurrentRequests := 5;
     delayBetweenBatchesMs := 200 |}.

Definition start : World := {| requests := 0; trace := [] |}.

Definition practitioner (reg st : string) : Row :=
  [Some "Dr"; Some "Dlamini"; Some "Thandi"; Some reg; Some "Durban";
   Some "4001"; Some "Medical Practitioner"; Some st].

Definition report (rows : list Row) : HPCSAApiResponse :=
  {| data := Some rows; headers := []; error := None |}.

(** A register with two practitioners. *)
Definition register (r : Request) : FetchOutcome :=
  if String.eqb (req_regNumber r) "MP0001"
  then Response 200 (Some (report [practitioner "MP 0001" "Active"]))
  else if String.eqb (req_regNumber r) "MP0002"
  then Response 200 (Some (report [practitioner "MP 0002" "Inactive"]))
  else Response 200 (Some (report [])).

(** The register behind a network that works. *)
Definition steady : Network :=
  {| answer := fun _ r => register r; latency := fun _ => 0%nat |}.

(** The register behind a network that loses the first request. *)
Definition flaky : Network :=
  {| answer := fun k r => match k with O => TimedOut | S _ => register r end;
     latency := fun _ => 0%nat |}.

(** An endpoint that is down. *)
Definition down : Network :=
  {| answer := fun _ _ => Response 503 None; latency := fun _ => 0%nat |}.

(** An endpoint that answers every request with rows and an error flag. *)
Definition flaggedBody : HPCSAApiResponse :=
  {| data := Some [practitioner "MP 0001" "Active"]; headers := [];
     error := Some "Report is not available" |}.

Definition flagged : Network :=
  {| answer := fun _ _ => Response 200 (Some flaggedBody); latency := fun _ => 0%nat |}.

(** A report of two rows, the second one short. *)
Definition twoRows : list Row :=
  [ [Some " Dr"; None; Some "Thandi "; Some "MP 000 1"; Some "Durban"; Some "4001";
     Some "Medical Practitioner"; Some "Active"];
    [Some "Mr"; Some "Nkosi"; Some "Sipho"] ].

Definition five : list string := ["MP0001"; "MP0002"; "ZZ9999"; "MP0003"; "MP0004"].

Definition options (c : Z) (onProgress : option (Z -> Z -> M unit)) : BatchSearchOptions :=
  {| bo_timeoutMs := None; bo_maxRetries := None; bo_batchSize := None;
     bo_maxConcurrent := Some c; bo_delayBetweenBatchesMs := Some 100;
     bo_onProgress := onProgress |}.

(** A row of an attendance report. *)
Definition attendee (attended council number : JsVal) : gmap string JsVal :=
  list_to_map
    [("Attended", attended);
     ("Professional council name", council);
     ("Professional council number", number)].

(** Five rows: a practitioner, a second one, the first one again, an
    attendee of another council, and a row without number. *)
Definition attendance : list (gmap string JsVal) :=
  [ attendee (JStr "Yes") (JStr "HPCSA") (JStr " MP0001 ");
    attendee (JStr "Yes") (JStr "hpcsa") (JStr "MP 0002");
    attendee (JBool true) (JStr "HPCSA") (JStr "MP0001");
    attendee (JStr "Yes") (JStr "SANC") (JStr "SN0003");
    attendee (JStr "Yes") (JStr "HPCSA") (JNum 0) ].

End Demo.

(* ===================================================================== *)
(** * More vocabulary: normal forms, networks, qualifying rows            *)
(* ===================================================================== *)

Module Notions.

Import Js Types Effects HPCSAService Spec.

(** No code unit of the string is white space. *)
Definition noWhiteSpace (s : string) : Prop :=
  Forall (fun c => isWhiteSpace c = false) (list_ascii_of_string s).

(** A network on which no lookup fails, and one on which every lookup
    does. *)
Definition healthy (net : Network) : Prop := forall k r, failed (net k r) = false.

Definition outage (net : Network) : Prop := forall k r, failed (net k r) = true.

(** The row passes the attendance check of [extract], which is made only
    when attendance columns are configured for the file type. *)
Definition passesAttendance (fieldMappings : FieldMappings) (fileType : FileType)
  (row : gmap string JsVal) : Prop :=
  RegistrationExtractorService.configured
    (RegistrationExtractorService.attendedOf fieldMappings fileType) = true ->
  RegistrationExtractorService.shouldProcessRow row
    (default [] (RegistrationExtractorService.attendedOf fieldMappings fileType)) = true.

(** The row passes the council check of [extract], which is made only for
    csv files with council columns configured. *)
Definition passesCouncil (fieldMappings : FieldMappings) (fileType : FileType)
  (row : gmap string JsVal) : Prop :=
  fileType = csv ->
  RegistrationExtractorService.configured
    (RegistrationExtractorService.councilNameOf fieldMappings fileType) = true ->
  RegistrationExtractorService.isHPCSARegistered row
    (default [] (RegistrationExtractorService.councilNameOf fieldMappings fileType)) = true.

(** A value that [getFieldValue] takes for filled in and that holds no
    registration number: the number 0, the boolean false, or a text that is
    white space only. *)
Definition blankValue (v : JsVal) : Prop :=
  v = JNum 0 \/ v = JBool false
  \/ exists s, v = JStr s /\ s <> EmptyString /\ trim s = EmptyString.

(** The registration columns of a file type. *)
Definition registrationFields (fieldMappings : FieldMappings) (fileType : FileType)
  : list string :=
  match fileType with
  | csv => csv_registration (fm_csv fieldMappings)
  | excel => excel_registration (fm_excel fieldMappings)
  end.

End Notions.

(* ===================================================================== *)
(** * More sample data                                                    *)
(* ===================================================================== *)

Module Samples.

Import Js Types Effects HPCSAService.
Local Open Scope string_scope.

(** A row whose first registration column holds the number 0 and whose
    alias column holds a registration number. *)
Definition shadowed : gmap string JsVal :=
  list_to_map
    [("Attended", JStr "Yes");
     ("Professional council name", JStr "HPCSA");
     ("Professional council number", JNum 0);
     ("Council Number", JStr "MP0009")].

(** A row whose first registration column holds two spaces and whose alias
    column holds a registration number. *)
Definition blank : gmap string JsVal :=
  list_to_map
    [("Attended", JStr "Yes");
     ("Professional council name", JStr "HPCSA");
     ("Professional council number", JStr "  ");
     ("Council Number", JStr "MP0009")].

(** The register behind a network that loses every other request,
    starting with the first. *)
Definition lossy : Network :=
  {| answer := fun k r => if Nat.even k then TimedOut else Demo.register r;
     latency := fun _ => 0%nat |}.

(** A network that answers the third request of a run and no other, and
    on which the first request takes [first] instants and every later one
    [later] instants to fail. *)
Definition thirdOnly (first later : nat) : Network :=
  {| answer := fun k r => if (k =? 2)%nat then Demo.register r else TimedOut;
     latency := fun k => match k with O => first | S _ => later end |}.

End Samples.

(* ===================================================================== *)
(** * More of the JavaScript runtime: searching in strings                *)
(* ===================================================================== *)

Module JsText.

Import Js.

(** [s.startsWith(prefix)] *)
Fixpoint startsWith (s prefix : string) : bool :=
  match prefix, s with
  | EmptyString, _ => true
  | String p prefix', String c s' => Ascii.eqb c p && startsWith s' prefix'
  | String _ _, EmptyString => false
  end.

(** [s.includes(part)]: [part] starts at some position of [s]. *)
Fixpoint includes (s part : string) : bool :=
  startsWith s part
  || match s with
     | EmptyString => false
     | String _ s' => includes s' part
     end.

(** [s.endsWith(suffix)]: [suffix] is what is left of [s] from some
    position on. *)
Fixpoint endsWith (s suffix : string) : bool :=
  String.eqb s suffix
  || match s with
     | EmptyString => false
     | String _ s' => endsWith s' suffix
     end.

(** The text of an array element in [a.join(sep)]: empty for [undefined]
    and [null], [String(v)] otherwise. *)
Definition joinText (cell : option JsVal) : string :=
  match cell with
  | None => ""
  | Some JNull => ""
  | Some v => toString v
  end.

(** [a.join(sep)] on an array of values *)
Definition join (sep : string) (a : list (option JsVal)) : string :=
  String.concat sep (map joinText a).

(** [String(n)] for a count *)
Definition ofNat (n : nat) : string := NilZero.string_of_uint (Nat.to_uint n).


End JsText.

(* ===================================================================== *)
(** * file-parser-service.ts                                              *)
(* ===================================================================== *)

Module FileParserService.

Import Js JsText Types.
Local Open Scope string_scope.

(** The result of [detect]: a file type, or [None] for "unknown". *)
Definition Detected : Type := option FileType.

(** The interface [FileTypeDetector]. *)
Record FileTypeDetector : Type := mkDetector {
  detect : string -> Detected;
  isSupported : string -> bool
}.

(** [DefaultFileTypeDetector.detect] *)
Definition defaultDetect (fileName : string) : Detected :=
  let lowerFileName := toLowerCase fileName in
  if endsWith lowerFileName ".csv" then Some csv
  else if endsWith lowerFileName ".xlsx" || endsWith lowerFileName ".xls" then Some excel
  else None.

(** [DefaultFileTypeDetector.isSupported] *)
Definition defaultIsSupported (supportedExtensions : list string) (fileName : string)
  : bool :=
  let lowerFileName := toLowerCase fileName in
  existsb (fun ext => endsWith lowerFileName ext) supportedExtensions.

Definition defaultExtensions : list string := [".csv"; ".xlsx"; ".xls"].

(** [new DefaultFileTypeDetector(supportedExtensions)] *)
Definition DefaultFileTypeDetector (supportedExtensions : option (list string))
  : FileTypeDetector :=
  {| detect := defaultDetect;
     isSupported := defaultIsSupported (default defaultExtensions supportedExtensions) |}.

(** The key of a file type in the registry. *)
Definition fileTypeKey (fileType : FileType) : string :=
  match fileType with
  | csv => "csv"
  | excel => "excel"
  end.

Section Registry.

(** The parsers: what they do is the business of the spreadsheet library,
    the registry only stores them. *)
Variable Parser : Type.

Record FileParserRegistryImpl : Type := mkRegistry {
  parsers : gmap string Parser;
  fileTypeDetector : FileTypeDetector
}.

(** [register(fileType, parser)] *)
Definition register (fileType : string) (parser : Parser)
  (this : FileParserRegistryImpl) : FileParserRegistryImpl :=
  {| parsers := <[fileType := parser]> (parsers this);
     fileTypeDetector := fileTypeDetector this |}.

(** [getParser(fileType)] *)
Definition getParser (this : FileParserRegistryImpl) (fileType : string)
  : option Parser :=
  parsers this !! fileType.

(** [getParserForFile(fileName)] *)
Definition getParserForFile (this : FileParserRegistryImpl) (fileName : string)
  : option Parser :=
  match detect (fileTypeDetector this) fileName with
  | None => None
  | Some fileType => getParser this (fileTypeKey fileType)
  end.

(** [isSupported(fileName)] of the registry *)
Definition registrySupports (this : FileParserRegistryImpl) (fileName : string) : bool :=
  match detect (fileTypeDetector this) fileName with
  | None => false
  | Some fileType =>
      match parsers this !! fileTypeKey fileType with
      | Some _ => true
      | None => false
      end
  end.

(** [createFileParserRegistry(fileTypeDetector?)], given the two parsers
    that it registers. *)
Definition createFileParserRegistry (csvFileParser excelFileParser : Parser)
  (detector : option FileTypeDetector) : FileParserRegistryImpl :=
  register "excel" excelFileParser
    (register "csv" csvFileParser
       {| parsers := ∅;
          fileTypeDetector := default (DefaultFileTypeDetector None) detector |}).

End Registry.

(** The search for the header row in [CSVFileParser.parse]: the text of a
    row of the raw sheet, and the test on it. *)
Definition isHeaderMarker (row : list (option JsVal)) : bool :=
  let rowStr := toLowerCase (join " " row) in
  includes rowStr "attendee details"
  || (includes rowStr "attended" && includes rowStr "professional council number").

(** The loop [for (let i = 0; i < rawSheet.length; i++)], from index [i]
    on, with [headerRowIndex] still 0. *)
Fixpoint headerRowFrom (i : nat) (rows : list (list (option JsVal))) : nat :=
  match rows with
  | [] => 0
  | row :: rest => if isHeaderMarker row then i + 1 else headerRowFrom (S i) rest
  end.

Definition headerRowIndex (rawSheet : list (list (option JsVal))) : nat :=
  headerRowFrom 0 rawSheet.

End FileParserService.

(* ===================================================================== *)
(** * registration-extractor-service.ts: the error formatter              *)
(* ===================================================================== *)

Module RegistrationExtractorErrorFormatterService.

Import Js JsText Types.
Local Open Scope string_scope.

Section Formatter.

Variable fieldMappings : FieldMappings.      (** [this.fieldMappings] *)

(** [private getExpectedFieldName(fileType)]: [fields[0]], which is
    [undefined] when the list is empty. *)
Definition getExpectedFieldName (fileType : FileType) : option string :=
  let fields :=
    match fileType with
    | csv => csv_registration (fm_csv fieldMappings)
    | excel => excel_registration (fm_excel fieldMappings)
    end in
  head fields.

(** [getErrorMessage(fileType, skippedCount, totalRows)] *)
Definition getErrorMessage (fileType : FileType) (skippedCount totalRows : nat) : string :=
  let expectedField := default "undefined" (getExpectedFieldName fileType) in
  let csvNote :=
    match fileType with
    | csv => " Also ensure 'Attended' field is present and set to 'Yes' for rows to process."
    | excel => ""
    end in
  "No registration numbers found. Ensure your file has '" +:+ expectedField
  +:+ "' column." +:+ csvNote +:+ " Skipped " +:+ ofNat skippedCount +:+ " of "
  +:+ ofNat totalRows +:+ " rows.".

End Formatter.

End RegistrationExtractorErrorFormatterService.

(* ===================================================================== *)
(** * service-container.ts                                                *)
(* ===================================================================== *)

Module ServiceContainer.

Import Js Types FileParserService.

(** The file as it is uploaded. *)
Definition ArrayBuffer : Type := list Byte.byte.

(** [FileParseResult] *)
Record FileParseResult : Type := mkParseResult {
  data : list (gmap string JsVal);
  fileType : FileType
}.

(** What [parser.parse(arrayBuffer)] settles to: the spreadsheet library
    throws, or the rows are there. *)
Inductive Parsed : Type :=
| ParseThrows (message : string)
| ParseReturns (result : FileParseResult).

(** The interface [FileParser] *)
Definition FileParser : Type := ArrayBuffer -> Parsed.

(** [Partial<HPCSAApiConfig>] *)
Record PartialApiConfig : Type := mkPartialConfig {
  p_apiUrl : option string;
  p_timeoutMs : option Z;
  p_maxRetries : option Z;
  p_batchSize : option Z;
  p_maxConcurrentRequests : option Z;
  p_delayBetweenBatchesMs : option Z
}.

(** [{ ...defaultConfig, ...config }] in the constructor of [HPCSAService] *)
Definition mergeConfig (defaultConfig : HPCSAApiConfig) (config : PartialApiConfig)
  : HPCSAApiConfig :=
  {| apiUrl := default (apiUrl defaultConfig) (p_apiUrl config);
     timeoutMs := default (timeoutMs defaultConfig) (p_timeoutMs config);
     maxRetries := default (maxRetries defaultConfig) (p_maxRetries config);
     batchSize := default (batchSize defaultConfig) (p_batchSize config);
     maxConcurrentRequests :=
       default (maxConcurrentRequests defaultConfig) (p_maxConcurrentRequests config);
     delayBetweenBatchesMs :=
       default (delayBetweenBatchesMs defaultConfig) (p_delayBetweenBatchesMs config) |}.

Definition emptyPartial : PartialApiConfig :=
  {| p_apiUrl := None; p_timeoutMs := None; p_maxRetries := None; p_batchSize := None;
     p_maxConcurrentRequests := None; p_delayBetweenBatchesMs := None |}.

(** [ContainerConfig] *)
Record ContainerConfig : Type := mkContainerConfig {
  cc_apiConfig : option PartialApiConfig;
  cc_fieldMappings : option FieldMappings;
  cc_supportedFileExtensions : option (list string)
}.

(** [ServiceContainerImpl]: each service by what it was constructed with. *)
Record ServiceContainerImpl : Type := mkContainer {
  sc_fileTypeDetector : FileTypeDetector;
  sc_fileParserRegistry : FileParserRegistryImpl FileParser;
  sc_fieldMappings : FieldMappings;          (** extractor and error formatter *)
  sc_hpcsaConfig : HPCSAApiConfig;           (** the lookup service *)
  sc_processorConfig : BatchProcessorConfig  (** the batch processor *)
}.

Section Container.

(** What the module has around it: the configuration read from the
    environment, and the two parsers over the spreadsheet library. *)
Variable defaultConfig : HPCSAApiConfig.
Variables csvFileParser excelFileParser : FileParser.

(** [new ServiceContainerImpl(config)] *)
Definition newServiceContainer (config : ContainerConfig) : ServiceContainerImpl :=
  let fileTypeDetector := DefaultFileTypeDetector (cc_supportedFileExtensions config) in
  let fileParserRegistry :=
    createFileParserRegistry FileParser csvFileParser excelFileParser
      (Some fileTypeDetector) in
  let fieldMappings :=
    default RegistrationExtractorService.defaultFieldMappings (cc_fieldMappings config) in
  {| sc_fileTypeDetector := fileTypeDetector;
     sc_fileParserRegistry := fileParserRegistry;
     sc_fieldMappings := fieldMappings;
     sc_hpcsaConfig := mergeConfig defaultConfig (default emptyPartial (cc_apiConfig config));
     sc_processorConfig :=
       {| pc_batchSize := None; pc_maxConcurrentRequests := None;
          pc_delayBetweenBatchesMs := None |} |}.

(** [getServiceContainer(config?)] on the module variable
    [containerInstance]: the instance, and the variable afterwards. *)
Definition getServiceContainer (config : option ContainerConfig)
  (containerInstance : option ServiceContainerImpl)
  : ServiceContainerImpl * option ServiceContainerImpl :=
  match containerInstance with
  | Some instance => (instance, Some instance)
  | None =>
      let instance :=
        newServiceContainer
          (default {| cc_apiConfig := None; cc_fieldMappings := None;
                      cc_supportedFileExtensions := None |} config) in
      (instance, Some instance)
  end.

End Container.

End ServiceContainer.

(* ===================================================================== *)
(** * app/api/search/route.ts and the batch search route                  *)
(* ===================================================================== *)

Module Routes.

Import Js JsText Types Effects HPCSAService FileParserService ServiceContainer.
Local Open Scope js_scope.
Local Open Scope string_scope.

(** What [await request.json()] gives the search route: it throws, or
    there is an object whose [registrationNumber] is read. *)
Inductive JsonBody : Type :=
| BodyThrows (message : string)
| BodyObject (registrationNumber : option JsVal).

(** The responses of the search route, by status. *)
Inductive SearchResponse : Type :=
| SearchOk (results : list HPCSARecord) (message : option string)   (** 200 *)
| SearchBadRequest (error : string)                                 (** 400 *)
| SearchFailed (error : string) (details : string).                 (** 500 *)

(** What [await request.formData()] gives the batch route, and the part
    of the file it reads. *)
Record File : Type := mkFile {
  file_name : string;
  file_bytes : ArrayBuffer
}.

Inductive FormData : Type :=
| FormThrows (message : string)
| FormFields (file : option File).

(** The body of a successful batch response. *)
Record BatchBody : Type := mkBatchBody {
  bb_results : list BatchSearchResult;
  bb_activeCount : nat;
  bb_inactiveCount : nat;
  bb_notFoundCount : nat;
  bb_totalProcessed : nat
}.

(** [details: { totalRows, skipped }] *)
Record SkipDetails : Type := mkSkipDetails {
  sd_totalRows : nat;
  sd_skipped : nat
}.

(** The responses of the batch route, by status. *)
Inductive BatchResponse : Type :=
| BatchOk (body : BatchBody)                                        (** 200 *)
| BatchBadRequest (error : string) (details : option SkipDetails)   (** 400 *)
| BatchFailed (error : string) (details : string).                  (** 500 *)

(** [!v] for a value that may be [undefined] *)
Definition falsy (v : option JsVal) : bool :=
  match v with
  | None => true
  | Some x => negb (truthy x)
  end.

Section Handlers.

Variable net : Network.
Variable container : ServiceContainerImpl.    (** [getServiceContainer()] *)
Variable errorMessage : JsError -> string.    (** [error.message] *)

(** [POST] of the search route.  The registration number goes to the
    service as it is; the service reads it as a string. *)
Definition searchPOST (body : JsonBody) : M SearchResponse :=
  match body with
  | BodyThrows message =>
      ret (SearchFailed "Failed to search HPCSA registration" message)
  | BodyObject registrationNumber =>
      tryCatch
        (if falsy registrationNumber
         then ret (SearchBadRequest "Registration number is required")
         else
           results <-
             searchSingle net (sc_hpcsaConfig container)
               (RegistrationExtractorService.stringOf registrationNumber)
               {| so_timeoutMs := None; so_maxRetries := None |} ;;
           if (length results =? 0)%nat
           then ret (SearchOk [] (Some "No results found"))
           else ret (SearchOk results None))
        (fun error =>
           ret (SearchFailed "Failed to search HPCSA registration" (errorMessage error)))
  end.

(** [POST] of the batch search route. *)
Definition batchPOST (fuel : nat) (form : FormData) : M BatchResponse :=
  match form with
  | FormThrows message => ret (BatchFailed "Failed to process file" message)
  | FormFields None => ret (BatchBadRequest "No file uploaded" None)
  | FormFields (Some file) =>
      let fileParserRegistry := sc_fileParserRegistry container in
      let fileTypeDetector := sc_fileTypeDetector container in
      if negb (registrySupports FileParser fileParserRegistry (file_name file))
      then
        ret (BatchBadRequest
               "Unsupported file type. Supported formats: .csv, .xlsx, .xls" None)
      else
        match detect fileTypeDetector (file_name file) with
        | None => ret (BatchBadRequest "Unable to determine file type" None)
        | Some fileType =>
            match getParserForFile FileParser fileParserRegistry (file_name file) with
            | None =>
                ret (BatchBadRequest
                       ("No parser available for " +:+ fileTypeKey fileType +:+ " files")
                       None)
            | Some parser =>
                match parser (file_bytes file) with
                | ParseThrows message =>
                    ret (BatchFailed "Failed to process file" message)
                | ParseReturns parseResult =>
                    let extractResult :=
                      RegistrationExtractorService.extract (sc_fieldMappings container)
                        (data parseResult) fileType in
                    if (length (registrationNumbers extractResult) =? 0)%nat
                    then
                      ret (BatchBadRequest
                             (RegistrationExtractorErrorFormatterService.getErrorMessage
                                (sc_fieldMappings container) fileType
                                (skippedCount extractResult) (totalRows extractResult))
                             (Some {| sd_totalRows := totalRows extractResult;
                                      sd_skipped := skippedCount extractResult |}))
                    else
                      tryCatch
                        (serviceResponse <-
                           BatchProcessorService.process net (sc_hpcsaConfig container)
                             (sc_processorConfig container) fuel
                             (registrationNumbers extractResult) None ;;
                         ret (BatchOk
                                {| bb_results := results serviceResponse;
                                   bb_activeCount :=
                                     activeCount (statistics serviceResponse);
                                   bb_inactiveCount :=
                                     inactiveCount (statistics serviceResponse);
                                   bb_notFoundCount :=
                                     notFoundCount (statistics serviceResponse);
                                   bb_totalProcessed :=
                                     totalProcessed (statistics serviceResponse) |}))
                        (fun error =>
                           ret (BatchFailed "Failed to process file" (errorMessage error)))
                end
            end
        end
  end.

End Handlers.

End Routes.

(* ===================================================================== *)
(** * The export routes: what they do before and after the spreadsheet    *)
(* ===================================================================== *)

Module ExportRoutes.

Import Js JsText Types.
Local Open Scope string_scope.

(** The line feed that [join] puts between the lines. *)
Definition lineFeed : string := String (ascii_of_nat 10) EmptyString.

(** The variables of the loop over the lines in the full-list export. *)
Record Scan : Type := mkScan {
  panelistDetails : list string;
  dataLines : list string;
  headerFound : bool
}.

(** One iteration of [for (const line of lines)]. *)
Definition scanLine (st : Scan) (line : string) : Scan :=
  if negb (headerFound st) then
    if includes line "Attended" && includes line "Professional council number" then
      {| panelistDetails := panelistDetails st;
         dataLines := dataLines st ++ [line];
         headerFound := true |}
    else if startsWith line "User Name (Original Name)," then
      {| panelistDetails := panelistDetails st;
         dataLines := dataLines st ++ [line];
         headerFound := true |}
    else if negb (String.eqb (trim line) "") then
      {| panelistDetails := panelistDetails st ++ [line];
         dataLines := dataLines st;
         headerFound := headerFound st |}
    else st
  else
    {| panelistDetails := panelistDetails st;
       dataLines := dataLines st ++ [line];
       headerFound := headerFound st |}.

Definition scanLines (lines : list string) : Scan :=
  fold_left scanLine lines
    {| panelistDetails := []; dataLines := []; headerFound := false |}.

(** What the route has when it turns to the spreadsheet library: a
    response with status 400, or the text to read. *)
Inductive Prepared : Type :=
| Rejected (error : string)
| Accepted (dataContent : string) (details : list string).

(** The full-list export, from the lines of the file to the call of the
    spreadsheet library. *)
Definition prepareFullList (lines : list string) : Prepared :=
  let st := scanLines lines in
  if negb (headerFound st) && (length (dataLines st) =? 0)%nat then
    Rejected "Could not find a valid CSV header or any data."
  else
    let dataContent := String.concat lineFeed (dataLines st) in
    if negb (truthyStr (trim dataContent)) then
      Rejected "No valid data rows found in the CSV file after header detection."
    else Accepted dataContent (panelistDetails st).




(** [row["Attended"] && String(row["Attended"]).toLowerCase() === "yes"] *)
Definition isAttended (row : gmap string JsVal) : bool :=
  match row !! "Attended" with
  | Some v => truthy v && String.eqb (toLowerCase (toString v)) "yes"
  | None => false
  end.

(** [!row["Attended"] || String(row["Attended"]).toLowerCase() !== "yes"] *)
Definition isNotAttended (row : gmap string JsVal) : bool :=
  match row !! "Attended" with
  | Some v => negb (truthy v) || negb (String.eqb (toLowerCase (toString v)) "yes")
  | None => true
  end.

(** The rows of the sheets "Attended" and "Did Not Attend" of both
    exports. *)
Definition attendedMembers (json_data : list (gmap string JsVal))
  : list (gmap string JsVal) :=
  List.filter isAttended json_data.

Definition didNotAttendMembers (json_data : list (gmap string JsVal))
  : list (gmap string JsVal) :=
  List.filter isNotAttended json_data.

End ExportRoutes.

(* ===================================================================== *)
(** * Vocabulary of the routes and the parsers                            *)
(* ===================================================================== *)

Module RouteNotions.

Import Js JsText Types Effects HPCSAService FileParserService ServiceContainer Routes
  ExportRoutes.
Local Open Scope string_scope.

(** The line is taken for the header of the attendee table. *)
Definition isHeaderLine (line : string) : bool :=
  (includes line "Attended" && includes line "Professional council number")
  || startsWith line "User Name (Original Name),".

(** The line is kept among the panelist details when it precedes the
    header. *)
Definition nonBlank (line : string) : bool := negb (String.eqb (trim line) "").


(** The status of a response. *)
Definition searchStatus (r : SearchResponse) : Z :=
  match r with
  | SearchOk _ _ => 200
  | SearchBadRequest _ => 400
  | SearchFailed _ _ => 500
  end.

Definition batchStatus (r : BatchResponse) : Z :=
  match r with
  | BatchOk _ => 200
  | BatchBadRequest _ _ => 400
  | BatchFailed _ _ => 500
  end.

(** The file name has one of the three extensions, in any case. *)
Definition hasKnownExtension (fileName : string) : bool :=
  let lower := toLowerCase fileName in
  endsWith lower ".csv" || endsWith lower ".xlsx" || endsWith lower ".xls".

(** The parser that the registry of the container holds for a file type. *)
Definition parserOf (csvFileParser excelFileParser : FileParser) (fileType : FileType)
  : FileParser :=
  match fileType with
  | csv => csvFileParser
  | excel => excelFileParser
  end.

End RouteNotions.

(* ===================================================================== *)
(** * Sample uploads                                                      *)
(* ===================================================================== *)

Module Uploads.

Import Js Types Effects HPCSAService FileParserService ServiceContainer Routes.
Local Open Scope string_scope.

(** A parser that finds the sample attendance report in every file, and
    one that fails on every file. *)
Definition reads (fileType : FileType) : FileParser :=
  fun _ => ParseReturns {| data := Demo.attendance; fileType := fileType |}.

Definition breaks : FileParser := fun _ => ParseThrows "Unsupported file".

Definition noConfig : ContainerConfig :=
  {| cc_apiConfig := None; cc_fieldMappings := None; cc_supportedFileExtensions := None |}.

(** The container of the application, over these parsers. *)
Definition container : ServiceContainerImpl :=
  newServiceContainer Demo.defaultConfig (reads csv) breaks noConfig.

Definition report : File := {| file_name := "Webinar Report.CSV"; file_bytes := [] |}.

(** The message of an error, as far as the samples need one. *)
Definition errorName (e : JsError) : string :=
  match e with
  | AbortError => "This operation was aborted"
  | FetchError => "fetch failed"
  | ApiReturned _ => "API returned an error status"
  | JsonError => "Unexpected token in JSON"
  end.

(** Lines of a webinar report. *)
Definition reportLines : list string :=
  ["Topic,Webinar ID"; "HIV update,123"; ""; "Attendee Details,";
   "Attended,User Name (Original Name),Professional council number";
   "Yes,Thandi,MP0001"; "No,Sipho,MP0002"].

End Uploads.

(* ===================================================================== *)
(** * Vocabulary of the traces inside the waves                           *)
(* ===================================================================== *)

Module TaskNotions.

Import Js Types Effects HPCSAService Spec.

(** The traces of the tasks of all waves, in the order of the waves and,
    within a wave, of the positions. *)
Definition taskTraces (evs : list Event) : list (list Event) :=
  flat_map (fun e => match e with All tasks => tasks | _ => [] end) evs.

(** The request of a run for an identifier. *)
Definition requestFor (config : HPCSAApiConfig) (t : Z) (id : string) : Request :=
  mkRequest (apiUrl config) id t.

(** The task of [reg] at position [i] of a wave that starts after [n]
    requests, once it is called: its request is answered, or its [catch]
    block waits for the timer. *)
Definition calledJob (net : Network) (config : HPCSAApiConfig) (t : Z) (n i : nat)
  (reg : string) : Job BatchSearchResult :=
  {| job_first := n + i;
     job_state :=
       Normal match bodyOf (net (n + i)%nat (requestFor config t reg)) with
              | Some json => inl (outcomeOf reg json)
              | None => inr (retryAfterError net config reg t)
              end;
     job_events := [Fetch (requestFor config t reg)] |}.

(** The same task once its second request has been issued, as the [b]-th
    of the run. *)
Definition retriedJob (net : Network) (config : HPCSAApiConfig) (t : Z) (n i b : nat)
  (reg : string) : Job BatchSearchResult :=
  {| job_first := n + i;
     job_state :=
       Normal (inl match bodyOf (net b (requestFor config t reg)) with
                   | Some json => outcomeOf reg json
                   | None => notFound reg
                   end);
     job_events :=
       [Fetch (requestFor config t reg); Delay 500; Fetch (requestFor config t reg)] |}.

(** The task backs off: its trace holds a pause. *)
Definition backsOff (tr : list Event) : bool :=
  existsb (fun e => match e with Delay _ => true | _ => false end) tr.

(** The number of tasks of a run that back off. *)
Definition backoffs (evs : list Event) : nat :=
  length (List.filter backsOff (taskTraces evs)).

(** What a task may leave in its trace: its request, or its request, the
    backoff and the same request again. *)
Definition lookupTrace (config : HPCSAApiConfig) (t : Z) (id : string)
  (tr : list Event) : Prop :=
  tr = [Fetch (requestFor config t id)]
  \/ tr = [Fetch (requestFor config t id); Delay 500; Fetch (requestFor config t id)].

End TaskNotions.

(* ===================================================================== *)
(** * Theorems                                                            *)
(* ===================================================================== *)

(** ** Strings *)

Module JsFacts.

Import Js Spec.

Lemma trimEnd_cons (c : ascii) (s : string) :
  trimEnd (String c s) =
  match trimEnd s with
  | EmptyString => if isWhiteSpace c then EmptyString else String c EmptyString
  | t => String c t
  end.
Proof. reflexivity. Qed.

Lemma trimEnd_idempotent (s : string) : trimEnd (trimEnd s) = trimEnd s.
Proof.
  induction s as [|c s IH]; [reflexivity|].
  rewrite trimEnd_cons.
  destruct (trimEnd s) as [|d t] eqn:E.
  - destruct (isWhiteSpace c) eqn:Ec; [reflexivity|].
    rewrite trimEnd_cons. cbn [trimEnd]. now rewrite Ec.
  - rewrite trimEnd_cons, IH. reflexivity.
Qed.

Lemma trimStart_clean (s : string) : startsClean (trimStart s).
Proof.
  induction s as [|c s IH]; cbn; [exact I|].
  destruct (isWhiteSpace c) eqn:E; [exact IH|]. cbn. exact E.
Qed.

Lemma trimStart_of_clean (s : string) : startsClean s -> trimStart s = s.
Proof.
  destruct s as [|c s]; cbn; [reflexivity|]. now intros ->.
Qed.

Lemma trimEnd_clean (s : string) : startsClean s -> startsClean (trimEnd s).
Proof.
  destruct s as [|c s]; cbn; [trivial|]. intros Hc.
  destruct (trimEnd s); [rewrite Hc|]; cbn; exact Hc.
Qed.

Lemma trim_idempotent (s : string) : trim (trim s) = trim s.
Proof.
  unfold trim.
  rewrite (trimStart_of_clean (trimEnd (trimStart s))).
  - apply trimEnd_idempotent.
  - apply trimEnd_clean, trimStart_clean.
Qed.

Lemma truthyStr_true (s : string) : truthyStr s = true <-> s <> EmptyString.
Proof. destruct s; cbn; split; congruence. Qed.

Lemma eqb_false_iff (s t : string) : String.eqb s t = false <-> s <> t.
Proof. apply String.eqb_neq. Qed.

End JsFacts.

(** ** The statistics aggregator *)

Module StatisticsFacts.

Import Js Types Spec BatchProcessorService.

Lemma bucket_total (r : BatchSearchResult) : exists b, InBucket r b.
Proof.
  destruct (found r) eqn:Hf.
  - destruct (String.eqb (toLowerCase (status r)) "active") eqn:Hs.
    + exists Active. apply in_active; [exact Hf|]. now apply String.eqb_eq.
    + exists Inactive. apply in_inactive; [exact Hf|]. now apply String.eqb_neq.
  - exists NotFound. now apply in_not_found.
Qed.

Lemma bucket_unique (r : BatchSearchResult) (b b' : Bucket) :
  InBucket r b -> InBucket r b' -> b = b'.
Proof. intros H H'; destruct H; destruct H'; congruence. Qed.

Lemma calculateStatistics_cons (r : BatchSearchResult) (l : list BatchSearchResult)
  (b : Bucket) :
  InBucket r b -> calculateStatistics (r :: l) = bump b (calculateStatistics l).
Proof.
  intros H. unfold calculateStatistics. cbn [List.filter length].
  destruct H as [Hf Hs | Hf Hs | Hf].
  - rewrite Hf, Hs. reflexivity.
  - apply String.eqb_neq in Hs. rewrite Hf, Hs. reflexivity.
  - rewrite Hf. reflexivity.
Qed.

Lemma calculateStatistics_sum (l : list BatchSearchResult) :
  (activeCount (calculateStatistics l) + inactiveCount (calculateStatistics l)
   + notFoundCount (calculateStatistics l) = totalProcessed (calculateStatistics l))%nat.
Proof.
  induction l as [|r l IH]; [reflexivity|].
  destruct (bucket_total r) as [b Hb].
  rewrite (calculateStatistics_cons r l b Hb).
  destruct b; cbn [bump activeCount inactiveCount notFoundCount totalProcessed]; lia.
Qed.

(** C2. [calculateStatistics] puts every outcome in exactly one bucket --
    active when it is found and its status in lower case is "active",
    inactive when it is found with any other status, not found otherwise --,
    counts one per outcome in that bucket, sets [totalProcessed] to the
    length of the list, and the three counts add up to [totalProcessed]. *)
Theorem calculateStatistics_classifies :
  (forall r : BatchSearchResult, exists b, InBucket r b /\ forall b', InBucket r b' -> b' = b)
  /\ calculateStatistics [] =
       {| activeCount := 0; inactiveCount := 0; notFoundCount := 0; totalProcessed := 0 |}
  /\ (forall r l b, InBucket r b ->
        calculateStatistics (r :: l) = bump b (calculateStatistics l))
  /\ (forall l, totalProcessed (calculateStatistics l) = length l)
  /\ (forall l,
        (activeCount (calculateStatistics l) + inactiveCount (calculateStatistics l)
         + notFoundCount (calculateStatistics l)
         = totalProcessed (calculateStatistics l))%nat).
Proof.
  repeat split.
  - intros r. destruct (bucket_total r) as [b Hb]. exists b. split; [exact Hb|].
    intros b' Hb'. exact (bucket_unique r b' b Hb' Hb).
  - exact calculateStatistics_cons.
  - exact calculateStatistics_sum.
Qed.

(** Witness of C2: an outcome with status "Active" before two outcomes that
    are counted already. *)
Lemma calculateStatistics_classifies_witness :
  calculateStatistics
    [ {| name := "Dr Dlamini Thandi"; registration := "MP0001"; city := "Durban";
         status := "Active"; found := true;
         professionalCouncilName := None; timeInSession := None |};
      HPCSAService.notFound "ZZ9999";
      {| name := "Mr Nkosi Sipho"; registration := "MP0002"; city := "";
         status := ""; found := true;
         professionalCouncilName := None; timeInSession := None |} ]
  = bump Active
      {| activeCount := 0; inactiveCount := 1; notFoundCount := 1; totalProcessed := 2 |}.
Proof.
  apply (proj1 (proj2 (proj2 calculateStatistics_classifies))).
  apply in_active; reflexivity.
Defined.

End StatisticsFacts.

(** ** One lookup: the client and the retry wrapper *)

Module LookupFacts.

Import Js Types Effects HPCSAService Spec.

Section Lookup.

Variable net : Network.
Variable config : HPCSAApiConfig.

Lemma failed_bodyOf (o : FetchOutcome) : failed o = true <-> bodyOf o = None.
Proof.
  destruct o as [| |st [json|]]; cbn; try tauto;
    destruct (ok st); cbn; split; congruence.
Qed.

Lemma not_failed_bodyOf (o : FetchOutcome) :
  failed o = false -> exists json, bodyOf o = Some json.
Proof.
  intros H. destruct (bodyOf o) as [json|] eqn:E; [now exists json|].
  apply failed_bodyOf in E. congruence.
Qed.

Lemma executeSearch_returns (reg : string) (t : Z) (w : World) (json : HPCSAApiResponse) :
  bodyOf (net (requests w) (mkRequest (apiUrl config) reg t)) = Some json ->
  executeSearch net config reg t w
  = (Normal json, fetched w (mkRequest (apiUrl config) reg t)).
Proof.
  unfold executeSearch, bodyOf, fetched.
  destruct (net _ _) as [| |st [body|]]; try discriminate.
  destruct (ok st); cbn; [|discriminate]. now intros [= ->].
Qed.

Lemma executeSearch_throws (reg : string) (t : Z) (w : World) :
  bodyOf (net (requests w) (mkRequest (apiUrl config) reg t)) = None ->
  exists e, executeSearch net config reg t w
            = (Throw e, fetched w (mkRequest (apiUrl config) reg t)).
Proof.
  unfold executeSearch, bodyOf, fetched.
  destruct (net _ _) as [| |st [body|]]; intros H.
  - now exists AbortError.
  - now exists FetchError.
  - destruct (ok st); [discriminate|]. now exists (ApiReturned st).
  - destruct (ok st); cbn; [now exists JsonError | now exists (ApiReturned st)].
Qed.

(** The first attempt of the wrapper, and the attempt after the backoff. *)
Lemma wrapper_first_attempt (reg : string) (options : SearchOptions) (w : World)
  (json : HPCSAApiResponse) :
  let req := mkRequest (apiUrl config) reg (default (timeoutMs config) (so_timeoutMs options)) in
  bodyOf (net (requests w) req) = Some json ->
  searchSingleAsBatchResult net config reg options w
  = (Normal (outcomeOf reg json), fetched w req).
Proof.
  intros req H. unfold searchSingleAsBatchResult, tryCatch, bind at 1.
  fold req.
  rewrite (executeSearch_returns reg _ w json H).
  unfold outcomeOf. destruct (parseSearchResults json reg); reflexivity.
Qed.

Lemma wrapper_second_attempt (reg : string) (options : SearchOptions) (w : World) :
  let req := mkRequest (apiUrl config) reg (default (timeoutMs config) (so_timeoutMs options)) in
  let w2 := {| requests := S (S (requests w));
               trace := trace w ++ [Fetch req; Delay 500; Fetch req] |} in
  bodyOf (net (requests w) req) = None ->
  searchSingleAsBatchResult net config reg options w
  = (Normal match bodyOf (net (S (requests w)) req) with
            | Some json => outcomeOf reg json
            | None => notFound reg
            end, w2).
Proof.
  intros req w2 H. unfold searchSingleAsBatchResult, tryCatch, bind at 1.
  fold req.
  destruct (executeSearch_throws reg _ w H) as [e He]. fold req in He.
  rewrite He.
  unfold bind, delay, emit. cbn [requests trace fetched].
  set (w1 := {| requests := S (requests w);
                trace := (trace w ++ [Fetch req]) ++ [Delay 500] |}).
  assert (Hw2 : fetched w1 req = w2).
  { unfold fetched, w1, w2. cbn [requests trace]. f_equal.
    rewrite <- !app_assoc. reflexivity. }
  destruct (bodyOf (net (S (requests w)) req)) as [json|] eqn:E2.
  - rewrite (executeSearch_returns reg _ w1 json E2). fold req. rewrite Hw2.
    unfold outcomeOf. destruct (parseSearchResults json reg); reflexivity.
  - destruct (executeSearch_throws reg _ w1 E2) as [e2 He2]. fold req in He2.
    rewrite He2, Hw2. reflexivity.
Qed.

(** The wrapper always fulfils. *)
Lemma wrapper_total (reg : string) (options : SearchOptions) (w : World) :
  exists r w', searchSingleAsBatchResult net config reg options w = (Normal r, w').
Proof.
  set (req := mkRequest (apiUrl config) reg (default (timeoutMs config) (so_timeoutMs options))).
  destruct (bodyOf (net (requests w) req)) as [json|] eqn:E.
  - eexists _, _. exact (wrapper_first_attempt reg options w json E).
  - eexists _, _. exact (wrapper_second_attempt reg options w E).
Qed.

(** The [catch] block: the backoff and the second attempt. *)
Lemma retryAfterError_runs (reg : string) (t : Z) (w : World) :
  let req := mkRequest (apiUrl config) reg t in
  retryAfterError net config reg t w
  = (Normal match bodyOf (net (requests w) req) with
            | Some json => outcomeOf reg json
            | None => notFound reg
            end,
     {| requests := S (requests w); trace := trace w ++ [Delay 500; Fetch req] |}).
Proof.
  intros req. unfold retryAfterError, tryCatch, bind, delay, emit.
  cbn [requests trace].
  set (w1 := {| requests := requests w; trace := trace w ++ [Delay 500] |}).
  assert (Hw : fetched w1 req
               = {| requests := S (requests w); trace := trace w ++ [Delay 500; Fetch req] |}).
  { unfold fetched, w1. cbn [requests trace]. now rewrite <- app_assoc. }
  change (net (requests w) req) with (net (requests w1) req).
  destruct (bodyOf (net (requests w1) req)) as [json|] eqn:E.
  - rewrite (executeSearch_returns reg t w1 json E). fold req.
    rewrite Hw. unfold outcomeOf. destruct (parseSearchResults json reg); reflexivity.
  - destruct (executeSearch_throws reg t w1 E) as [e He]. fold req in He.
    rewrite He, Hw. reflexivity.
Qed.

(** The call of the task: the first attempt. *)
Lemma task_calls (reg : string) (t : Z) (w : World) :
  let req := mkRequest (apiUrl config) reg t in
  task net config t reg w
  = (Normal match bodyOf (net (requests w) req) with
            | Some json => inl (outcomeOf reg json)
            | None => inr (retryAfterError net config reg t)
            end, fetched w req).
Proof.
  intros req. unfold task, searchSingleAsBatchResultTask, tryCatch, bind.
  change (default (timeoutMs config) (so_timeoutMs {| so_timeoutMs := Some t; so_maxRetries := None |}))
    with t.
  fold req.
  destruct (bodyOf (net (requests w) req)) as [json|] eqn:E.
  - rewrite (executeSearch_returns reg t w json E). fold req.
    unfold outcomeOf. destruct (parseSearchResults json reg); reflexivity.
  - destruct (executeSearch_throws reg t w E) as [e He]. fold req in He.
    rewrite He. reflexivity.
Qed.

(** Awaited on its own, the task is [searchSingleAsBatchResult]. *)
Lemma task_alone (reg : string) (t : Z) (w : World) :
  bind (task net config t reg)
    (fun r => match r with inl a => ret a | inr rest => rest end) w
  = searchSingleAsBatchResult net config reg
      {| so_timeoutMs := Some t; so_maxRetries := None |} w.
Proof.
  set (options := {| so_timeoutMs := Some t; so_maxRetries := None |}).
  set (req := mkRequest (apiUrl config) reg t).
  unfold bind. rewrite task_calls. fold req.
  destruct (bodyOf (net (requests w) req)) as [json|] eqn:E.
  - now rewrite (wrapper_first_attempt reg options w json E).
  - rewrite (wrapper_second_attempt reg options w E).
    rewrite retryAfterError_runs. fold req. cbn [fetched requests trace].
    change (default (timeoutMs config) (so_timeoutMs options)) with t. fold req.
    now rewrite <- app_assoc.
Qed.

(** What the wrapper returns when it is awaited on its own. *)
Lemma wrapper_attempt (reg : string) (t : Z) (w : World) :
  exists w',
    searchSingleAsBatchResult net config reg
      {| so_timeoutMs := Some t; so_maxRetries := None |} w
    = (Normal (attempt net config t reg (requests w) (S (requests w))), w').
Proof.
  set (options := {| so_timeoutMs := Some t; so_maxRetries := None |}).
  set (req := mkRequest (apiUrl config) reg t).
  unfold attempt. fold req.
  destruct (bodyOf (net (requests w) req)) as [json|] eqn:E.
  - eexists. exact (wrapper_first_attempt reg options w json E).
  - eexists. exact (wrapper_second_attempt reg options w E).
Qed.

End Lookup.

End LookupFacts.

Module LookupTheorems.

Import Js Types Effects HPCSAService Spec LookupFacts.

(** C3. The retry wrapper never fails.  When the first attempt succeeds it
    is the only request.  When it fails, the wrapper waits the fixed
    backoff of 500 ms and repeats the same request exactly once: the run
    issues two requests and no more, whatever [maxRetries] is in the
    configuration or in the options.  When the second attempt fails too,
    the outcome is the not-found outcome of the identifier: [found] is
    false, and name, city and status are empty. *)
Theorem wrapper_retries_once (net : Network) (config : HPCSAApiConfig)
  (reg : string) (options : SearchOptions) (w : World) :
  let req := mkRequest (apiUrl config) reg (default (timeoutMs config) (so_timeoutMs options)) in
  let first := net (requests w) req in
  let second := net (S (requests w)) req in
  exists r w',
    searchSingleAsBatchResult net config reg options w = (Normal r, w')
    /\ (failed first = false -> w' = fetched w req)
    /\ (failed first = true ->
        requests w' = S (S (requests w))
        /\ trace w' = trace w ++ [Fetch req; Delay 500; Fetch req])
    /\ (failed first = true -> failed second = true ->
        r = notFound reg
        /\ found r = false /\ name r = ""%string /\ city r = ""%string
        /\ status r = ""%string /\ registration r = reg)
    /\ (forall m m',
          searchSingleAsBatchResult net (withMaxRetries m config) reg
            {| so_timeoutMs := so_timeoutMs options; so_maxRetries := m' |} w
          = (Normal r, w')).
Proof.
  intros req first second.
  destruct (bodyOf first) as [json|] eqn:E1.
  - pose proof (wrapper_first_attempt net config reg options w json E1) as H.
    fold req in H.
    exists (outcomeOf reg json), (fetched w req).
    assert (Hf : failed first = false).
    { destruct (failed first) eqn:F; [|reflexivity].
      apply failed_bodyOf in F. congruence. }
    split; [exact H|]. split; [reflexivity|].
    split; [congruence|]. split; [congruence|].
    intros m m'. exact H.
  - pose proof (wrapper_second_attempt net config reg options w E1) as H.
    fold req in H. cbv zeta in H. fold second in H.
    eexists _, _. split; [exact H|].
    assert (Hf : failed first = true) by now apply failed_bodyOf.
    split; [congruence|]. split; [intros _; split; reflexivity|].
    split.
    + intros _ F2. apply failed_bodyOf in F2. rewrite F2. repeat split.
    + intros m m'. exact H.
Qed.

(** Witness of C3: an endpoint that is down. *)
Lemma wrapper_retries_once_witness :
  let req := mkRequest (apiUrl Demo.defaultConfig) "MP0001" 15000 in
  exists w',
    searchSingleAsBatchResult Demo.down Demo.defaultConfig "MP0001"
      {| so_timeoutMs := None; so_maxRetries := Some 5 |} Demo.start
    = (Normal (notFound "MP0001"), w')
    /\ trace w' = [Fetch req; Delay 500; Fetch req].
Proof.
  intros req.
  destruct (wrapper_retries_once Demo.down Demo.defaultConfig "MP0001"
              {| so_timeoutMs := None; so_maxRetries := Some 5 |} Demo.start)
    as (r & w' & Hrun & _ & Htrace & Hnf & _).
  destruct (Hnf eq_refl eq_refl) as [Hr _].
  destruct (Htrace eq_refl) as [_ Ht].
  exists w'. rewrite <- Hr. split; [exact Hrun | exact Ht].
Defined.

(** C9. [searchSingle] never fails and issues exactly one request, with no
    backoff and no second attempt.  When the request times out, the network
    fails, the status is not a success or the body cannot be decoded, it
    returns the empty list -- the result of a response without rows. *)
Theorem searchSingle_never_throws (net : Network) (config : HPCSAApiConfig)
  (reg : string) (options : SearchOptions) (w : World) :
  let req := mkRequest (apiUrl config) reg (default (timeoutMs config) (so_timeoutMs options)) in
  exists records,
    searchSingle net config reg options w = (Normal records, fetched w req)
    /\ (failed (net (requests w) req) = true -> records = [])
    /\ (forall json, bodyOf (net (requests w) req) = Some json ->
          records = parseSearchResults json reg)
    /\ (forall json, bodyOf (net (requests w) req) = Some json ->
          data json = Some [] -> records = []).
Proof.
  intros req. unfold searchSingle, tryCatch, bind. fold req.
  destruct (bodyOf (net (requests w) req)) as [json|] eqn:E.
  - rewrite (executeSearch_returns net config reg _ w json E). fold req.
    exists (parseSearchResults json reg). split; [reflexivity|].
    split; [intros F; apply failed_bodyOf in F; congruence|].
    split; [now intros j [= ->]|].
    intros j [= ->] Hd. unfold parseSearchResults. rewrite Hd.
    now rewrite orb_true_r.
  - destruct (executeSearch_throws net config reg _ w E) as [e He]. fold req in He.
    rewrite He. exists []. repeat split; intros; congruence.
Qed.

(** Witness of C9: a request that times out. *)
Lemma searchSingle_never_throws_witness :
  searchSingle Demo.flaky Demo.defaultConfig "MP0001"
    {| so_timeoutMs := Some 2000; so_maxRetries := None |} Demo.start
  = (Normal [],
     {| requests := 1;
        trace := [Fetch (mkRequest (apiUrl Demo.defaultConfig) "MP0001" 2000)] |}).
Proof.
  destruct (searchSingle_never_throws Demo.flaky Demo.defaultConfig "MP0001"
              {| so_timeoutMs := Some 2000; so_maxRetries := None |} Demo.start)
    as (records & Hrun & Hfail & _).
  rewrite (Hfail eq_refl) in Hrun. exact Hrun.
Defined.

End LookupTheorems.

(** ** The positional contract and the error flag of the payload *)

Module ParsingTheorems.

Import Js Types Effects HPCSAService Spec LookupFacts.

Lemma orElse_cell (row : Row) (k : nat) (d : string) :
  orElse (cell row k) d = if present row k then text row k else d.
Proof.
  unfold orElse, cell, present, text.
  destruct (nth_error row k) as [[s|]|]; try reflexivity.
Qed.

Lemma orElse_cell_empty (row : Row) (k : nat) :
  orElse (cell row k) "" = text row k.
Proof.
  rewrite orElse_cell. unfold present.
  destruct (text row k); reflexivity.
Qed.

Lemma parse_rows (result : HPCSAApiResponse) (reg : string) (rows : list Row) :
  data result = Some rows -> truthyOpt (error result) = false ->
  parseSearchResults result reg
  = map (fun row =>
           {| rec_name := trim (text row 0 +:+ " " +:+ text row 1 +:+ " " +:+ text row 2);
              rec_registration := removeWhitespace (if present row 3 then text row 3 else reg);
              rec_city := text row 4;
              rec_status := text row 7 |}) rows.
Proof.
  intros Hd He. unfold parseSearchResults. rewrite Hd, He.
  destruct rows as [|row rest]; [reflexivity|].
  cbn [orb length Nat.eqb]. apply map_ext. intros r.
  now rewrite !orElse_cell_empty, orElse_cell.
Qed.

Lemma parse_flagged (result : HPCSAApiResponse) (reg : string) :
  truthyOpt (error result) = true -> parseSearchResults result reg = [].
Proof.
  intros He. unfold parseSearchResults. rewrite He.
  destruct (data result); reflexivity.
Qed.

(** C5. On a response without error flag every row becomes one record, by
    position: the name is the texts at 0, 1 and 2 joined with single spaces
    and trimmed, the registration is the text at 3 -- the input identifier
    when there is none -- without its white space, the city is the text at
    4 and the status the text at 7; no other position is read.  The outcome
    of the batch wrapper is the record of the first row. *)
Theorem parseSearchResults_positional (net : Network) (config : HPCSAApiConfig)
  (reg : string) (result : HPCSAApiResponse) (rows : list Row) :
  data result = Some rows ->
  truthyOpt (error result) = false ->
  let records := parseSearchResults result reg in
  length records = length rows
  /\ (forall k row, nth_error rows k = Some row ->
        exists record,
          nth_error records k = Some record
          /\ rec_name record
             = trim (text row 0 +:+ " " +:+ text row 1 +:+ " " +:+ text row 2)
          /\ rec_registration record
             = removeWhitespace (if present row 3 then text row 3 else reg)
          /\ rec_city record = text row 4
          /\ rec_status record = text row 7)
  /\ (forall row rest options w st,
        rows = row :: rest ->
        net (requests w)
            (mkRequest (apiUrl config) reg
               (default (timeoutMs config) (so_timeoutMs options)))
        = Response st (Some result) ->
        ok st = true ->
        exists r w',
          searchSingleAsBatchResult net config reg options w = (Normal r, w')
          /\ found r = true
          /\ name r = trim (text row 0 +:+ " " +:+ text row 1 +:+ " " +:+ text row 2)
          /\ registration r
             = removeWhitespace (if present row 3 then text row 3 else reg)
          /\ city r = text row 4
          /\ status r = text row 7).
Proof.
  intros Hd He records. subst records. rewrite (parse_rows result reg rows Hd He).
  split; [apply length_map|]. split.
  - intros k row Hk. eexists. split; [apply map_nth_error; exact Hk|].
    repeat split.
  - intros row rest options w st -> Hnet Hok.
    eexists _, _. split.
    + apply (wrapper_first_attempt net config reg options w result).
      cbv zeta. rewrite Hnet. cbn. now rewrite Hok.
    + unfold outcomeOf. rewrite (parse_rows result reg _ Hd He). repeat split.
Qed.

(** Witness of C5: a report of two rows, the first with a gap in the name
    and spaces in the registration, the second without registration. *)
Lemma parseSearchResults_positional_witness :
  parseSearchResults (Demo.report Demo.twoRows) "MP 0002"
  = [ {| rec_name := "Dr  Thandi"; rec_registration := "MP0001";
         rec_city := "Durban"; rec_status := "Active" |};
      {| rec_name := "Mr Nkosi Sipho"; rec_registration := "MP0002";
         rec_city := ""; rec_status := "" |} ]
  /\ length (parseSearchResults (Demo.report Demo.twoRows) "MP 0002") = 2%nat.
Proof.
  split; [reflexivity|].
  exact (proj1 (parseSearchResults_positional Demo.steady Demo.defaultConfig
                  "MP 0002" (Demo.report Demo.twoRows) Demo.twoRows
                  eq_refl eq_refl)).
Defined.

(** Counterexample to C6: the endpoint answers with status 200 and a body
    whose error flag is set.  The client returns the body instead of
    failing, and the wrapper answers "not found" after this one request,
    with no backoff and no second attempt; an endpoint that answers with
    status 503 gets the backoff and the second request. *)
Lemma payload_error_flag_counterexample :
  let req := mkRequest (apiUrl Demo.defaultConfig) "MP0001" 15000 in
  let options := {| so_timeoutMs := None; so_maxRetries := None |} in
  Demo.flagged 0%nat req = Response 200 (Some Demo.flaggedBody)
  /\ error Demo.flaggedBody = Some "Report is not available"%string
  /\ executeSearch Demo.flagged Demo.defaultConfig "MP0001" 15000 Demo.start
     = (Normal Demo.flaggedBody, {| requests := 1; trace := [Fetch req] |})
  /\ searchSingleAsBatchResult Demo.flagged Demo.defaultConfig "MP0001" options Demo.start
     = (Normal (notFound "MP0001"), {| requests := 1; trace := [Fetch req] |})
  /\ executeSearch Demo.down Demo.defaultConfig "MP0001" 15000 Demo.start
     = (Throw (ApiReturned 503), {| requests := 1; trace := [Fetch req] |})
  /\ searchSingleAsBatchResult Demo.down Demo.defaultConfig "MP0001" options Demo.start
     = (Normal (notFound "MP0001"),
        {| requests := 2; trace := [Fetch req; Delay 500; Fetch req] |}).
Proof. repeat split. Qed.

(** C6, amended.  A response with a success status whose body carries a
    non-empty error flag is no failure: the client returns the body, the
    parser reads it as "no rows", [searchSingle] returns the empty list and
    the batch wrapper the not-found outcome, after one request and with no
    retry.  A response with another status makes the client fail with
    [ApiReturned]. *)
Theorem payload_error_flag_is_not_found (net : Network) (config : HPCSAApiConfig)
  (reg : string) (options : SearchOptions) (w : World) (st : Z)
  (json : HPCSAApiResponse) :
  let t := default (timeoutMs config) (so_timeoutMs options) in
  let req := mkRequest (apiUrl config) reg t in
  net (requests w) req = Response st (Some json) ->
  ok st = true ->
  truthyOpt (error json) = true ->
  executeSearch net config reg t w = (Normal json, fetched w req)
  /\ parseSearchResults json reg = []
  /\ searchSingle net config reg options w = (Normal [], fetched w req)
  /\ searchSingleAsBatchResult net config reg options w
     = (Normal (notFound reg), fetched w req)
  /\ (forall w2 st2 body,
        net (requests w2) req = Response st2 body -> ok st2 = false ->
        executeSearch net config reg t w2 = (Throw (ApiReturned st2), fetched w2 req)).
Proof.
  intros t req Hnet Hok He.
  assert (Hb : bodyOf (net (requests w) req) = Some json).
  { rewrite Hnet. cbn. now rewrite Hok. }
  pose proof (executeSearch_returns net config reg t w json Hb) as Hx.
  pose proof (parse_flagged json reg He) as Hp.
  split; [exact Hx|]. split; [exact Hp|]. split; [|split].
  - unfold searchSingle, tryCatch, bind. fold t. rewrite Hx, Hp. reflexivity.
  - rewrite (wrapper_first_attempt net config reg options w json Hb).
    unfold outcomeOf. now rewrite Hp.
  - intros w2 st2 body Hnet2 Hok2. unfold executeSearch. fold req.
    rewrite Hnet2, Hok2. reflexivity.
Qed.

(** Witness of the amended C6, at the endpoint of the counterexample. *)
Lemma payload_error_flag_is_not_found_witness :
  searchSingleAsBatchResult Demo.flagged Demo.defaultConfig "MP0001"
    {| so_timeoutMs := None; so_maxRetries := None |} Demo.start
  = (Normal (notFound "MP0001"),
     fetched Demo.start (mkRequest (apiUrl Demo.defaultConfig) "MP0001" 15000)).
Proof.
  exact (proj1 (proj2 (proj2 (proj2
    (payload_error_flag_is_not_found Demo.flagged Demo.defaultConfig "MP0001"
       {| so_timeoutMs := None; so_maxRetries := None |} Demo.start 200
       Demo.flaggedBody eq_refl eq_refl eq_refl))))).
Defined.

End ParsingTheorems.

(** ** The dispatcher *)

Module DispatcherFacts.

Import Js Types Effects HPCSAService Spec Notions TaskNotions LookupFacts.

(** *** Arithmetic of the waves *)

Lemma ceilDiv_bounds (n c : Z) :
  0 < c -> c * ceilDiv n c <= n + c - 1 < c * ceilDiv n c + c.
Proof.
  intros Hc. unfold ceilDiv.
  pose proof (Z.div_mod (n + c - 1) c ltac:(lia)) as Hdm.
  pose proof (Z.mod_pos_bound (n + c - 1) c Hc) as Hm.
  lia.
Qed.

Lemma ceil_index (n c k : Z) :
  0 < c -> (k * c < n <-> k < ceilDiv n c).
Proof.
  intros Hc. pose proof (ceilDiv_bounds n c Hc) as Hb.
  split; intros H; nia.
Qed.

Lemma ceilDiv_nonneg (n c : Z) : 0 < c -> 0 <= n -> 0 <= ceilDiv n c.
Proof.
  intros Hc Hn. pose proof (ceilDiv_bounds n c Hc) as Hb. nia.
Qed.

Lemma wave_index_lt (n c : Z) (k : nat) :
  0 < c -> 0 <= n -> (Z.of_nat k * c < n <-> (k < waveCount n c)%nat).
Proof.
  intros Hc Hn. unfold waveCount.
  pose proof (ceilDiv_nonneg n c Hc Hn) as H0.
  rewrite (ceil_index n c (Z.of_nat k) Hc). lia.
Qed.

Lemma waveCount_le (n c : Z) : 0 < c -> 0 <= n -> Z.of_nat (waveCount n c) <= n.
Proof.
  intros Hc Hn. unfold waveCount.
  pose proof (ceilDiv_nonneg n c Hc Hn) as H0.
  pose proof (ceilDiv_bounds n c Hc) as Hb.
  rewrite Z2Nat.id by exact H0. nia.
Qed.

(** *** One wave *)

Lemma slice_wave {A : Type} (a : list A) (i c : Z) :
  0 <= i -> 0 < c ->
  slice a i (i + c) = take (Z.to_nat c) (drop (Z.to_nat i) a).
Proof.
  intros Hi Hc. unfold slice, sliceIndex.
  destruct (Z.ltb_spec i 0) as [?|_]; [lia|].
  destruct (Z.ltb_spec (i + c) 0) as [?|_]; [lia|].
  set (len := Z.of_nat (length a)).
  destruct (Z.le_gt_cases (i + c) len) as [Hle|Hgt].
  - rewrite (Z.min_l (i + c)), (Z.min_l i) by lia.
    f_equal; lia.
  - rewrite (Z.min_r (i + c)) by lia.
    destruct (Z.le_gt_cases i len) as [Hil|Hig].
    + rewrite (Z.min_l i) by lia.
      rewrite !take_ge; [reflexivity| |]; rewrite length_drop; lia.
    + rewrite (Z.min_r i) by lia.
      rewrite (drop_ge a (Z.to_nat i)) by lia.
      rewrite (drop_ge a (Z.to_nat len)) by lia.
      now rewrite !take_nil.
Qed.

Lemma wave_length {A : Type} (a : list A) (i c : Z) :
  0 <= i -> 0 < c ->
  length (take (Z.to_nat c) (drop (Z.to_nat i) a))
  = Z.to_nat (Z.min c (Z.of_nat (length a) - i)).
Proof.
  intros Hi Hc. rewrite length_take, length_drop. lia.
Qed.

Lemma settleAll_normal {A : Type} (rs : list A) :
  settleAll (map Normal rs) = Normal rs.
Proof.
  induction rs as [|r rs IH]; [reflexivity|]. cbn. now rewrite IH.
Qed.

(** Tasks that all have their value settle, position by position. *)
Lemma settled_values {A : Type} (jobs : list (Job A)) :
  Forall (fun job => exists a, job_state job = Normal (inl a)) jobs ->
  exists rs,
    map settled jobs = map Normal rs
    /\ Forall2 (fun job a => job_state job = Normal (inl a)) jobs rs.
Proof.
  induction 1 as [|job jobs [a Ha] _ (rs & Hrs & HF)].
  - exists []. split; [reflexivity|constructor].
  - exists (a :: rs). split; [|now constructor].
    cbn [map]. unfold settled at 1. now rewrite Ha, Hrs.
Qed.

(** One more task that backs off. *)
Lemma backsOff_insert {A : Type} (jobs : list (Job A)) (p : nat) (job job' : Job A) :
  jobs !! p = Some job ->
  backsOff (job_events job) = false ->
  backsOff (job_events job') = true ->
  length (List.filter backsOff (map job_events (<[p := job']> jobs)))
  = S (length (List.filter backsOff (map job_events jobs))).
Proof.
  intros Hp Hold Hnew.
  pose proof (lookup_lt_Some _ _ _ Hp) as Hlt.
  rewrite insert_take_drop by exact Hlt.
  rewrite <- (take_drop_middle jobs p job Hp) at 3.
  rewrite !map_app, !List.filter_app. cbn [map List.filter].
  rewrite Hold, Hnew, !length_app. cbn [length]. lia.
Qed.

Lemma filter_none {A : Type} (f : A -> bool) (l : list A) :
  Forall (fun x => f x = false) l -> List.filter f l = [].
Proof. induction 1 as [|x l Hx _ IH]; [reflexivity|]. cbn. now rewrite Hx. Qed.

Lemma filter_all {A : Type} (f : A -> bool) (l : list A) :
  Forall (fun x => f x = true) l -> List.filter f l = l.
Proof. induction 1 as [|x l Hx _ IH]; [reflexivity|]. cbn. now rewrite Hx, IH. Qed.

Lemma Forall2_function {A B : Type} (f : A -> B) (l : list A) (k : list B) :
  Forall2 (fun a b => b = f a) l k -> k = map f l.
Proof. induction 1 as [|a b l k -> _ IH]; [reflexivity|]. cbn. now rewrite IH. Qed.

Section Dispatcher.

Variable net : Network.
Variable config : HPCSAApiConfig.

Lemma callTasks_wave (t : Z) (batch : list string) (n : nat) :
  callTasks (map (task net config t) batch) n
  = (imap (calledJob net config t n) batch, (n + length batch)%nat).
Proof.
  revert n. induction batch as [|reg rest IH]; intros n.
  - cbn. now rewrite Nat.add_0_r.
  - cbn [map callTasks]. rewrite task_calls. cbn [fetched requests trace app].
    rewrite IH. cbn [imap length]. f_equal; [|lia]. f_equal.
    + unfold calledJob, requestFor. now rewrite Nat.add_0_r.
    + apply imap_ext. intros i x _. unfold calledJob, compose.
      now replace (n + S i)%nat with (S n + i)%nat by lia.
Qed.

(** A task waits exactly when its first attempt failed. *)
Lemma waits_called (t : Z) (batch : list string) (n p : nat) :
  waits (imap (calledJob net config t n) batch) p = true
  <-> exists reg, batch !! p = Some reg
                  /\ bodyOf (net (n + p)%nat (requestFor config t reg)) = None.
Proof.
  unfold waits. rewrite list_lookup_imap.
  destruct (batch !! p) as [reg|]; cbn.
  - destruct (bodyOf (net (n + p)%nat (requestFor config t reg))) eqn:E; split.
    + discriminate.
    + intros (reg' & [= <-] & H). congruence.
    + intros _. now exists reg.
    + reflexivity.
  - split; [discriminate|]. now intros (reg & [=] & _).
Qed.

(** The timers of a wave, fired in any order, one after the other. *)
Lemma resume_wave (t : Z) (batch : list string) (n : nat) :
  forall (todo : list nat) (jobs : list (Job BatchSearchResult)) (m : nat),
    NoDup todo ->
    length jobs = length batch ->
    (forall p, p ∈ todo ->
       exists reg, batch !! p = Some reg
                   /\ bodyOf (net (n + p)%nat (requestFor config t reg)) = None
                   /\ jobs !! p = Some (calledJob net config t n p reg)) ->
    (forall i reg, batch !! i = Some reg -> i ∉ todo ->
       (bodyOf (net (n + i)%nat (requestFor config t reg)) <> None
        /\ jobs !! i = Some (calledJob net config t n i reg))
       \/ (bodyOf (net (n + i)%nat (requestFor config t reg)) = None
           /\ exists b, (n + length batch <= b < m)%nat
                        /\ jobs !! i = Some (retriedJob net config t n i b reg))) ->
    m = (n + length batch + length (List.filter backsOff (map job_events jobs)))%nat ->
    exists jobs',
      foldl resume (jobs, m) todo = (jobs', (m + length todo)%nat)
      /\ length jobs' = length batch
      /\ (forall i reg, batch !! i = Some reg ->
            (bodyOf (net (n + i)%nat (requestFor config t reg)) <> None
             /\ jobs' !! i = Some (calledJob net config t n i reg))
            \/ (bodyOf (net (n + i)%nat (requestFor config t reg)) = None
                /\ exists b, (n + length batch <= b < m + length todo)%nat
                             /\ jobs' !! i = Some (retriedJob net config t n i b reg)))
      /\ (m + length todo
          = n + length batch + length (List.filter backsOff (map job_events jobs')))%nat.
Proof.
  induction todo as [|p todo IH]; intros jobs m Hnd Hlen Htodo Hdone Hm.
  - exists jobs. cbn [foldl length]. rewrite Nat.add_0_r.
    split; [reflexivity|]. split; [exact Hlen|]. split; [|exact Hm].
    intros i reg Hi. apply (Hdone i reg Hi). apply not_elem_of_nil.
  - apply NoDup_cons in Hnd as [Hp Hnd].
    destruct (Htodo p) as (reg & Hreg & Hfail & Hjob); [apply list_elem_of_here|].
    pose proof (lookup_lt_Some _ _ _ Hjob) as Hlt.
    set (job' := retriedJob net config t n p m reg).
    assert (Hstep : resume (jobs, m) p = (<[p := job']> jobs, S m)).
    { unfold resume. rewrite Hjob. unfold calledJob at 1. cbn [job_state].
      rewrite Hfail. cbn [job_events job_first calledJob].
      rewrite retryAfterError_runs. reflexivity. }
    cbn [foldl]. rewrite Hstep.
    destruct (IH (<[p := job']> jobs) (S m)) as (jobs' & Hrun & Hlen' & Hall & Hm').
    + exact Hnd.
    + now rewrite length_insert.
    + intros q Hq. destruct (Htodo q) as (reg' & Hr & Hf & Hj); [now apply list_elem_of_further|].
      exists reg'. split; [exact Hr|]. split; [exact Hf|].
      rewrite list_lookup_insert_ne; [exact Hj|]. intros ->. contradiction.
    + intros i reg' Hi Hnot. destruct (decide (i = p)) as [->|Hne].
      * right. assert (reg' = reg) as -> by congruence.
        split; [exact Hfail|]. exists m. split; [lia|].
        now rewrite list_lookup_insert_eq.
      * destruct (Hdone i reg' Hi) as [[Hok Hj]|(Hf & b & Hb & Hj)].
        -- intros [->|H]%elem_of_cons; [congruence|contradiction].
        -- left. split; [exact Hok|]. now rewrite list_lookup_insert_ne.
        -- right. split; [exact Hf|]. exists b. split; [lia|].
           now rewrite list_lookup_insert_ne.
    + rewrite (backsOff_insert jobs p _ job' Hjob); [lia|reflexivity|reflexivity].
    + exists jobs'. cbn [length].
      replace (m + S (length todo))%nat with (S m + length todo)%nat by lia.
      now repeat split.
Qed.

(** The tasks of a wave at the end of [Promise.all]. *)
Lemma wave_jobs (t : Z) (batch : list string) (w : World) :
  exists jobs n',
    promiseAll (latency net) (map (task net config t) batch) w
    = (settleAll (map settled jobs),
       {| requests := n'; trace := trace w ++ [All (map job_events jobs)] |})
    /\ length jobs = length batch
    /\ (forall i reg, batch !! i = Some reg ->
          (bodyOf (net (requests w + i)%nat (requestFor config t reg)) <> None
           /\ jobs !! i = Some (calledJob net config t (requests w) i reg))
          \/ (bodyOf (net (requests w + i)%nat (requestFor config t reg)) = None
              /\ exists b, (requests w + length batch <= b < n')%nat
                           /\ jobs !! i
                              = Some (retriedJob net config t (requests w) i b reg)))
    /\ n' = (requests w + length batch
             + length (List.filter backsOff (map job_events jobs)))%nat.
Proof.
  unfold promiseAll. rewrite callTasks_wave.
  set (jobs0 := imap (calledJob net config t (requests w)) batch).
  set (todo := timerOrder (latency net) jobs0).
  assert (Hin : forall p, p ∈ todo <-> waits jobs0 p = true /\ (p < length batch)%nat).
  { intros p. unfold todo, timerOrder. rewrite merge_sort_Permutation.
    rewrite list_elem_of_filter, elem_of_seq. unfold jobs0. rewrite length_imap.
    split; intros [H1 H2]; (split; [exact H1|lia]). }
  destruct (resume_wave t batch (requests w) todo jobs0
              (requests w + length batch)%nat)
    as (jobs & Hrun & Hlen & Hall & Hn).
  - unfold todo, timerOrder. rewrite merge_sort_Permutation.
    apply NoDup_filter, NoDup_seq.
  - unfold jobs0. apply length_imap.
  - intros p [Hw _]%Hin. apply waits_called in Hw as (reg & Hr & Hf).
    exists reg. split; [exact Hr|]. split; [exact Hf|].
    unfold jobs0. now rewrite list_lookup_imap, Hr.
  - intros i reg Hi Hnot. left. split.
    + intros Hf. apply Hnot, Hin. split.
      * apply waits_called. now exists reg.
      * exact (lookup_lt_Some _ _ _ Hi).
    + unfold jobs0. now rewrite list_lookup_imap, Hi.
  - rewrite filter_none; [cbn; lia|].
    apply List.Forall_forall. intros tr (job & <- & Hjob)%in_map_iff.
    apply list_elem_of_In, list_elem_of_lookup in Hjob as [i Hjob].
    unfold jobs0 in Hjob. rewrite list_lookup_imap in Hjob.
    destruct (batch !! i); [|discriminate]. now injection Hjob as <-.
  - rewrite Hrun. now exists jobs, (requests w + length batch + length todo)%nat.
Qed.

(** One wave: the outcomes, the traces of the tasks and the requests. *)
Lemma wave_runs (t : Z) (batch : list string) (w : World) :
  exists rs traces n',
    promiseAll (latency net) (map (task net config t) batch) w
    = (Normal rs, {| requests := n'; trace := trace w ++ [All traces] |})
    /\ Forall2 (answers net config t) batch rs
    /\ Forall2 (lookupTrace config t) batch traces
    /\ n' = (requests w + length batch + length (List.filter backsOff traces))%nat
    /\ (healthy net -> List.filter backsOff traces = [])
    /\ (outage net -> rs = map notFound batch /\ List.filter backsOff traces = traces).
Proof.
  destruct (wave_jobs t batch w) as (jobs & n' & Hrun & Hlen & Hall & Hn).
  assert (Hjob : forall i job, jobs !! i = Some job ->
            exists reg, batch !! i = Some reg
              /\ ((bodyOf (net (requests w + i)%nat (requestFor config t reg)) <> None
                   /\ job = calledJob net config t (requests w) i reg)
                  \/ (bodyOf (net (requests w + i)%nat (requestFor config t reg)) = None
                      /\ exists b, (requests w + length batch <= b < n')%nat
                           /\ job = retriedJob net config t (requests w) i b reg))).
  { intros i job Hi.
    destruct (lookup_lt_is_Some_2 batch i) as [reg Hreg].
    { rewrite <- Hlen. exact (lookup_lt_Some _ _ _ Hi). }
    exists reg. split; [exact Hreg|].
    destruct (Hall i reg Hreg) as [[Hok Hj]|(Hf & b & Hb & Hj)]; [left|right].
    - split; [exact Hok|congruence].
    - split; [exact Hf|]. exists b. split; [exact Hb|congruence]. }
  destruct (settled_values jobs) as (rs & Hrs & HF).
  { apply Forall_lookup. intros i job Hi.
    destruct (Hjob i job Hi) as (reg & _ & [[Hok ->]|(_ & b & _ & ->)]).
    - unfold calledJob. cbn [job_state].
      destruct (bodyOf _) as [json|]; [now eexists|congruence].
    - now eexists. }
  rewrite Hrs, settleAll_normal in Hrun.
  exists rs, (map job_events jobs), n'. split; [exact Hrun|].
  pose proof (Forall2_length _ _ _ HF) as Hlen2.
  split; [|split; [|split; [exact Hn|split]]].
  - apply Forall2_same_length_lookup_2; [congruence|].
    intros i reg r Hreg Hr.
    destruct (Forall2_lookup_r _ _ _ _ _ HF Hr) as (job & Hj & Hst).
    destruct (Hall i reg Hreg) as [[Hok Hj']|(Hf & b & Hb & Hj')];
      rewrite Hj' in Hj; injection Hj as <-; cbn [job_state calledJob retriedJob] in Hst.
    + destruct (bodyOf (net (requests w + i)%nat (requestFor config t reg)))
        as [json|] eqn:E; [|congruence].
      injection Hst as <-. exists (requests w + i)%nat, (S (requests w + i)).
      split; [lia|]. unfold attempt. fold (requestFor config t reg). now rewrite E.
    + injection Hst as <-. exists (requests w + i)%nat, b. split.
      * pose proof (lookup_lt_Some _ _ _ Hreg). lia.
      * unfold attempt. fold (requestFor config t reg). now rewrite Hf.
  - apply Forall2_same_length_lookup_2; [now rewrite length_map|].
    intros i reg tr Hreg Htr.
    change (map job_events jobs) with (job_events <$> jobs) in Htr.
    rewrite list_lookup_fmap in Htr.
    destruct (jobs !! i) as [job|] eqn:Hj; [|discriminate]. injection Htr as <-.
    destruct (Hall i reg Hreg) as [[_ Hj']|(_ & b & _ & Hj')];
      rewrite Hj' in Hj; injection Hj as <-; [now left|now right].
  - intros Hh. apply filter_none, List.Forall_forall.
    intros tr (job & <- & Hin)%in_map_iff.
    apply list_elem_of_In, list_elem_of_lookup in Hin as [i Hi].
    destruct (Hjob i job Hi) as (reg & _ & [[_ ->]|(Hf & _)]); [reflexivity|].
    apply failed_bodyOf in Hf. now rewrite Hh in Hf.
  - intros Ho. split.
    + apply (Forall2_function (fun id => notFound id)).
      apply Forall2_same_length_lookup_2; [congruence|].
      intros i reg r Hreg Hr.
      destruct (Forall2_lookup_r _ _ _ _ _ HF Hr) as (job & Hj & Hst).
      destruct (Hjob i job Hj) as (reg' & Hreg' & [[Hok _]|(_ & b & _ & ->)]).
      * exfalso. apply Hok, failed_bodyOf, Ho.
      * assert (reg' = reg) as -> by congruence.
        cbn [job_state retriedJob] in Hst.
        assert (E : bodyOf (net b (requestFor config t reg)) = None)
          by apply failed_bodyOf, Ho.
        rewrite E in Hst. congruence.
    + apply filter_all, List.Forall_forall.
      intros tr (job & <- & Hin)%in_map_iff.
      apply list_elem_of_In, list_elem_of_lookup in Hin as [i Hi].
      destruct (Hjob i job Hi) as (reg & _ & [[Hok _]|(_ & b & _ & ->)]); [|reflexivity].
      exfalso. apply Hok, failed_bodyOf, Ho.
Qed.

(** *** The loop *)

Lemma loop_exit (fuel : nat) (ids : list string) (c d t : Z)
  (cb : option (Z -> Z -> M unit)) (i : Z) (results : list BatchSearchResult)
  (w : World) :
  Z.of_nat (length ids) <= i ->
  searchBatchLoop net config (S fuel) ids c d t cb i results w = (Normal results, w).
Proof.
  intros H. cbn [searchBatchLoop].
  destruct (Z.ltb_spec i (Z.of_nat (length ids))); [lia|reflexivity].
Qed.

Lemma loop_step (fuel : nat) (ids : list string) (c d t : Z)
  (cb : option (Z -> Z -> M unit)) (i : Z) (results : list BatchSearchResult)
  (w : World) :
  0 <= i < Z.of_nat (length ids) -> 0 < c ->
  searchBatchLoop net config (S fuel) ids c d t cb i results w
  = bind (promiseAll (latency net)
            (map (task net config t) (take (Z.to_nat c) (drop (Z.to_nat i) ids))))
      (fun batchResults =>
         bind (callProgress cb (Z.min (i + c) (Z.of_nat (length ids)))
                 (Z.of_nat (length ids)))
           (fun _ =>
              bind (if i + c <? Z.of_nat (length ids) then delay d else ret tt)
                (fun _ =>
                   searchBatchLoop net config fuel ids c d t cb (i + c)
                     (results ++ batchResults)))) w.
Proof.
  intros Hi Hc. cbn [searchBatchLoop].
  destruct (Z.ltb_spec i (Z.of_nat (length ids))); [|lia].
  rewrite slice_wave by lia. reflexivity.
Qed.

(** Every identifier from position [i] on gets its outcome, in order,
    whatever the callback does as long as it returns. *)
Lemma loop_results (ids : list string) (c d t : Z)
  (cb : option (Z -> Z -> M unit)) :
  0 < c -> returnsIfAny cb ->
  forall (fuel : nat) (i : Z) (results : list BatchSearchResult) (w : World),
    0 <= i -> (0 < fuel)%nat -> Z.of_nat (length ids) - i < Z.of_nat fuel ->
    exists rs w',
      searchBatchLoop net config fuel ids c d t cb i results w
      = (Normal (results ++ rs), w')
      /\ Forall2 (answers net config t) (drop (Z.to_nat i) ids) rs.
Proof.
  intros Hc Hcb. induction fuel as [|fuel IH]; intros i results w Hi Hfuel Hlen; [lia|].
  destruct (Z.le_gt_cases (Z.of_nat (length ids)) i) as [Hout|Hin].
  - rewrite loop_exit by exact Hout. exists [], w. rewrite app_nil_r.
    split; [reflexivity|]. rewrite drop_ge by lia. constructor.
  - rewrite loop_step by lia.
    destruct (wave_runs t (take (Z.to_nat c) (drop (Z.to_nat i) ids)) w)
      as (rs1 & traces & n1 & Hwave & HF1 & _).
    unfold bind at 1. rewrite Hwave.
    assert (Hprog : exists w2,
               callProgress cb (Z.min (i + c) (Z.of_nat (length ids)))
                 (Z.of_nat (length ids))
                 {| requests := n1; trace := trace w ++ [All traces] |}
               = (Normal tt, w2)).
    { unfold callProgress. destruct cb as [callback|].
      - apply (Hcb callback eq_refl).
      - eexists. reflexivity. }
    destruct Hprog as (w2 & Hprog).
    unfold bind at 1. rewrite Hprog.
    assert (Hpause : exists w3,
               (if i + c <? Z.of_nat (length ids) then delay d else ret tt) w2
               = (Normal tt, w3)).
    { destruct (i + c <? Z.of_nat (length ids)); eexists; reflexivity. }
    destruct Hpause as (w3 & Hpause).
    unfold bind at 1. rewrite Hpause.
    destruct (IH (i + c) (results ++ rs1) w3) as (rs2 & w' & Hloop & HF2); [lia|lia|lia|].
    rewrite Hloop. exists (rs1 ++ rs2), w'. rewrite app_assoc.
    split; [reflexivity|].
    rewrite <- (take_drop (Z.to_nat c) (drop (Z.to_nat i) ids)).
    apply Forall2_app; [exact HF1|].
    rewrite drop_drop.
    replace (Z.to_nat i + Z.to_nat c)%nat with (Z.to_nat (i + c)) by lia.
    exact HF2.
Qed.

(** The trace of the coordinating flow from wave [k] on, for a run that
    [reportProgress] observes or nothing does. *)
Lemma loop_steps (ids : list string) (c d t : Z) (observed : bool) :
  0 < c ->
  forall (fuel k : nat) (results : list BatchSearchResult) (w : World),
    (0 < fuel)%nat ->
    Z.of_nat (length ids) - Z.of_nat k * c < Z.of_nat fuel ->
    exists rs w' evs,
      searchBatchLoop net config fuel ids c d t (progressOption observed)
        (Z.of_nat k * c) results w
      = (Normal rs, w')
      /\ trace w' = trace w ++ evs
      /\ map stepOf evs
         = flat_map (waveSteps observed (Z.of_nat (length ids)) c d)
             (seq k (waveCount (Z.of_nat (length ids)) c - k)).
Proof.
  intros Hc. set (n := Z.of_nat (length ids)).
  induction fuel as [|fuel IH]; intros k results w Hfuel Hlen; [lia|].
  destruct (Z.le_gt_cases n (Z.of_nat k * c)) as [Hout|Hin].
  - rewrite loop_exit by exact Hout. exists results, w, [].
    rewrite app_nil_r. split; [reflexivity|]. split; [reflexivity|].
    assert (Hk : ~ (k < waveCount n c)%nat).
    { rewrite <- (wave_index_lt n c k Hc) by lia. lia. }
    replace (waveCount n c - k)%nat with 0%nat by lia. reflexivity.
  - rewrite loop_step by lia.
    destruct (wave_runs t (take (Z.to_nat c) (drop (Z.to_nat (Z.of_nat k * c)) ids)) w)
      as (rs1 & traces & n1 & Hwave & _ & Htr & _).
    unfold bind at 1. rewrite Hwave.
    apply Forall2_length in Htr. symmetry in Htr.
    rewrite wave_length in Htr by lia. fold n in Htr |- *.
    set (w1 := {| requests := n1; trace := trace w ++ [All traces] |}).
    set (progress := if observed
                     then [Progress (Z.min (Z.of_nat k * c + c) n) n] else []).
    set (w2 := {| requests := n1; trace := trace w1 ++ progress |}).
    assert (Hprog : callProgress (progressOption observed)
                      (Z.min (Z.of_nat k * c + c) n) n w1 = (Normal tt, w2)).
    { unfold callProgress, progressOption, w2, progress.
      destruct observed; cbn; [reflexivity|].
      unfold ret. now rewrite app_nil_r. }
    unfold bind at 1. rewrite Hprog.
    set (pause := if Z.of_nat k * c + c <? n then [Delay d] else []).
    set (w3 := {| requests := n1; trace := trace w2 ++ pause |}).
    assert (Hpause : (if Z.of_nat k * c + c <? n then delay d else ret tt) w2
                     = (Normal tt, w3)).
    { unfold w3, pause. destruct (Z.of_nat k * c + c <? n); cbn; [reflexivity|].
      unfold ret. now rewrite app_nil_r. }
    unfold bind at 1. rewrite Hpause.
    replace (Z.of_nat k * c + c) with (Z.of_nat (S k) * c) in * by lia.
    destruct (IH (S k) (results ++ rs1) w3) as (rs & w' & evs & Hloop & Htrace & Hsteps);
      [lia|lia|].
    rewrite Hloop. exists rs, w', ([All traces] ++ progress ++ pause ++ evs).
    split; [reflexivity|]. split.
    + rewrite Htrace. unfold w3, w2, w1. cbn [trace].
      now rewrite <- !app_assoc.
    + assert (Hk : (k < waveCount n c)%nat) by (apply (wave_index_lt n c k Hc); lia).
      replace (waveCount n c - k)%nat with (S (waveCount n c - S k)) by lia.
      cbn [seq flat_map]. rewrite !map_app, Hsteps.
      unfold waveSteps at 2. cbv zeta.
      replace (Z.of_nat k * c + c) with (Z.of_nat (S k) * c) by lia.
      rewrite <- !app_assoc. f_equal; [cbn; now rewrite Htr|].
      assert (Hnext : Z.of_nat k * c + c = Z.of_nat (S k) * c) by lia.
      f_equal; [unfold progress; rewrite Hnext; now destruct observed|].
      f_equal. unfold pause. rewrite Hnext.
      now destruct (Z.of_nat (S k) * c <? n).
Qed.

End Dispatcher.

End DispatcherFacts.

Module TraceFacts.

Import Js Types Effects HPCSAService Spec DispatcherFacts.

Lemma waveSizes_steps (evs : list Event) : waveSizes evs = sizesOf (map stepOf evs).
Proof.
  unfold waveSizes, sizesOf. induction evs as [|e evs IH]; [reflexivity|].
  destruct e; cbn [map flat_map stepOf app]; now rewrite IH.
Qed.

Lemma progressCalls_steps (evs : list Event) :
  progressCalls evs = callsOf (map stepOf evs).
Proof.
  unfold progressCalls, callsOf. induction evs as [|e evs IH]; [reflexivity|].
  destruct e; cbn [map flat_map stepOf app]; now rewrite IH.
Qed.

Lemma pauses_steps (evs : list Event) : pauses evs = pausesOf (map stepOf evs).
Proof.
  unfold pauses, pausesOf. induction evs as [|e evs IH]; [reflexivity|].
  destruct e; cbn [map flat_map stepOf app]; now rewrite IH.
Qed.

Section Schedule.

Variables (observed : bool) (n c d : Z).
Hypothesis Hc : 0 < c.
Hypothesis Hn : 0 <= n.

Lemma sizesOf_schedule (l : list nat) :
  sizesOf (flat_map (waveSteps observed n c d) l)
  = map (fun k => Z.to_nat (Z.min c (n - Z.of_nat k * c))) l.
Proof.
  induction l as [|k l IH]; [reflexivity|].
  cbn [flat_map map]. unfold sizesOf in *. rewrite flat_map_app, IH.
  unfold waveSteps. cbv zeta.
  destruct observed, (Z.of_nat k * c + c <? n); reflexivity.
Qed.

Lemma callsOf_schedule (l : list nat) :
  callsOf (flat_map (waveSteps observed n c d) l)
  = if observed
    then map (fun k => (Z.min (Z.of_nat k * c + c) n, n)) l
    else [].
Proof.
  induction l as [|k l IH]; [now destruct observed|].
  cbn [flat_map map]. unfold callsOf in *. rewrite flat_map_app, IH.
  unfold waveSteps. cbv zeta.
  destruct observed, (Z.of_nat k * c + c <? n); reflexivity.
Qed.

(** A pause follows wave [k] exactly when it is not the last wave. *)
Lemma pause_iff_more (k : nat) :
  (Z.of_nat k * c + c <? n) = true <-> (S k < waveCount n c)%nat.
Proof.
  rewrite Z.ltb_lt, <- (wave_index_lt n c (S k) Hc Hn). lia.
Qed.

Lemma pausesOf_wave (k : nat) :
  pausesOf (waveSteps observed n c d k)
  = if Z.of_nat k * c + c <? n then [d] else [].
Proof.
  unfold waveSteps. cbv zeta.
  destruct observed, (Z.of_nat k * c + c <? n); reflexivity.
Qed.

Lemma pausesOf_schedule (a m : nat) :
  (a + m)%nat = waveCount n c ->
  pausesOf (flat_map (waveSteps observed n c d) (seq a m)) = repeat d (m - 1).
Proof.
  revert a. induction m as [|m IH]; intros a Ha; [reflexivity|].
  cbn [seq flat_map]. unfold pausesOf in *. rewrite flat_map_app.
  fold (pausesOf (waveSteps observed n c d a)). rewrite pausesOf_wave.
  rewrite (IH (S a)) by lia.
  destruct (Z.of_nat a * c + c <? n) eqn:E.
  - apply pause_iff_more in E. destruct m as [|m]; [lia|].
    cbn. now rewrite Nat.sub_0_r.
  - assert (Hm : ~ (S a < waveCount n c)%nat).
    { intros H. apply pause_iff_more in H. congruence. }
    replace m with 0%nat by lia. reflexivity.
Qed.

Lemma schedule_last (ms : Z) :
  last (flat_map (waveSteps observed n c d) (seq 0 (waveCount n c)))
  <> Some (SPause ms).
Proof.
  destruct (waveCount n c) as [|m] eqn:EW; [discriminate|].
  rewrite seq_S, flat_map_app. cbn [flat_map plus]. rewrite app_nil_r.
  assert (E : (Z.of_nat m * c + c <? n) = false).
  { destruct (Z.of_nat m * c + c <? n) eqn:E; [|reflexivity].
    apply pause_iff_more in E. lia. }
  unfold waveSteps at 2. cbv zeta. rewrite E.
  destruct observed; cbn [app]; rewrite ?app_nil_r.
  - rewrite (last_app_cons _ [_] _), last_cons_cons. discriminate.
  - rewrite last_snoc. discriminate.
Qed.

End Schedule.

Lemma last_steps (evs : list Event) (ms : Z) :
  last evs = Some (Delay ms) -> last (map stepOf evs) = Some (SPause ms).
Proof.
  intros H. apply last_Some in H as [l' ->].
  rewrite map_app. cbn. apply last_snoc.
Qed.

End TraceFacts.

Module DispatcherTheorems.

Import Js Types Effects HPCSAService Spec LookupFacts DispatcherFacts TraceFacts.

(** An outcome of the wrapper is the not-found outcome of the identifier or
    the record of a decoded body. *)
Lemma answers_shape (net : Network) (config : HPCSAApiConfig) (t : Z)
  (id : string) (r : BatchSearchResult) :
  answers net config t id r ->
  r = notFound id \/ exists json, r = outcomeOf id json.
Proof.
  intros (a & b & _ & ->). unfold attempt.
  destruct (bodyOf (net a _)) as [json|]; [right; now exists json|].
  destruct (bodyOf (net b _)) as [json|]; [right; now exists json|now left].
Qed.

Lemma outcomeOf_not_found (id : string) (json : HPCSAApiResponse) :
  found (outcomeOf id json) = false -> outcomeOf id json = notFound id.
Proof.
  unfold outcomeOf. destruct (parseSearchResults json id); [reflexivity|discriminate].
Qed.

Lemma answers_steady (net : Network) (config : HPCSAApiConfig) (t : Z)
  (id : string) (r : BatchSearchResult) :
  steadyRemote net -> answers net config t id r -> r = verdict net config t id.
Proof.
  intros Hs (a & b & _ & ->). unfold attempt, verdict.
  rewrite (Hs a 0%nat), (Hs b 0%nat).
  now destruct (bodyOf (net 0%nat _)).
Qed.

(** C1. Under a positive concurrency limit and a callback that returns,
    [searchBatch] returns, and the list it returns has one outcome per
    identifier, in the order of the input: it is as long as the input, and
    the outcome at each position is an outcome of the retry wrapper for the
    identifier at that position -- what the wrapper makes of the answer to
    its request and, when that is a failure, of the answer to the same
    request issued again later; an outcome that is not found carries that
    very identifier.  Which task of a wave is settled first plays no part:
    the network and its latencies are arbitrary. *)
Theorem searchBatch_one_outcome_per_identifier (net : Network) (config : HPCSAApiConfig)
  (ids : list string) (options : BatchSearchOptions) (fuel : nat) (w : World) :
  let c := default (maxConcurrentRequests config) (bo_maxConcurrent options) in
  let t := default (timeoutMs config) (bo_timeoutMs options) in
  0 < c ->
  returnsIfAny (bo_onProgress options) ->
  (length ids < fuel)%nat ->
  exists results w',
    searchBatch net config fuel ids options w = (Normal results, w')
    /\ length results = length ids
    /\ Forall2 (answers net config t) ids results
    /\ (forall k id r,
          ids !! k = Some id -> results !! k = Some r ->
          answers net config t id r
          /\ (found r = false -> r = notFound id))
    /\ (forall id w0, exists w1,
          searchSingleAsBatchResult net config id
            {| so_timeoutMs := Some t; so_maxRetries := None |} w0
          = (Normal (attempt net config t id (requests w0) (S (requests w0))), w1)).
Proof.
  intros c t Hc Hcb Hfuel.
  destruct (loop_results net config ids c
              (default (delayBetweenBatchesMs config) (bo_delayBetweenBatchesMs options))
              t (bo_onProgress options) Hc Hcb fuel 0 [] w)
    as (rs & w' & Hrun & HF); [lia|lia|lia|].
  exists rs, w'. cbn [app drop Z.to_nat] in *.
  split; [exact Hrun|]. split; [symmetry; exact (Forall2_length _ _ _ HF)|].
  split; [exact HF|]. split.
  - intros k id r Hid Hr.
    pose proof (Forall2_lookup_lr _ _ _ _ _ _ HF Hid Hr) as Ha.
    split; [exact Ha|]. intros Hnf.
    destruct (answers_shape net config t id r Ha) as [->|[json ->]]; [reflexivity|].
    now apply outcomeOf_not_found.
  - intros id w0. apply wrapper_attempt.
Qed.

(** Witness of C1: five identifiers, two at a time, through a network that
    loses the first request. *)
Lemma searchBatch_one_outcome_per_identifier_witness :
  exists results w',
    searchBatch Demo.flaky Demo.defaultConfig 6 Demo.five
      (Demo.options 2 (Some reportProgress)) Demo.start
    = (Normal results, w')
    /\ length results = 5%nat.
Proof.
  destruct (searchBatch_one_outcome_per_identifier Demo.flaky Demo.defaultConfig
              Demo.five (Demo.options 2 (Some reportProgress)) 6 Demo.start)
    as (results & w' & Hrun & Hlen & _).
  - reflexivity.
  - intros callback [= <-] a b w. eexists. reflexivity.
  - cbn. lia.
  - exists results, w'. split; [exact Hrun | exact Hlen].
Defined.

(** C8. Against a remote that answers a request the same way whenever it
    is asked, two runs of [searchBatch] on the same identifiers with the
    same configuration -- started in any two worlds, with any sufficient
    fuel -- return the same list of outcomes, the list of the verdicts of
    the remote in input order, and so the same statistics. *)
Theorem searchBatch_deterministic (net : Network) (config : HPCSAApiConfig)
  (ids : list string) (options : BatchSearchOptions) (fuel1 fuel2 : nat)
  (w1 w2 : World) :
  let c := default (maxConcurrentRequests config) (bo_maxConcurrent options) in
  let t := default (timeoutMs config) (bo_timeoutMs options) in
  steadyRemote net ->
  0 < c ->
  returnsIfAny (bo_onProgress options) ->
  (length ids < fuel1)%nat ->
  (length ids < fuel2)%nat ->
  exists results1 results2 w1' w2',
    searchBatch net config fuel1 ids options w1 = (Normal results1, w1')
    /\ searchBatch net config fuel2 ids options w2 = (Normal results2, w2')
    /\ results1 = results2
    /\ results1 = map (verdict net config t) ids
    /\ BatchProcessorService.calculateStatistics results1
       = BatchProcessorService.calculateStatistics results2.
Proof.
  intros c t Hs Hc Hcb Hf1 Hf2.
  pose (d := default (delayBetweenBatchesMs config) (bo_delayBetweenBatchesMs options)).
  destruct (loop_results net config ids c d t (bo_onProgress options) Hc Hcb fuel1 0 [] w1)
    as (rs1 & w1' & Hrun1 & HF1); [lia|lia|lia|].
  destruct (loop_results net config ids c d t (bo_onProgress options) Hc Hcb fuel2 0 [] w2)
    as (rs2 & w2' & Hrun2 & HF2); [lia|lia|lia|].
  cbn [app drop Z.to_nat] in *.
  assert (H1 : rs1 = map (verdict net config t) ids).
  { apply Forall2_function. eapply Forall2_impl; [exact HF1|].
    intros id r. apply answers_steady, Hs. }
  assert (H2 : rs2 = map (verdict net config t) ids).
  { apply Forall2_function. eapply Forall2_impl; [exact HF2|].
    intros id r. apply answers_steady, Hs. }
  exists rs1, rs2, w1', w2'.
  split; [exact Hrun1|]. split; [exact Hrun2|].
  split; [congruence|]. split; [exact H1|]. congruence.
Qed.

(** Witness of C8: the sample register, a run from the start and a run in
    a world that has seen forty requests and a pause. *)
Lemma searchBatch_deterministic_witness :
  exists results1 results2 w1' w2',
    searchBatch Demo.steady Demo.defaultConfig 6 Demo.five
      (Demo.options 2 None) Demo.start = (Normal results1, w1')
    /\ searchBatch Demo.steady Demo.defaultConfig 9 Demo.five
         (Demo.options 2 None) {| requests := 40; trace := [Delay 7] |}
       = (Normal results2, w2')
    /\ results1 = results2.
Proof.
  destruct (searchBatch_deterministic Demo.steady Demo.defaultConfig Demo.five
              (Demo.options 2 None) 6 9 Demo.start
              {| requests := 40; trace := [Delay 7] |})
    as (r1 & r2 & w1' & w2' & H1 & H2 & Heq & _).
  - intros k k' r. reflexivity.
  - reflexivity.
  - intros callback [=].
  - cbn. lia.
  - cbn. lia.
  - exists r1, r2, w1', w2'. split; [exact H1|]. split; [exact H2 | exact Heq].
Defined.

End DispatcherTheorems.

Module WaveTheorems.

Import Js Types Effects HPCSAService Spec DispatcherFacts TraceFacts.

(** The run of [searchBatch] and the steps of its coordinating flow. *)
Lemma searchBatch_steps (net : Network) (config : HPCSAApiConfig)
  (ids : list string) (options : BatchSearchOptions) (observed : bool)
  (fuel : nat) (w : World) :
  let n := Z.of_nat (length ids) in
  let c := default (maxConcurrentRequests config) (bo_maxConcurrent options) in
  let d := default (delayBetweenBatchesMs config) (bo_delayBetweenBatchesMs options) in
  0 < c ->
  bo_onProgress options = progressOption observed ->
  (length ids < fuel)%nat ->
  exists results w' evs,
    searchBatch net config fuel ids options w = (Normal results, w')
    /\ trace w' = trace w ++ evs
    /\ map stepOf evs = flat_map (waveSteps observed n c d) (seq 0 (waveCount n c)).
Proof.
  intros n c d Hc Hcb Hfuel. unfold searchBatch. rewrite Hcb.
  destruct (loop_steps net config ids c d
              (default (timeoutMs config) (bo_timeoutMs options))
              observed Hc fuel 0 [] w)
    as (rs & w' & evs & Hrun & Htrace & Hsteps); [lia|lia|].
  rewrite Nat.sub_0_r in Hsteps. cbn [Z.of_nat Z.mul] in Hrun.
  now exists rs, w', evs.
Qed.

(** C4. Under a limit of [c] the [n] identifiers are dispatched in
    [ceil (n / c)] waves; wave [k] has [min c (n - k c)] tasks -- [c] but for
    a shorter last one --, and the progress callback is called once after
    each wave, with [(min (k c + c) n, n)].  Without identifiers there is no
    wave, no call, and the result is empty. *)
Theorem searchBatch_waves_and_progress (net : Network) (config : HPCSAApiConfig)
  (ids : list string) (options : BatchSearchOptions) (fuel : nat) (w : World) :
  let n := Z.of_nat (length ids) in
  let c := default (maxConcurrentRequests config) (bo_maxConcurrent options) in
  let d := default (delayBetweenBatchesMs config) (bo_delayBetweenBatchesMs options) in
  0 < c ->
  bo_onProgress options = Some reportProgress ->
  (length ids < fuel)%nat ->
  exists results w' evs,
    searchBatch net config fuel ids options w = (Normal results, w')
    /\ trace w' = trace w ++ evs
    /\ map stepOf evs = flat_map (waveSteps true n c d) (seq 0 (waveCount n c))
    /\ length (waveSizes evs) = Z.to_nat (ceilDiv n c)
    /\ waveSizes evs
       = map (fun k => Z.to_nat (Z.min c (n - Z.of_nat k * c))) (seq 0 (waveCount n c))
    /\ progressCalls evs
       = map (fun k => (Z.min (Z.of_nat k * c + c) n, n)) (seq 0 (waveCount n c))
    /\ (ids = [] -> results = [] /\ evs = []).
Proof.
  intros n c d Hc Hcb Hfuel.
  destruct (searchBatch_steps net config ids options true fuel w Hc Hcb Hfuel)
    as (results & w' & evs & Hrun & Htrace & Hsteps).
  fold n c d in Hsteps.
  assert (Hsizes : waveSizes evs
                   = map (fun k => Z.to_nat (Z.min c (n - Z.of_nat k * c)))
                       (seq 0 (waveCount n c))).
  { now rewrite waveSizes_steps, Hsteps, sizesOf_schedule. }
  exists results, w', evs.
  split; [exact Hrun|]. split; [exact Htrace|]. split; [exact Hsteps|].
  split; [now rewrite Hsizes, length_map, length_seq|].
  split; [exact Hsizes|].
  split; [now rewrite progressCalls_steps, Hsteps, callsOf_schedule|].
  intros ->. destruct fuel as [|fuel]; [cbn in Hfuel; lia|].
  cbn in Hrun. injection Hrun as <- <-.
  split; [reflexivity|].
  apply (app_inv_head (trace w)). now rewrite <- Htrace, app_nil_r.
Qed.

(** Witness of C4: five identifiers under a limit of two make three waves
    of two, two and one tasks and the calls (2,5), (4,5), (5,5); no
    identifier makes no wave and no call. *)
Lemma searchBatch_waves_and_progress_witness :
  (exists results w',
     searchBatch Demo.steady Demo.defaultConfig 6 Demo.five
       (Demo.options 2 (Some reportProgress)) Demo.start
     = (Normal results, w')
     /\ waveSizes (trace w') = [2; 2; 1]%nat
     /\ progressCalls (trace w') = [(2, 5); (4, 5); (5, 5)])
  /\ (exists w',
        searchBatch Demo.steady Demo.defaultConfig 1 []
          (Demo.options 2 (Some reportProgress)) Demo.start
        = (Normal [], w')
        /\ trace w' = []).
Proof.
  split.
  - destruct (searchBatch_waves_and_progress Demo.steady Demo.defaultConfig Demo.five
                (Demo.options 2 (Some reportProgress)) 6 Demo.start)
      as (results & w' & evs & Hrun & Htrace & _ & _ & Hsizes & Hcalls & _).
    + reflexivity.
    + reflexivity.
    + cbn. lia.
    + exists results, w'. split; [exact Hrun|].
      cbn [Demo.start trace app] in Htrace. rewrite Htrace.
      split; [exact Hsizes | exact Hcalls].
  - destruct (searchBatch_waves_and_progress Demo.steady Demo.defaultConfig []
                (Demo.options 2 (Some reportProgress)) 1 Demo.start)
      as (results & w' & evs & Hrun & Htrace & _ & _ & _ & _ & Hempty).
    + reflexivity.
    + reflexivity.
    + cbn. lia.
    + destruct (Hempty eq_refl) as [Hr He]. exists w'.
      rewrite Hr in Hrun. split; [exact Hrun|].
      rewrite Htrace, He. reflexivity.
Defined.

(** C7. In the coordinating flow a pause of the inter-wave delay follows
    wave [k] exactly when identifiers remain after it, which is when [k] is
    not the last wave: a run of [w] waves makes [w - 1] pauses (none when
    there is no wave), and the trace of the run never ends with a pause. *)
Theorem searchBatch_pauses_between_waves (net : Network) (config : HPCSAApiConfig)
  (ids : list string) (options : BatchSearchOptions) (observed : bool)
  (fuel : nat) (w : World) :
  let n := Z.of_nat (length ids) in
  let c := default (maxConcurrentRequests config) (bo_maxConcurrent options) in
  let d := default (delayBetweenBatchesMs config) (bo_delayBetweenBatchesMs options) in
  0 < c ->
  bo_onProgress options = progressOption observed ->
  (length ids < fuel)%nat ->
  exists results w' evs,
    searchBatch net config fuel ids options w = (Normal results, w')
    /\ trace w' = trace w ++ evs
    /\ map stepOf evs = flat_map (waveSteps observed n c d) (seq 0 (waveCount n c))
    /\ (forall k, pausesOf (waveSteps observed n c d k)
                  = if Z.of_nat k * c + c <? n then [d] else [])
    /\ (forall k, (Z.of_nat k * c + c <? n) = true <-> (S k < waveCount n c)%nat)
    /\ pauses evs = repeat d (waveCount n c - 1)
    /\ Z.of_nat (length (pauses evs)) = Z.max (Z.of_nat (waveCount n c) - 1) 0
    /\ (forall ms, last evs <> Some (Delay ms)).
Proof.
  intros n c d Hc Hcb Hfuel.
  destruct (searchBatch_steps net config ids options observed fuel w Hc Hcb Hfuel)
    as (results & w' & evs & Hrun & Htrace & Hsteps).
  fold n c d in Hsteps.
  assert (Hn : 0 <= n) by (unfold n; lia).
  exists results, w', evs.
  split; [exact Hrun|]. split; [exact Htrace|]. split; [exact Hsteps|].
  split; [intros k; apply pausesOf_wave|].
  split; [intros k; now apply pause_iff_more|].
  assert (Hpauses : pauses evs = repeat d (waveCount n c - 1)).
  { rewrite pauses_steps, Hsteps.
    now rewrite (pausesOf_schedule observed n c d Hc Hn 0 (waveCount n c)). }
  split; [exact Hpauses|]. split.
  - rewrite Hpauses, repeat_length. lia.
  - intros ms Hlast. apply last_steps in Hlast. rewrite Hsteps in Hlast.
    exact (schedule_last observed n c d Hc Hn ms Hlast).
Qed.

(** Witness of C7: three waves, two pauses of 100 ms. *)
Lemma searchBatch_pauses_between_waves_witness :
  exists results w',
    searchBatch Demo.flaky Demo.defaultConfig 6 Demo.five
      (Demo.options 2 None) Demo.start
    = (Normal results, w')
    /\ pauses (trace w') = [100; 100].
Proof.
  destruct (searchBatch_pauses_between_waves Demo.flaky Demo.defaultConfig Demo.five
              (Demo.options 2 None) false 6 Demo.start)
    as (results & w' & evs & Hrun & Htrace & _ & _ & _ & Hpauses & _).
  - reflexivity.
  - reflexivity.
  - cbn. lia.
  - exists results, w'. split; [exact Hrun|].
    cbn [Demo.start trace app] in Htrace. rewrite Htrace. exact Hpauses.
Defined.

End WaveTheorems.

(** ** The registration extractor *)

Module ExtractorFacts.

Import Js Types Spec JsFacts RegistrationExtractorService.

Lemma includes_true (l : list string) (s : string) :
  includes l s = true <-> s ∈ l.
Proof.
  unfold includes. rewrite existsb_exists, list_elem_of_In.
  split.
  - intros (x & Hx & He). apply String.eqb_eq in He. now subst.
  - intros H. exists s. split; [exact H|apply String.eqb_refl].
Qed.

Lemma includes_false (l : list string) (s : string) :
  includes l s = false <-> s ∉ l.
Proof.
  rewrite <- includes_true. destruct (includes l s); split; congruence.
Qed.

(** *** First occurrences *)

Lemma firstOccurrences_elem (l : list string) (x : string) :
  x ∈ firstOccurrences l <-> x ∈ l.
Proof.
  induction l as [|y l IH]; [reflexivity|].
  cbn [firstOccurrences]. rewrite !elem_of_cons, list_elem_of_filter, IH.
  destruct (decide (x = y)); tauto.
Qed.

Lemma firstOccurrences_NoDup (l : list string) : NoDup (firstOccurrences l).
Proof.
  induction l as [|y l IH]; [constructor|].
  cbn [firstOccurrences]. apply NoDup_cons. split.
  - rewrite list_elem_of_filter. tauto.
  - now apply NoDup_filter.
Qed.

Lemma firstOccurrences_length (l : list string) :
  (length (firstOccurrences l) <= length l)%nat.
Proof.
  induction l as [|y l IH]; [reflexivity|].
  cbn [firstOccurrences length].
  pose proof (length_filter (fun z => z <> y) (firstOccurrences l)). lia.
Qed.

Lemma filter_absent (l : list string) (y : string) :
  y ∉ l -> filter (fun z => z <> y) l = l.
Proof.
  induction l as [|z l IH]; [reflexivity|].
  intros [Hne Hy]%not_elem_of_cons.
  rewrite filter_cons_True by congruence. now rewrite IH.
Qed.

Lemma firstOccurrences_of_NoDup (l : list string) :
  NoDup l -> firstOccurrences l = l.
Proof.
  induction l as [|y l IH]; [reflexivity|].
  intros [Hy Hl]%NoDup_cons. cbn [firstOccurrences].
  now rewrite (IH Hl), filter_absent.
Qed.

Lemma firstOccurrences_full (l : list string) :
  length (firstOccurrences l) = length l -> NoDup l.
Proof.
  induction l as [|y l IH]; [constructor|].
  cbn [firstOccurrences length]. intros H.
  pose proof (firstOccurrences_length l) as Hle.
  pose proof (length_filter (fun z => z <> y) (firstOccurrences l)) as Hf.
  apply NoDup_cons. split; [|apply IH; lia].
  intros Hy. apply firstOccurrences_elem in Hy.
  pose proof (length_filter_lt (fun z => z <> y) (firstOccurrences l) y Hy) as Hlt.
  assert (~ y <> y) as Hnn by tauto. specialize (Hlt Hnn). lia.
Qed.

Lemma fold_addNew (l acc : list string) :
  fold_left addNew l acc
  = acc ++ filter (fun y => y ∉ acc) (firstOccurrences l).
Proof.
  revert acc. induction l as [|x l IH]; intros acc.
  - cbn. now rewrite app_nil_r.
  - cbn [fold_left firstOccurrences]. rewrite IH. unfold addNew.
    destruct (includes acc x) eqn:E.
    + apply includes_true in E.
      rewrite filter_cons_False by tauto.
      rewrite list_filter_filter_l; [reflexivity|].
      intros y Hy ->. contradiction.
    + apply includes_false in E.
      rewrite filter_cons_True by exact E.
      rewrite <- app_assoc. cbn [app]. do 2 f_equal.
      rewrite list_filter_filter.
      apply list_filter_iff. intros y.
      rewrite elem_of_app, list_elem_of_singleton. tauto.
Qed.

Lemma fold_addNew_nil (l : list string) :
  fold_left addNew l [] = firstOccurrences l.
Proof.
  rewrite fold_addNew. cbn [app].
  induction (firstOccurrences l) as [|y k IH]; [reflexivity|].
  rewrite filter_cons_True by apply not_elem_of_nil. now rewrite IH.
Qed.

End ExtractorFacts.

Module ExtractorTheorems.

Import Js Types Spec JsFacts RegistrationExtractorService ExtractorFacts.

Section Extract.

Variable fieldMappings : FieldMappings.
Variable fileType : FileType.

Lemma getRegistrationNumber_trimmed (row : gmap string JsVal) (s : string) :
  getRegistrationNumber fieldMappings row fileType = Some s -> trim s = s.
Proof.
  unfold getRegistrationNumber.
  destruct (getFieldValue row _) as [value|]; [|discriminate].
  destruct (negb (truthy value)); [discriminate|].
  intros [= <-]. apply trim_idempotent.
Qed.

Lemma rowRegistration_trimmed (row : gmap string JsVal) (s : string) :
  rowRegistration fieldMappings fileType row = Some s ->
  trim s = s /\ s <> EmptyString.
Proof.
  unfold rowRegistration. cbv zeta.
  destruct (_ && negb (shouldProcessRow _ _)); [discriminate|].
  destruct (_ && negb (isHPCSARegistered _ _)); [discriminate|].
  destruct (getRegistrationNumber fieldMappings row fileType) as [r|] eqn:G; [|discriminate].
  destruct (truthyStr r) eqn:T; [|discriminate].
  intros [= <-]. split.
  - exact (getRegistrationNumber_trimmed row r G).
  - now apply truthyStr_true.
Qed.

Lemma extractRow_registrationNumbers (st : ExtractState) (row : gmap string JsVal) :
  st_registrationNumbers (extractRow fieldMappings fileType st row)
  = match rowRegistration fieldMappings fileType row with
    | Some s => addNew (st_registrationNumbers st) s
    | None => st_registrationNumbers st
    end.
Proof.
  unfold extractRow, rowRegistration. cbv zeta.
  destruct (_ && negb (shouldProcessRow _ _)); [reflexivity|].
  destruct (_ && negb (isHPCSARegistered _ _)); [reflexivity|].
  destruct (getRegistrationNumber fieldMappings row fileType) as [r|] eqn:G; [|reflexivity].
  destruct (truthyStr r) eqn:T; [|reflexivity].
  rewrite (getRegistrationNumber_trimmed row r G), T. cbn [andb].
  unfold addNew. now destruct (includes (st_registrationNumbers st) r).
Qed.

Lemma extractRow_skippedCount (st : ExtractState) (row : gmap string JsVal) :
  st_skippedCount (extractRow fieldMappings fileType st row)
  = match rowRegistration fieldMappings fileType row with
    | Some _ => st_skippedCount st
    | None => S (st_skippedCount st)
    end.
Proof.
  unfold extractRow, rowRegistration. cbv zeta.
  destruct (_ && negb (shouldProcessRow _ _)); [reflexivity|].
  destruct (_ && negb (isHPCSARegistered _ _)); [reflexivity|].
  destruct (getRegistrationNumber fieldMappings row fileType) as [r|] eqn:G; [|reflexivity].
  destruct (truthyStr r) eqn:T; [|reflexivity].
  rewrite (getRegistrationNumber_trimmed row r G), T. cbn [andb].
  now destruct (negb (includes (st_registrationNumbers st) r)).
Qed.

Lemma fold_extractRow (data : list (gmap string JsVal)) (st : ExtractState) :
  st_registrationNumbers (fold_left (extractRow fieldMappings fileType) data st)
  = fold_left addNew (candidates fieldMappings fileType data) (st_registrationNumbers st)
  /\ st_skippedCount (fold_left (extractRow fieldMappings fileType) data st)
     = (st_skippedCount st + skippedRows fieldMappings fileType data)%nat.
Proof.
  revert st. induction data as [|row data IH]; intros st.
  - cbn. split; [reflexivity|lia].
  - cbn [fold_left candidates skippedRows].
    destruct (IH (extractRow fieldMappings fileType st row)) as [Hr Hs].
    rewrite Hr, Hs, (extractRow_registrationNumbers st row),
      (extractRow_skippedCount st row).
    destruct (rowRegistration fieldMappings fileType row); split; cbn; try reflexivity; lia.
Qed.

Lemma rows_accounted (data : list (gmap string JsVal)) :
  length data
  = (length (candidates fieldMappings fileType data)
     + skippedRows fieldMappings fileType data)%nat.
Proof.
  induction data as [|row data IH]; [reflexivity|].
  cbn [length candidates skippedRows].
  destruct (rowRegistration fieldMappings fileType row); cbn [length]; lia.
Qed.

Lemma candidates_trimmed (data : list (gmap string JsVal)) :
  Forall (fun s => trim s = s /\ s <> EmptyString) (candidates fieldMappings fileType data).
Proof.
  induction data as [|row data IH]; [constructor|].
  cbn [candidates].
  destruct (rowRegistration fieldMappings fileType row) as [s|] eqn:E; [|exact IH].
  constructor; [exact (rowRegistration_trimmed row s E)|exact IH].
Qed.

(** C10. The registration numbers that [extract] returns are the first
    occurrences, in order, of the registration numbers of the rows it does
    not skip: they are trimmed, not empty and pairwise distinct.  The
    skipped count is the number of skipped rows; a row that repeats an
    earlier registration number adds to neither, so the length of the list
    plus the skipped count is at most the number of rows, and it is the
    number of rows exactly when no row repeats a registration number. *)
Theorem extract_distinct_in_order (data : list (gmap string JsVal)) :
  let r := extract fieldMappings data fileType in
  let qualifying := candidates fieldMappings fileType data in
  registrationNumbers r = firstOccurrences qualifying
  /\ Forall (fun s => trim s = s /\ s <> EmptyString) (registrationNumbers r)
  /\ NoDup (registrationNumbers r)
  /\ (forall s, s ∈ registrationNumbers r <-> s ∈ qualifying)
  /\ skippedCount r = skippedRows fieldMappings fileType data
  /\ totalRows r = length data
  /\ totalRows r = (length qualifying + skippedCount r)%nat
  /\ (length (registrationNumbers r) + skippedCount r <= totalRows r)%nat
  /\ ((length (registrationNumbers r) + skippedCount r = totalRows r)%nat
      <-> NoDup qualifying).
Proof.
  intros r qualifying.
  destruct (fold_extractRow data initialState) as [Hr Hs].
  assert (Hregs : registrationNumbers r = firstOccurrences qualifying).
  { unfold r, extract. cbn [registrationNumbers]. rewrite Hr. apply fold_addNew_nil. }
  assert (Hskip : skippedCount r = skippedRows fieldMappings fileType data).
  { unfold r, extract. cbn [skippedCount]. rewrite Hs. reflexivity. }
  assert (Htotal : totalRows r = length data) by reflexivity.
  pose proof (rows_accounted data) as Hrows. fold qualifying in Hrows.
  pose proof (firstOccurrences_length qualifying) as Hle.
  split; [exact Hregs|]. rewrite Hregs, Hskip, Htotal.
  split.
  { apply Forall_forall. intros s Hs'. rewrite firstOccurrences_elem in Hs'.
    pose proof (candidates_trimmed data) as Hc. rewrite Forall_forall in Hc.
    exact (Hc s Hs'). }
  split; [apply firstOccurrences_NoDup|].
  split; [intros s; apply firstOccurrences_elem|].
  split; [reflexivity|]. split; [reflexivity|]. split; [exact Hrows|].
  split; [lia|].
  split.
  - intros H. apply firstOccurrences_full. lia.
  - intros H. rewrite (firstOccurrences_of_NoDup qualifying H). lia.
Qed.

End Extract.

(** Witness of C10: in the sample report two rows are skipped and one
    repeats a registration number. *)
Lemma extract_distinct_in_order_witness :
  let r := extract defaultFieldMappings Demo.attendance csv in
  registrationNumbers r = ["MP0001"; "MP 0002"]%string
  /\ NoDup (registrationNumbers r)
  /\ (length (registrationNumbers r) + skippedCount r <= totalRows r)%nat
  /\ ~ NoDup (candidates defaultFieldMappings csv Demo.attendance).
Proof.
  cbv zeta.
  destruct (extract_distinct_in_order defaultFieldMappings csv Demo.attendance)
    as (Hregs & _ & Hnodup & _ & _ & _ & _ & Hle & Hiff).
  split; [|split; [exact Hnodup|split; [exact Hle|]]].
  - rewrite Hregs. vm_compute. reflexivity.
  - intros H. apply Hiff in H. vm_compute in H. discriminate H.
Defined.

End ExtractorTheorems.

(** ** The services at work on the sample data *)

Module Scenarios.

Import Js Types Effects HPCSAService Spec.

(** Two practitioners, one active and one not, and an unknown identifier. *)
Example process_scenario :
  fst (BatchProcessorService.process Demo.steady Demo.defaultConfig
         {| pc_batchSize := None; pc_maxConcurrentRequests := None;
            pc_delayBetweenBatchesMs := None |}
         4 ["MP0001"; "MP0002"; "ZZ9999"]%string None Demo.start)
  = Normal
      {| results :=
           [ {| name := "Dr Dlamini Thandi"; registration := "MP0001"; city := "Durban";
                status := "Active"; found := true;
                professionalCouncilName := None; timeInSession := None |};
             {| name := "Dr Dlamini Thandi"; registration := "MP0002"; city := "Durban";
                status := "Inactive"; found := true;
                professionalCouncilName := None; timeInSession := None |};
             notFound "ZZ9999" ];
         statistics :=
           {| activeCount := 1; inactiveCount := 1; notFoundCount := 1;
              totalProcessed := 3 |} |}.
Proof. vm_compute. reflexivity. Qed.

(** A lost request costs one backoff and one more request, inside the wave. *)
Example flaky_trace :
  let req := mkRequest (apiUrl Demo.defaultConfig) "MP0001" 15000 in
  trace (snd (searchBatch Demo.flaky Demo.defaultConfig 2 ["MP0001"%string]
                (Demo.options 2 (Some reportProgress)) Demo.start))
  = [All [[Fetch req; Delay 500; Fetch req]]; Progress 1 1].
Proof. vm_compute. reflexivity. Qed.

(** Two tasks in one wave on a network that loses every other request:
    both first requests go out before the retry, which is the third
    request of the run and is lost too. *)
Example lossy_wave :
  let r1 := mkRequest (apiUrl Demo.defaultConfig) "MP0001" 15000 in
  let r2 := mkRequest (apiUrl Demo.defaultConfig) "MP0002" 15000 in
  searchBatch Samples.lossy Demo.defaultConfig 3 ["MP0001"; "MP0002"]%string
    (Demo.options 2 None) Demo.start
  = (Normal [notFound "MP0001";
             {| name := "Dr Dlamini Thandi"; registration := "MP0002"; city := "Durban";
                status := "Inactive"; found := true;
                professionalCouncilName := None; timeInSession := None |}],
     {| requests := 3;
        trace := [All [[Fetch r1; Delay 500; Fetch r1]; [Fetch r2]]] |}).
Proof. vm_compute. reflexivity. Qed.

(** Two tasks that both fail at first, on a network that answers the third
    request only: the task whose failure is handled first gets the answer,
    in the order of the tasks when both are handled in the same instant. *)
Example retry_order :
  map found
    (match fst (searchBatch (Samples.thirdOnly 9 1) Demo.defaultConfig 3
                  ["MP0001"; "MP0002"]%string (Demo.options 2 None) Demo.start) with
     | Normal results => results
     | _ => []
     end) = [false; true]
  /\ map found
       (match fst (searchBatch (Samples.thirdOnly 1 9) Demo.defaultConfig 3
                     ["MP0001"; "MP0002"]%string (Demo.options 2 None) Demo.start) with
        | Normal results => results
        | _ => []
        end) = [true; false]
  /\ map found
       (match fst (searchBatch (Samples.thirdOnly 1 1) Demo.defaultConfig 3
                     ["MP0001"; "MP0002"]%string (Demo.options 2 None) Demo.start) with
        | Normal results => results
        | _ => []
        end) = [true; false].
Proof. vm_compute. repeat split. Qed.

(** The sample attendance report. *)
Example extract_scenario :
  RegistrationExtractorService.extract RegistrationExtractorService.defaultFieldMappings
    Demo.attendance csv
  = {| registrationNumbers := ["MP0001"; "MP 0002"]%string;
       skippedCount := 2; totalRows := 5 |}.
Proof. vm_compute. reflexivity. Qed.

(** With a limit of zero the loop never advances: whatever the fuel, a run
    on a list that is not empty is still pending. *)
Lemma zero_limit_never_returns (net : Network) (config : HPCSAApiConfig)
  (ids : list string) (d t : Z) (fuel : nat) :
  ids <> [] ->
  forall results w,
    fst (searchBatchLoop net config fuel ids 0 d t None 0 results w) = Pending.
Proof.
  intros Hne. induction fuel as [|fuel IH]; intros results w; [reflexivity|].
  cbn [searchBatchLoop].
  destruct (Z.ltb_spec 0 (Z.of_nat (length ids))) as [Hlt|Hge].
  - unfold slice, sliceIndex. cbn [Z.ltb Z.add Z.compare].
    rewrite Z.sub_diag. change (Z.to_nat 0) with 0%nat. rewrite take_0.
    unfold bind at 1, promiseAll. cbn [map callTasks].
    change (timerOrder (latency net) (@nil (Job BatchSearchResult))) with (@nil nat).
    cbn [foldl map settleAll].
    unfold bind at 1, callProgress, ret. unfold bind at 1.
    change (0 + 0) with 0.
    destruct (0 <? Z.of_nat (length ids)); unfold delay, emit, ret; apply IH.
  - destruct ids; [contradiction|cbn in Hge; lia].
Qed.

End Scenarios.

(** ** The extractor, row by row *)

Module ExtractorProperties.

Import Js Types Spec Notions JsFacts RegistrationExtractorService ExtractorFacts
  ExtractorTheorems.

Lemma getFieldValue_Some (row : gmap string JsVal) (names : list string) (v : JsVal) :
  getFieldValue row names = Some v <->
  exists before name after,
    names = before ++ name :: after
    /\ row !! name = Some v
    /\ nonEmpty (Some v) = true
    /\ Forall (fun n => nonEmpty (row !! n) = false) before.
Proof.
  induction names as [|n names IH]; cbn [getFieldValue].
  - split; [discriminate|]. intros (before & name & after & H & _).
    now destruct before.
  - destruct (nonEmpty (row !! n)) eqn:E.
    + split.
      * intros Hv. exists [], n, names. rewrite Hv in E. repeat split; [exact Hv|exact E|constructor].
      * intros (before & name & after & Hn & Hrow & Hne & Hb).
        destruct before as [|b before]; cbn in Hn; injection Hn as -> ->.
        -- exact Hrow.
        -- apply Forall_cons in Hb as [Hb _]. congruence.
    + rewrite IH. split.
      * intros (before & name & after & -> & Hrow & Hne & Hb).
        exists (n :: before), name, after. repeat split; try assumption.
        constructor; assumption.
      * intros (before & name & after & Hn & Hrow & Hne & Hb).
        destruct before as [|b before]; cbn in Hn; injection Hn as -> ->.
        -- rewrite Hrow in E. congruence.
        -- apply Forall_cons in Hb as [_ Hb]. now exists before, name, after.
Qed.

Lemma getFieldValue_None (row : gmap string JsVal) (names : list string) :
  getFieldValue row names = None <->
  Forall (fun n => nonEmpty (row !! n) = false) names.
Proof.
  induction names as [|n names IH]; cbn [getFieldValue].
  - split; [constructor|reflexivity].
  - destruct (nonEmpty (row !! n)) eqn:E.
    + split.
      * intros H. rewrite H in E. discriminate.
      * intros [H _]%Forall_cons. congruence.
    + rewrite IH. split; [now constructor|now intros [_ H]%Forall_cons].
Qed.

Lemma getFieldValue_frame (row : gmap string JsVal) (names : list string)
  (k : string) (x : JsVal) :
  k ∉ names -> getFieldValue (<[k:=x]> row) names = getFieldValue row names.
Proof.
  induction names as [|n names IH]; [reflexivity|].
  intros [Hne Hk]%not_elem_of_cons. cbn [getFieldValue].
  rewrite lookup_insert_ne by congruence. now rewrite IH.
Qed.

(** X1. [getFieldValue] returns the value of the first listed column whose
    value is neither absent, null nor the empty string: every column listed
    before it is empty, the value returned is never empty, and the result
    is [undefined] exactly when all listed columns are empty.  Columns that
    are not listed are not read. *)
Theorem getFieldValue_first_match (row : gmap string JsVal) (names : list string) :
  (forall v,
     getFieldValue row names = Some v <->
     exists before name after,
       names = before ++ name :: after
       /\ row !! name = Some v
       /\ nonEmpty (Some v) = true
       /\ Forall (fun n => nonEmpty (row !! n) = false) before)
  /\ (getFieldValue row names = None <->
      Forall (fun n => nonEmpty (row !! n) = false) names)
  /\ (forall k x, k ∉ names ->
        getFieldValue (<[k:=x]> row) names = getFieldValue row names).
Proof.
  split; [intros v; apply getFieldValue_Some|].
  split; [apply getFieldValue_None|].
  intros k x. apply getFieldValue_frame.
Qed.

Section Rows.

Variable fieldMappings : FieldMappings.
Variable fileType : FileType.

Lemma rowRegistration_Some (row : gmap string JsVal) (s : string) :
  rowRegistration fieldMappings fileType row = Some s <->
  passesAttendance fieldMappings fileType row
  /\ passesCouncil fieldMappings fileType row
  /\ getRegistrationNumber fieldMappings row fileType = Some s
  /\ s <> EmptyString.
Proof.
  unfold rowRegistration, passesAttendance, passesCouncil. cbv zeta.
  destruct (configured (attendedOf fieldMappings fileType)),
    (shouldProcessRow row (default [] (attendedOf fieldMappings fileType)));
    cbn [andb negb];
    try (split; [discriminate | intros (H & _); now specialize (H eq_refl)]).
  all: destruct (configured (councilNameOf fieldMappings fileType)), fileType,
    (isHPCSARegistered row (default [] (councilNameOf fieldMappings _)));
    cbn [andb negb];
    try (split; [discriminate | intros (_ & H & _); now specialize (H eq_refl eq_refl)]).
  all: destruct (getRegistrationNumber fieldMappings row _) as [r|];
    try (split; [discriminate | intros (_ & _ & H & _); discriminate]).
  all: destruct (truthyStr r) eqn:T;
    (split;
     [ intros [= <-]; repeat split; try congruence; try (now apply truthyStr_true)
     | intros (_ & _ & [= <-] & Hne); try reflexivity;
       apply truthyStr_true in Hne; congruence ]).
Qed.

Lemma candidates_elem (data : list (gmap string JsVal)) (s : string) :
  s ∈ candidates fieldMappings fileType data <->
  exists row, row ∈ data /\ rowRegistration fieldMappings fileType row = Some s.
Proof.
  induction data as [|row data IH]; cbn [candidates].
  - split; [intros H; now apply not_elem_of_nil in H|].
    intros (row & H & _). now apply not_elem_of_nil in H.
  - destruct (rowRegistration fieldMappings fileType row) as [r|] eqn:E.
    + rewrite elem_of_cons, IH. split.
      * intros [->|(row' & Hin & Hr)].
        -- exists row. split; [apply list_elem_of_here|exact E].
        -- exists row'. split; [now apply list_elem_of_further|exact Hr].
      * intros (row' & [->|Hin]%elem_of_cons & Hr).
        -- left. congruence.
        -- right. now exists row'.
    + rewrite IH. split.
      * intros (row' & Hin & Hr). exists row'. split; [now apply list_elem_of_further|exact Hr].
      * intros (row' & [->|Hin]%elem_of_cons & Hr); [congruence|now exists row'].
Qed.

Lemma candidates_app (d1 d2 : list (gmap string JsVal)) :
  candidates fieldMappings fileType (d1 ++ d2)
  = candidates fieldMappings fileType d1 ++ candidates fieldMappings fileType d2.
Proof.
  induction d1 as [|row d1 IH]; [reflexivity|].
  cbn [app candidates]. rewrite IH.
  now destruct (rowRegistration fieldMappings fileType row).
Qed.

Lemma skippedRows_app (d1 d2 : list (gmap string JsVal)) :
  skippedRows fieldMappings fileType (d1 ++ d2)
  = (skippedRows fieldMappings fileType d1 + skippedRows fieldMappings fileType d2)%nat.
Proof.
  induction d1 as [|row d1 IH]; [reflexivity|].
  cbn [app skippedRows]. rewrite IH.
  now destruct (rowRegistration fieldMappings fileType row).
Qed.

Lemma extract_registrationNumbers (data : list (gmap string JsVal)) :
  registrationNumbers (extract fieldMappings data fileType)
  = firstOccurrences (candidates fieldMappings fileType data).
Proof.
  unfold extract. cbn [registrationNumbers].
  rewrite (proj1 (fold_extractRow fieldMappings fileType data initialState)).
  apply fold_addNew_nil.
Qed.

Lemma extract_skippedCount (data : list (gmap string JsVal)) :
  skippedCount (extract fieldMappings data fileType)
  = skippedRows fieldMappings fileType data.
Proof.
  unfold extract. cbn [skippedCount].
  now rewrite (proj2 (fold_extractRow fieldMappings fileType data initialState)).
Qed.

(** X2. [extract] returns a registration number exactly when some row of
    the data passes the attendance check (made when attendance columns are
    configured), passes the council check (made for csv files with council
    columns configured) and has that number, not empty, as its registration
    number: no number comes from a row that fails a check, and no row that
    passes them is lost. *)
Theorem extract_exactly_qualifying_rows (data : list (gmap string JsVal)) (s : string) :
  s ∈ registrationNumbers (extract fieldMappings data fileType) <->
  exists row,
    row ∈ data
    /\ passesAttendance fieldMappings fileType row
    /\ passesCouncil fieldMappings fileType row
    /\ getRegistrationNumber fieldMappings row fileType = Some s
    /\ s <> EmptyString.
Proof.
  rewrite extract_registrationNumbers, firstOccurrences_elem, candidates_elem.
  split; intros (row & Hin & H); exists row; (split; [exact Hin|]);
    now apply rowRegistration_Some.
Qed.

(** X3. [extract] works through the data incrementally: the numbers of a
    concatenation are the numbers of the first part followed by those of
    the second part that the first part did not yield, and the skipped
    counts and the row counts of the parts add up. *)
Theorem extract_app (d1 d2 : list (gmap string JsVal)) :
  let r1 := extract fieldMappings d1 fileType in
  let r2 := extract fieldMappings d2 fileType in
  let r := extract fieldMappings (d1 ++ d2) fileType in
  registrationNumbers r
  = registrationNumbers r1
    ++ filter (fun s => s ∉ registrationNumbers r1) (registrationNumbers r2)
  /\ skippedCount r = (skippedCount r1 + skippedCount r2)%nat
  /\ totalRows r = (totalRows r1 + totalRows r2)%nat.
Proof.
  cbv zeta. rewrite !extract_skippedCount, skippedRows_app.
  split; [|split; [reflexivity|cbn; apply length_app]].
  rewrite (extract_registrationNumbers d2), (extract_registrationNumbers d1).
  unfold extract. cbn [registrationNumbers].
  rewrite (proj1 (fold_extractRow fieldMappings fileType (d1 ++ d2) initialState)).
  cbn [initialState st_registrationNumbers].
  rewrite candidates_app, fold_left_app, fold_addNew_nil, fold_addNew.
  reflexivity.
Qed.

(** X4. A registration column that [getFieldValue] takes for filled in
    but that holds no registration number -- the number 0, the boolean
    false, or a text of white space only -- hides the columns listed after
    it: when it is the first filled-in registration column of a row,
    [extract] skips the row, whatever the later columns hold.
    [getRegistrationNumber] returns null for 0 and false, and the empty
    string for the blank text. *)
Theorem falsy_registration_shadows (row : gmap string JsVal) (v : JsVal)
  (before : list string) (name : string) (after : list string) :
  registrationFields fieldMappings fileType = before ++ name :: after ->
  Forall (fun n => nonEmpty (row !! n) = false) before ->
  row !! name = Some v ->
  blankValue v ->
  getRegistrationNumber fieldMappings row fileType
  = match v with JStr _ => Some EmptyString | _ => None end
  /\ rowRegistration fieldMappings fileType row = None
  /\ registrationNumbers (extract fieldMappings [row] fileType) = []
  /\ skippedCount (extract fieldMappings [row] fileType) = 1%nat.
Proof.
  intros Hfields Hbefore Hrow Hv.
  assert (Hfilled : nonEmpty (Some v) = true).
  { destruct Hv as [-> | [-> | (s & -> & Hs & _)]]; try reflexivity.
    now destruct s. }
  assert (Hget : getFieldValue row (registrationFields fieldMappings fileType) = Some v).
  { apply getFieldValue_Some. exists before, name, after.
    repeat split; assumption. }
  assert (Hreg : getRegistrationNumber fieldMappings row fileType
                 = match v with JStr _ => Some EmptyString | _ => None end).
  { unfold getRegistrationNumber. unfold registrationFields in Hget.
    destruct fileType; rewrite Hget;
      destruct Hv as [-> | [-> | (s & -> & Hs & Ht)]]; try reflexivity;
      cbn [truthy toString]; (destruct s; [contradiction|]); cbn [truthyStr negb];
      now rewrite Ht. }
  assert (Hnone : rowRegistration fieldMappings fileType row = None).
  { destruct (rowRegistration fieldMappings fileType row) as [s|] eqn:E; [|reflexivity].
    apply rowRegistration_Some in E as (_ & _ & E & Hs).
    rewrite Hreg in E. destruct v; try discriminate. injection E as <-. contradiction. }
  split; [exact Hreg|]. split; [exact Hnone|].
  rewrite extract_registrationNumbers, extract_skippedCount.
  cbn [candidates skippedRows]. now rewrite Hnone.
Qed.

End Rows.

End ExtractorProperties.

Module ExtractorWitnesses.

Import Js Types Spec Notions RegistrationExtractorService ExtractorProperties.

(** Witness of X4: the alias column holds "MP0009", the first column 0, or
    two spaces. *)
Lemma falsy_registration_shadows_witness :
  Samples.shadowed !! "Council Number"%string = Some (JStr "MP0009")
  /\ getRegistrationNumber defaultFieldMappings Samples.shadowed csv = None
  /\ registrationNumbers (extract defaultFieldMappings [Samples.shadowed] csv) = []
  /\ Samples.blank !! "Council Number"%string = Some (JStr "MP0009")
  /\ getRegistrationNumber defaultFieldMappings Samples.blank csv = Some EmptyString
  /\ registrationNumbers (extract defaultFieldMappings [Samples.blank] csv) = [].
Proof.
  split; [vm_compute; reflexivity|].
  destruct (falsy_registration_shadows defaultFieldMappings csv Samples.shadowed
              (JNum 0) [] "Professional council number"%string
              ["professional council number"; "Professional Council Number";
               "Council Number"; "council number"; "CouncilNumber"]%string)
    as (H1 & _ & H2 & _).
  - reflexivity.
  - constructor.
  - vm_compute. reflexivity.
  - now left.
  - split; [exact H1|]. split; [exact H2|].
    split; [vm_compute; reflexivity|].
    destruct (falsy_registration_shadows defaultFieldMappings csv Samples.blank
                (JStr "  ") [] "Professional council number"%string
                ["professional council number"; "Professional Council Number";
                 "Council Number"; "council number"; "CouncilNumber"]%string)
      as (H3 & _ & H4 & _).
    + reflexivity.
    + constructor.
    + vm_compute. reflexivity.
    + right. right. exists "  "%string. repeat split. discriminate.
    + split; [exact H3 | exact H4].
Defined.

End ExtractorWitnesses.

(** ** One lookup, both paths *)

Module LookupProperties.

Import Js Types Effects HPCSAService Spec Notions JsFacts LookupFacts ParsingTheorems.

Lemma removeWhitespace_clean (s : string) : noWhiteSpace (removeWhitespace s).
Proof.
  unfold noWhiteSpace. induction s as [|c s IH]; cbn; [constructor|].
  destruct (isWhiteSpace c) eqn:E; [exact IH|]. cbn. now constructor.
Qed.

Lemma removeWhitespace_of_clean (s : string) :
  noWhiteSpace s -> removeWhitespace s = s.
Proof.
  unfold noWhiteSpace. induction s as [|c s IH]; [reflexivity|].
  cbn. intros [Hc Hs]%Forall_cons. now rewrite Hc, IH.
Qed.

(** X5. The records that [parseSearchResults] returns are normalised: the
    name has no white space at either end, and the registration contains no
    white space at all.  Each record comes from a row of the payload; when
    position 3 of that row is missing or empty, the registration is the
    identifier that was searched for, without its white space -- the
    identifier itself when it has none. *)
Theorem parseSearchResults_normalised (result : HPCSAApiResponse) (reg : string)
  (record : HPCSARecord) :
  In record (parseSearchResults result reg) ->
  trim (rec_name record) = rec_name record
  /\ noWhiteSpace (rec_registration record)
  /\ removeWhitespace (rec_registration record) = rec_registration record
  /\ exists rows row,
       data result = Some rows /\ In row rows
       /\ (present row 3 = true ->
           rec_registration record = removeWhitespace (text row 3))
       /\ (present row 3 = false ->
           rec_registration record = removeWhitespace reg
           /\ (noWhiteSpace reg -> rec_registration record = reg)).
Proof.
  unfold parseSearchResults.
  destruct (data result) as [rows|]; [|intros []].
  destruct (truthyOpt (error result) || (length rows =? 0)%nat); [intros []|].
  intros (row & <- & Hrow)%in_map_iff. cbn [rec_name rec_registration].
  split; [apply trim_idempotent|].
  split; [apply removeWhitespace_clean|].
  split; [apply removeWhitespace_of_clean, removeWhitespace_clean|].
  exists rows, row. split; [reflexivity|]. split; [exact Hrow|].
  rewrite orElse_cell.
  split; intros Hp; rewrite Hp; [reflexivity|].
  split; [reflexivity|]. apply removeWhitespace_of_clean.
Qed.

(** Witness of X5: the rows of the sample report, the second without
    position 3. *)
Lemma parseSearchResults_normalised_witness :
  noWhiteSpace "MP0001"
  /\ In {| rec_name := "Mr Nkosi Sipho"; rec_registration := "MP0002";
           rec_city := ""; rec_status := "" |}
       (parseSearchResults (Demo.report Demo.twoRows) "MP 0002").
Proof.
  split.
  - exact (proj1 (proj2 (parseSearchResults_normalised (Demo.report Demo.twoRows) "MP 0002"
             {| rec_name := "Dr  Thandi"; rec_registration := "MP0001";
                rec_city := "Durban"; rec_status := "Active" |}
             (or_introl eq_refl)))).
  - right. left. reflexivity.
Defined.

Section Paths.

Variable net : Network.
Variable config : HPCSAApiConfig.

(** X6. On a lookup that does not fail, the single path and the batch path
    agree: the batch outcome is found exactly when [searchSingle] returns
    records, it is then the first of them, and both paths leave the same
    world behind, one request later. *)
Theorem batch_agrees_with_single (reg : string) (options : SearchOptions) (w : World) :
  let req := mkRequest (apiUrl config) reg (default (timeoutMs config) (so_timeoutMs options)) in
  failed (net (requests w) req) = false ->
  exists records,
    searchSingle net config reg options w = (Normal records, fetched w req)
    /\ searchSingleAsBatchResult net config reg options w
       = (Normal match records with
                 | [] => notFound reg
                 | record :: _ => foundRecord record
                 end, fetched w req)
    /\ (found (match records with
               | [] => notFound reg
               | record :: _ => foundRecord record
               end) = true <-> records <> []).
Proof.
  intros req Hok. destruct (not_failed_bodyOf _ Hok) as [json Hb].
  exists (parseSearchResults json reg). split; [|split].
  - unfold searchSingle, tryCatch, bind. fold req.
    now rewrite (executeSearch_returns net config reg _ w json Hb).
  - exact (wrapper_first_attempt net config reg options w json Hb).
  - destruct (parseSearchResults json reg); cbn; split; congruence.
Qed.

(** X7. A failure of the first attempt that the retry repairs does not show
    in the result: the outcome is the one a first attempt with the same
    body gives on any network, and only the two requests and the backoff in
    the trace tell the runs apart. *)
Theorem retry_recovers (reg : string) (options : SearchOptions) (w : World)
  (json : HPCSAApiResponse) :
  let req := mkRequest (apiUrl config) reg (default (timeoutMs config) (so_timeoutMs options)) in
  failed (net (requests w) req) = true ->
  bodyOf (net (S (requests w)) req) = Some json ->
  exists w',
    searchSingleAsBatchResult net config reg options w = (Normal (outcomeOf reg json), w')
    /\ trace w' = trace w ++ [Fetch req; Delay 500; Fetch req]
    /\ (forall (net2 : Network) w2,
          bodyOf (net2 (requests w2) req) = Some json ->
          searchSingleAsBatchResult net2 config reg options w2
          = (Normal (outcomeOf reg json), fetched w2 req)).
Proof.
  intros req Hfail Hbody. apply failed_bodyOf in Hfail.
  pose proof (wrapper_second_attempt net config reg options w Hfail) as H.
  cbv zeta in H. fold req in H. rewrite Hbody in H.
  eexists. split; [exact H|]. split; [reflexivity|].
  intros net2 w2 H2. exact (wrapper_first_attempt net2 config reg options w2 json H2).
Qed.

End Paths.

(** Witness of X6: the sample register on a network that works. *)
Lemma batch_agrees_with_single_witness :
  exists records,
    searchSingle Demo.steady Demo.defaultConfig "MP0001"
      {| so_timeoutMs := None; so_maxRetries := None |} Demo.start
    = (Normal records,
       fetched Demo.start (mkRequest (apiUrl Demo.defaultConfig) "MP0001" 15000))
    /\ records <> [].
Proof.
  destruct (batch_agrees_with_single Demo.steady Demo.defaultConfig "MP0001"
              {| so_timeoutMs := None; so_maxRetries := None |} Demo.start eq_refl)
    as (records & Hsingle & Hbatch & Hfound).
  exists records. split; [exact Hsingle|].
  apply Hfound. cbn in Hbatch. injection Hbatch as Hbatch. now rewrite <- Hbatch.
Defined.

(** Witness of X7: the first request is lost, the second is answered. *)
Lemma retry_recovers_witness :
  exists w',
    searchSingleAsBatchResult Demo.flaky Demo.defaultConfig "MP0002"
      {| so_timeoutMs := None; so_maxRetries := None |} Demo.start
    = (Normal (outcomeOf "MP0002" (Demo.report [Demo.practitioner "MP 0002" "Inactive"])), w').
Proof.
  destruct (retry_recovers Demo.flaky Demo.defaultConfig "MP0002"
              {| so_timeoutMs := None; so_maxRetries := None |} Demo.start
              (Demo.report [Demo.practitioner "MP 0002" "Inactive"]) eq_refl eq_refl)
    as (w' & H & _).
  now exists w'.
Defined.

End LookupProperties.

(** ** The dispatcher: requests and outages *)

Module DispatcherProperties.

Import Js Types Effects HPCSAService Spec Notions TaskNotions LookupFacts DispatcherFacts.

Lemma taskTraces_app (evs1 evs2 : list Event) :
  taskTraces (evs1 ++ evs2) = taskTraces evs1 ++ taskTraces evs2.
Proof. apply flat_map_app. Qed.

Lemma backoffs_app (evs1 evs2 : list Event) :
  backoffs (evs1 ++ evs2) = (backoffs evs1 + backoffs evs2)%nat.
Proof. unfold backoffs. now rewrite taskTraces_app, List.filter_app, length_app. Qed.

Lemma backoffs_le (evs : list Event) : (backoffs evs <= length (taskTraces evs))%nat.
Proof. apply List.filter_length_le. Qed.

Section Budget.

Variable net : Network.
Variable config : HPCSAApiConfig.

(** The tasks and the requests of the waves from position [i] on, for a
    run that [reportProgress] observes or nothing does. *)
Lemma loop_tasks (ids : list string) (c d t : Z) (observed : bool) :
  0 < c ->
  forall (fuel : nat) (i : Z) (results : list BatchSearchResult) (w : World),
    0 <= i -> (0 < fuel)%nat -> Z.of_nat (length ids) - i < Z.of_nat fuel ->
    exists rs w' evs,
      searchBatchLoop net config fuel ids c d t (progressOption observed) i results w
      = (Normal (results ++ rs), w')
      /\ trace w' = trace w ++ evs
      /\ Forall2 (lookupTrace config t) (drop (Z.to_nat i) ids) (taskTraces evs)
      /\ requests w' = (requests w + length (drop (Z.to_nat i) ids) + backoffs evs)%nat
      /\ (healthy net -> backoffs evs = 0%nat)
      /\ (outage net ->
          rs = map notFound (drop (Z.to_nat i) ids)
          /\ backoffs evs = length (drop (Z.to_nat i) ids)).
Proof.
  intros Hc. induction fuel as [|fuel IH]; intros i results w Hi Hfuel Hlen; [lia|].
  destruct (Z.le_gt_cases (Z.of_nat (length ids)) i) as [Hout|Hin].
  - rewrite loop_exit by exact Hout. exists [], w, [].
    rewrite !app_nil_r, drop_ge by lia. cbn.
    repeat split; try reflexivity; [constructor|lia].
  - rewrite loop_step by lia.
    set (batch := take (Z.to_nat c) (drop (Z.to_nat i) ids)).
    destruct (wave_runs net config t batch w)
      as (rs1 & traces & n1 & Hwave & _ & HF1 & Hn1 & Hh1 & Ho1).
    unfold bind at 1. rewrite Hwave.
    set (w1 := {| requests := n1; trace := trace w ++ [All traces] |}).
    set (progress := if observed
                     then [Progress (Z.min (i + c) (Z.of_nat (length ids)))
                             (Z.of_nat (length ids))]
                     else []).
    assert (Hprog : callProgress (progressOption observed)
                      (Z.min (i + c) (Z.of_nat (length ids))) (Z.of_nat (length ids)) w1
                    = (Normal tt, {| requests := n1; trace := trace w1 ++ progress |})).
    { unfold progress. destruct observed; cbn; [reflexivity|].
      unfold ret. now rewrite app_nil_r. }
    unfold bind at 1. rewrite Hprog.
    set (pause := if i + c <? Z.of_nat (length ids) then [Delay d] else []).
    set (w2 := {| requests := n1; trace := trace w1 ++ progress |}).
    assert (Hpause : (if i + c <? Z.of_nat (length ids) then delay d else ret tt) w2
                     = (Normal tt, {| requests := n1; trace := trace w2 ++ pause |})).
    { unfold pause. destruct (i + c <? Z.of_nat (length ids)); cbn; [reflexivity|].
      unfold ret. now rewrite app_nil_r. }
    unfold bind at 1. rewrite Hpause.
    destruct (IH (i + c) (results ++ rs1) {| requests := n1; trace := trace w2 ++ pause |})
      as (rs & w' & evs & Hloop & Htrace & HF2 & Hn2 & Hh2 & Ho2); [lia|lia|lia|].
    rewrite Hloop. cbn [requests] in Hn2.
    exists (rs1 ++ rs), w', ([All traces] ++ progress ++ pause ++ evs).
    assert (Hsplit : drop (Z.to_nat i) ids = batch ++ drop (Z.to_nat (i + c)) ids).
    { rewrite <- (take_drop (Z.to_nat c) (drop (Z.to_nat i) ids)) at 1.
      rewrite drop_drop. fold batch.
      now replace (Z.to_nat i + Z.to_nat c)%nat with (Z.to_nat (i + c)) by lia. }
    assert (Hp : taskTraces progress = []) by (unfold progress; now destruct observed).
    assert (Hd : taskTraces pause = [])
      by (unfold pause; now destruct (i + c <? Z.of_nat (length ids))).
    assert (Htt : taskTraces ([All traces] ++ progress ++ pause ++ evs)
                  = traces ++ taskTraces evs).
    { rewrite !taskTraces_app, Hp, Hd. cbn [taskTraces flat_map app].
      now rewrite app_nil_r. }
    assert (Hbo : backoffs ([All traces] ++ progress ++ pause ++ evs)
                  = (length (List.filter backsOff traces) + backoffs evs)%nat).
    { unfold backoffs. now rewrite Htt, List.filter_app, length_app. }
    split; [now rewrite app_assoc|]. split.
    { rewrite Htrace. unfold w2, w1. cbn [trace]. now rewrite <- !app_assoc. }
    split; [rewrite Htt, Hsplit; now apply Forall2_app|].
    split; [rewrite Hbo, Hn2, Hn1, Hsplit, length_app; lia|].
    split.
    + intros H. rewrite Hbo, (Hh1 H), (Hh2 H). reflexivity.
    + intros H. destruct (Ho1 H) as [-> Hall]. destruct (Ho2 H) as [-> Hb2].
      rewrite Hbo, Hb2, Hall, Hsplit, map_app, length_app.
      split; [reflexivity|]. now rewrite (Forall2_length _ _ _ HF1).
Qed.

(** X8. A run of [searchBatch] over [n] identifiers issues one request for
    each identifier and one more for each task that backs off, so between
    [n] and [2 n] requests.  On a network where no lookup fails no task
    backs off and the run costs exactly [n] requests; in a total outage
    every task backs off, the run costs exactly [2 n] requests and every
    outcome is the not-found outcome of its identifier. *)
Theorem searchBatch_request_budget (ids : list string) (options : BatchSearchOptions)
  (observed : bool) (fuel : nat) (w : World) :
  let c := default (maxConcurrentRequests config) (bo_maxConcurrent options) in
  0 < c ->
  bo_onProgress options = progressOption observed ->
  (length ids < fuel)%nat ->
  exists results w' evs,
    searchBatch net config fuel ids options w = (Normal results, w')
    /\ trace w' = trace w ++ evs
    /\ length (taskTraces evs) = length ids
    /\ requests w' = (requests w + length ids + backoffs evs)%nat
    /\ (backoffs evs <= length ids)%nat
    /\ (requests w + length ids <= requests w' <= requests w + 2 * length ids)%nat
    /\ (healthy net ->
        backoffs evs = 0%nat /\ requests w' = (requests w + length ids)%nat)
    /\ (outage net ->
        backoffs evs = length ids
        /\ requests w' = (requests w + 2 * length ids)%nat
        /\ results = map notFound ids).
Proof.
  intros c Hc Hcb Hfuel. unfold searchBatch. rewrite Hcb.
  destruct (loop_tasks ids c
              (default (delayBetweenBatchesMs config) (bo_delayBetweenBatchesMs options))
              (default (timeoutMs config) (bo_timeoutMs options))
              observed Hc fuel 0 [] w)
    as (rs & w' & evs & Hrun & Htrace & HF & Hn & Hh & Ho); [lia|lia|lia|].
  change (drop (Z.to_nat 0) ids) with ids in *. cbn [app] in Hrun.
  pose proof (Forall2_length _ _ _ HF) as Hlen.
  pose proof (backoffs_le evs) as Hle.
  exists rs, w', evs. split; [exact Hrun|]. split; [exact Htrace|].
  split; [now symmetry|]. split; [exact Hn|]. split; [lia|]. split; [lia|].
  split.
  - intros H. rewrite (Hh H) in *. split; [reflexivity|lia].
  - intros H. destruct (Ho H) as [-> Hb]. rewrite Hb in *.
    split; [reflexivity|]. split; [lia|reflexivity].
Qed.

(** In an outage every outcome of the wrapper is the not-found outcome. *)
Lemma answers_outage (t : Z) (id : string) (r : BatchSearchResult) :
  outage net -> answers net config t id r -> r = notFound id.
Proof.
  intros Ho (a & b & _ & ->). unfold attempt.
  assert (E : forall k, bodyOf (net k (mkRequest (apiUrl config) id t)) = None)
    by (intros k; apply failed_bodyOf, Ho).
  now rewrite !E.
Qed.

End Budget.

(** Witness of X8: five identifiers on a network that loses the first
    request cost six requests. *)
Lemma searchBatch_request_budget_witness :
  exists results w',
    searchBatch Demo.flaky Demo.defaultConfig 6 Demo.five (Demo.options 2 None) Demo.start
    = (Normal results, w')
    /\ requests w' = 6%nat.
Proof.
  destruct (searchBatch_request_budget Demo.flaky Demo.defaultConfig Demo.five
              (Demo.options 2 None) false 6 Demo.start)
    as (results & w' & evs & Hrun & Htrace & _ & Hn & _).
  - reflexivity.
  - reflexivity.
  - cbn. lia.
  - exists results, w'. split; [exact Hrun|]. rewrite Hn.
    cbn [Demo.start trace app] in Htrace. rewrite <- Htrace.
    vm_compute in Hrun. injection Hrun as _ <-. reflexivity.
Defined.

End DispatcherProperties.

(** ** The batch processor *)

Module ProcessorProperties.

Import Js Types Effects HPCSAService Spec Notions DispatcherFacts TraceFacts StatisticsFacts
  DispatcherProperties BatchProcessorService.

Lemma calculateStatistics_notFound (ids : list string) :
  calculateStatistics (map notFound ids)
  = {| activeCount := 0; inactiveCount := 0;
       notFoundCount := length ids; totalProcessed := length ids |}.
Proof.
  induction ids as [|id ids IH]; [reflexivity|].
  cbn [map]. rewrite (calculateStatistics_cons (notFound id) _ NotFound), IH.
  - reflexivity.
  - now apply in_not_found.
Qed.

Lemma Forall2_notFound (ids : list string) (rs : list BatchSearchResult) :
  Forall2 (fun id r => r = notFound id) ids rs -> rs = map notFound ids.
Proof. induction 1 as [|id r ids rs -> _ IH]; [reflexivity|]. cbn. now rewrite IH. Qed.

Section Process.

Variable net : Network.
Variable hpcsaConfig : HPCSAApiConfig.
Variable config : BatchProcessorConfig.

Lemma process_runs (ids : list string) (onProgress : option (Z -> Z -> M unit))
  (fuel : nat) (w : World) :
  0 < cfg_maxConcurrentRequests config ->
  returnsIfAny onProgress ->
  (length ids < fuel)%nat ->
  exists rs w',
    process net hpcsaConfig config fuel ids onProgress w
    = (Normal {| results := rs; statistics := calculateStatistics rs |}, w')
    /\ Forall2 (answers net hpcsaConfig (timeoutMs hpcsaConfig)) ids rs.
Proof.
  intros Hc Hcb Hfuel. unfold process, searchBatch.
  cbn [default bo_maxConcurrent bo_delayBetweenBatchesMs bo_timeoutMs bo_onProgress].
  destruct (loop_results net hpcsaConfig ids (cfg_maxConcurrentRequests config)
              (cfg_delayBetweenBatchesMs config) (timeoutMs hpcsaConfig) onProgress
              Hc Hcb fuel 0 [] w)
    as (rs & w' & Hrun & HF); [lia|lia|lia|].
  change (drop (Z.to_nat 0) ids) with ids in HF. cbn [app] in Hrun.
  exists rs, w'. unfold bind, id. rewrite Hrun. split; [reflexivity|exact HF].
Qed.

(** X9. [process] dispatches with the settings of the processor, not with
    those of the lookup service that it is given: the waves have the size
    of its own [maxConcurrentRequests], 10 when the constructor got none,
    and the pauses between them last its own [delayBetweenBatchesMs], 100
    when the constructor got none.  Whenever that limit is positive it
    returns one result per identifier, in order, each an outcome of the
    retry wrapper for its identifier, and statistics that count exactly
    these results: [totalProcessed] is the number of identifiers and the
    three counts add up to it. *)
Theorem process_totals (ids : list string) (fuel : nat) (w : World) :
  let c := default 10 (pc_maxConcurrentRequests config) in
  let d := default 100 (pc_delayBetweenBatchesMs config) in
  let n := Z.of_nat (length ids) in
  0 < c ->
  (length ids < fuel)%nat ->
  (forall onProgress, returnsIfAny onProgress ->
     exists response w',
       process net hpcsaConfig config fuel ids onProgress w = (Normal response, w')
       /\ Forall2 (answers net hpcsaConfig (timeoutMs hpcsaConfig)) ids (results response)
       /\ length (results response) = length ids
       /\ statistics response = calculateStatistics (results response)
       /\ totalProcessed (statistics response) = length ids
       /\ (activeCount (statistics response) + inactiveCount (statistics response)
           + notFoundCount (statistics response) = length ids)%nat)
  /\ (forall observed,
        exists response w' evs,
          process net hpcsaConfig config fuel ids (progressOption observed) w
          = (Normal response, w')
          /\ trace w' = trace w ++ evs
          /\ waveSizes evs
             = map (fun k => Z.to_nat (Z.min c (n - Z.of_nat k * c)))
                 (seq 0 (waveCount n c))
          /\ pauses evs = repeat d (waveCount n c - 1)).
Proof.
  intros c d n Hc Hfuel. split.
  - intros onProgress Hcb.
    destruct (process_runs ids onProgress fuel w Hc Hcb Hfuel) as (rs & w' & Hrun & HF).
    pose proof (Forall2_length _ _ _ HF) as Hlen.
    eexists _, w'. split; [exact Hrun|]. cbn [results statistics].
    split; [exact HF|]. split; [congruence|]. split; [reflexivity|].
    split; [cbn; congruence|].
    rewrite calculateStatistics_sum. cbn. congruence.
  - intros observed. unfold process.
    set (searchOptions :=
           {| bo_timeoutMs := None; bo_maxRetries := None;
              bo_batchSize := Some (cfg_batchSize config);
              bo_maxConcurrent := Some (cfg_maxConcurrentRequests config);
              bo_delayBetweenBatchesMs := Some (cfg_delayBetweenBatchesMs config);
              bo_onProgress := progressOption observed |}).
    destruct (WaveTheorems.searchBatch_steps net hpcsaConfig ids searchOptions observed fuel w)
      as (rs & w' & evs & Hrun & Htrace & Hsteps); [exact Hc|reflexivity|exact Hfuel|].
    change (default (maxConcurrentRequests hpcsaConfig) (bo_maxConcurrent searchOptions))
      with c in Hsteps.
    change (default (delayBetweenBatchesMs hpcsaConfig)
              (bo_delayBetweenBatchesMs searchOptions)) with d in Hsteps.
    fold n in Hsteps.
    assert (Hn : 0 <= n) by (unfold n; lia).
    unfold bind. rewrite Hrun. eexists _, w', evs.
    split; [reflexivity|]. split; [exact Htrace|]. split.
    + now rewrite waveSizes_steps, Hsteps, (sizesOf_schedule observed n c d).
    + rewrite pauses_steps, Hsteps.
      now rewrite (pausesOf_schedule observed n c d Hc Hn 0 (waveCount n c)).
Qed.

(** X10. In a total outage [process] still returns, without any error:
    every identifier comes back as not found, with empty name, city and
    status, and the statistics count all of them as not found. *)
Theorem process_outage (ids : list string) (onProgress : option (Z -> Z -> M unit))
  (fuel : nat) (w : World) :
  outage net ->
  0 < default 10 (pc_maxConcurrentRequests config) ->
  returnsIfAny onProgress ->
  (length ids < fuel)%nat ->
  exists w',
    process net hpcsaConfig config fuel ids onProgress w
    = (Normal {| results := map notFound ids;
                 statistics :=
                   {| activeCount := 0; inactiveCount := 0;
                      notFoundCount := length ids; totalProcessed := length ids |} |},
       w').
Proof.
  intros Ho Hc Hcb Hfuel.
  destruct (process_runs ids onProgress fuel w Hc Hcb Hfuel) as (rs & w' & Hrun & HF).
  assert (Hrs : rs = map notFound ids).
  { apply Forall2_notFound. eapply Forall2_impl; [exact HF|].
    intros id r. now apply answers_outage. }
  subst rs. rewrite calculateStatistics_notFound in Hrun. now exists w'.
Qed.

End Process.

(** Witness of X9: the sample register, a processor limit of 2, and a
    lookup service configured with a limit of 0 and a delay of 200. *)
Lemma process_totals_witness :
  exists response w',
    process Demo.steady (withMaxRetries 0
                           {| apiUrl := apiUrl Demo.defaultConfig; timeoutMs := 15000;
                              maxRetries := 3; batchSize := 20;
                              maxConcurrentRequests := 0;
                              delayBetweenBatchesMs := 200 |})
      {| pc_batchSize := None; pc_maxConcurrentRequests := Some 2;
         pc_delayBetweenBatchesMs := None |}
      6 Demo.five None Demo.start
    = (Normal response, w')
    /\ totalProcessed (statistics response) = 5%nat
    /\ waveSizes (trace w') = [2; 2; 1]%nat
    /\ pauses (trace w') = [100; 100].
Proof.
  destruct (process_totals Demo.steady
              (withMaxRetries 0
                 {| apiUrl := apiUrl Demo.defaultConfig; timeoutMs := 15000;
                    maxRetries := 3; batchSize := 20;
                    maxConcurrentRequests := 0;
                    delayBetweenBatchesMs := 200 |})
              {| pc_batchSize := None; pc_maxConcurrentRequests := Some 2;
                 pc_delayBetweenBatchesMs := None |}
              Demo.five 6 Demo.start)
    as (Hresults & Hwaves).
  - reflexivity.
  - cbn. lia.
  - destruct (Hresults None) as (response & w' & Hrun & _ & _ & _ & Htotal & _);
      [intros callback [=]|].
    destruct (Hwaves false) as (response2 & w2 & evs & Hrun2 & Htrace & Hsizes & Hpauses).
    cbn [progressOption] in Hrun2. rewrite Hrun in Hrun2. injection Hrun2 as <- <-.
    exists response, w'. split; [exact Hrun|]. split; [exact Htotal|].
    cbn [Demo.start trace app] in Htrace. rewrite Htrace.
    split; [exact Hsizes | exact Hpauses].
Defined.

(** Witness of X10: an endpoint that answers 503 to everything. *)
Lemma process_outage_witness :
  exists w',
    process Demo.down Demo.defaultConfig
      {| pc_batchSize := None; pc_maxConcurrentRequests := Some 2;
         pc_delayBetweenBatchesMs := None |}
      6 Demo.five None Demo.start
    = (Normal {| results := map notFound Demo.five;
                 statistics :=
                   {| activeCount := 0; inactiveCount := 0;
                      notFoundCount := 5; totalProcessed := 5 |} |}, w').
Proof.
  apply (process_outage Demo.down Demo.defaultConfig
           {| pc_batchSize := None; pc_maxConcurrentRequests := Some 2;
              pc_delayBetweenBatchesMs := None |}
           Demo.five None 6 Demo.start).
  - intros k r. reflexivity.
  - reflexivity.
  - intros callback [=].
  - cbn. lia.
Defined.

End ProcessorProperties.

(** ** The file parser service *)

Module FileParserProperties.

Import Js JsText Types FileParserService RouteNotions.

Section Registry.

Variable Parser : Type.

(** X11. Registering a parser makes it the parser of its file type: it is
    what [getParser] returns for that type and what [getParserForFile]
    returns for every file detected as that type, such files are supported
    from then on, the parsers of the other types stay as they were, and a
    second registration for the same type replaces the first. *)
Theorem register_then_lookup (this : FileParserRegistryImpl Parser)
  (fileType : FileType) (parser : Parser) :
  let this' := register Parser (fileTypeKey fileType) parser this in
  getParser Parser this' (fileTypeKey fileType) = Some parser
  /\ (forall other, other <> fileTypeKey fileType ->
        getParser Parser this' other = getParser Parser this other)
  /\ (forall fileName,
        detect (fileTypeDetector Parser this) fileName = Some fileType ->
        getParserForFile Parser this' fileName = Some parser
        /\ registrySupports Parser this' fileName = true)
  /\ (forall fileName,
        detect (fileTypeDetector Parser this) fileName <> Some fileType ->
        getParserForFile Parser this' fileName = getParserForFile Parser this fileName
        /\ registrySupports Parser this' fileName = registrySupports Parser this fileName)
  /\ (forall parser',
        register Parser (fileTypeKey fileType) parser' this'
        = register Parser (fileTypeKey fileType) parser' this).
Proof.
  cbv zeta. unfold getParser, getParserForFile, registrySupports, register.
  cbn [parsers fileTypeDetector].
  split; [apply lookup_insert_eq|].
  split; [intros other Hne; now apply lookup_insert_ne|].
  split.
  - intros fileName ->. unfold getParser. cbn [parsers].
    now rewrite lookup_insert_eq.
  - split.
    + intros fileName Hd. unfold getParser. cbn [parsers].
      destruct (detect (fileTypeDetector Parser this) fileName) as [ft|]; [|split; reflexivity].
      assert (Hne : fileTypeKey fileType <> fileTypeKey ft).
      { intros H. apply Hd. f_equal. destruct fileType, ft; cbn in H; congruence. }
      now rewrite lookup_insert_ne.
    + intros parser'. f_equal. apply insert_insert_eq.
Qed.

Variables csvFileParser excelFileParser : Parser.

Lemma created_parsers (detector : option FileTypeDetector) (fileType : FileType) :
  parsers Parser (createFileParserRegistry Parser csvFileParser excelFileParser detector)
    !! fileTypeKey fileType
  = Some match fileType with csv => csvFileParser | excel => excelFileParser end.
Proof.
  unfold createFileParserRegistry, register. cbn [parsers].
  destruct fileType; cbn [fileTypeKey].
  - rewrite lookup_insert_ne by discriminate. apply lookup_insert_eq.
  - apply lookup_insert_eq.
Qed.

Lemma defaultDetect_known (fileName : string) :
  hasKnownExtension fileName = true <-> defaultDetect fileName <> None.
Proof.
  unfold hasKnownExtension, defaultDetect. cbv zeta.
  destruct (endsWith (toLowerCase fileName) ".csv"),
    (endsWith (toLowerCase fileName) ".xlsx"),
    (endsWith (toLowerCase fileName) ".xls"); cbn; split; congruence.
Qed.

Lemma created_supports (extensions : option (list string)) (fileName : string) :
  registrySupports Parser
    (createFileParserRegistry Parser csvFileParser excelFileParser
       (Some (DefaultFileTypeDetector extensions))) fileName
  = hasKnownExtension fileName.
Proof.
  unfold registrySupports.
  change (detect (fileTypeDetector Parser
            (createFileParserRegistry Parser csvFileParser excelFileParser
               (Some (DefaultFileTypeDetector extensions)))) fileName)
    with (defaultDetect fileName).
  destruct (defaultDetect fileName) as [ft|] eqn:E.
  - rewrite created_parsers. symmetry. apply defaultDetect_known. congruence.
  - destruct (hasKnownExtension fileName) eqn:K; [|reflexivity].
    apply defaultDetect_known in K. congruence.
Qed.

Lemma created_getParserForFile (extensions : option (list string)) (fileName : string) :
  getParserForFile Parser
    (createFileParserRegistry Parser csvFileParser excelFileParser
       (Some (DefaultFileTypeDetector extensions))) fileName
  = match defaultDetect fileName with
    | Some csv => Some csvFileParser
    | Some excel => Some excelFileParser
    | None => None
    end.
Proof.
  unfold getParserForFile, getParser.
  change (detect (fileTypeDetector Parser
            (createFileParserRegistry Parser csvFileParser excelFileParser
               (Some (DefaultFileTypeDetector extensions)))) fileName)
    with (defaultDetect fileName).
  destruct (defaultDetect fileName) as [ft|]; [|reflexivity].
  rewrite created_parsers. now destruct ft.
Qed.

(** X12. The registry that [createFileParserRegistry] builds over a default
    detector supports exactly the files whose name ends, in any case, with
    .csv, .xlsx or .xls, and it has a parser for each of them: the csv
    parser for .csv, the excel parser for the other two.  The extensions
    that the detector was given play no part in it; with the default
    extensions the detector's own [isSupported] says the same. *)
Theorem created_registry_supports (extensions : option (list string)) (fileName : string) :
  let registry :=
    createFileParserRegistry Parser csvFileParser excelFileParser
      (Some (DefaultFileTypeDetector extensions)) in
  registrySupports Parser registry fileName = hasKnownExtension fileName
  /\ getParserForFile Parser registry fileName
     = match defaultDetect fileName with
       | Some csv => Some csvFileParser
       | Some excel => Some excelFileParser
       | None => None
       end
  /\ (registrySupports Parser registry fileName = true
      <-> is_Some (getParserForFile Parser registry fileName))
  /\ isSupported (DefaultFileTypeDetector None) fileName
     = registrySupports Parser registry fileName.
Proof.
  cbv zeta.
  pose proof (created_supports extensions fileName) as Hsup.
  pose proof (created_getParserForFile extensions fileName) as Hget.
  set (registry := createFileParserRegistry Parser csvFileParser excelFileParser
                     (Some (DefaultFileTypeDetector extensions))) in *.
  split; [exact Hsup|]. split; [exact Hget|]. split.
  - rewrite Hsup, Hget, defaultDetect_known.
    destruct (defaultDetect fileName) as [[]|]; split; intros H;
      try congruence; try (now eexists); now destruct H.
  - rewrite Hsup. unfold hasKnownExtension. cbn. now rewrite orb_false_r, orb_assoc.
Qed.

End Registry.

(** *** The header row of a csv report *)

Lemma headerRowFrom_spec (rows : list (list (option JsVal))) (i : nat) :
  (headerRowFrom i rows = 0%nat /\ Forall (fun row => isHeaderMarker row = false) rows)
  \/ exists before marker after,
       rows = before ++ marker :: after
       /\ isHeaderMarker marker = true
       /\ Forall (fun row => isHeaderMarker row = false) before
       /\ headerRowFrom i rows = (i + length before + 1)%nat.
Proof.
  revert i. induction rows as [|row rows IH]; intros i.
  - left. split; [reflexivity|constructor].
  - cbn [headerRowFrom]. destruct (isHeaderMarker row) eqn:E.
    + right. exists [], row, rows. repeat split; [exact E|constructor|cbn; lia].
    + destruct (IH (S i)) as [[H0 Hall]|(before & marker & after & -> & Hm & Hb & Hidx)].
      * left. split; [exact H0|now constructor].
      * right. exists (row :: before), marker, after.
        repeat split; [exact Hm|now constructor|cbn [length]; lia].
Qed.

(** X13. The csv parser starts reading one row after the first row of the
    raw sheet that mentions "attendee details", or both "attended" and
    "professional council number", in any case; it starts at row 0 exactly
    when there is no such row.  The index never exceeds the number of rows. *)
Theorem headerRowIndex_first_marker (rawSheet : list (list (option JsVal))) :
  (headerRowIndex rawSheet <= length rawSheet)%nat
  /\ (headerRowIndex rawSheet = 0%nat
      <-> Forall (fun row => isHeaderMarker row = false) rawSheet)
  /\ (headerRowIndex rawSheet <> 0%nat ->
      exists before marker after,
        rawSheet = before ++ marker :: after
        /\ isHeaderMarker marker = true
        /\ Forall (fun row => isHeaderMarker row = false) before
        /\ headerRowIndex rawSheet = S (length before)
        /\ drop (headerRowIndex rawSheet) rawSheet = after).
Proof.
  unfold headerRowIndex.
  destruct (headerRowFrom_spec rawSheet 0)
    as [[H0 Hall]|(before & marker & after & Hrows & Hm & Hb & Hidx)].
  - rewrite H0. split; [lia|]. split; [tauto|]. congruence.
  - rewrite Hidx. split; [subst rawSheet; rewrite length_app; cbn; lia|].
    split.
    + split; [lia|]. intros Hall. rewrite Hrows in Hall.
      apply Forall_app in Hall as [_ [Hx _]%Forall_cons]. congruence.
    + intros _. exists before, marker, after.
      repeat split; try assumption; [lia|].
      rewrite Hrows. replace (0 + length before + 1)%nat with (length (before ++ [marker])).
      * rewrite (cons_middle marker before after), app_assoc. apply drop_app_length.
      * rewrite length_app. cbn. lia.
Qed.

End FileParserProperties.

(** ** The routes *)

Module RouteProperties.

Import Js JsText Types Effects HPCSAService Spec Notions FileParserService
  ServiceContainer Routes RouteNotions LookupFacts DispatcherFacts StatisticsFacts
  ExtractorFacts FileParserProperties.

Lemma searchSingle_run (net : Network) (config : HPCSAApiConfig) (reg : string)
  (options : SearchOptions) (w : World) :
  let req := mkRequest (apiUrl config) reg (default (timeoutMs config) (so_timeoutMs options)) in
  searchSingle net config reg options w
  = (Normal match bodyOf (net (requests w) req) with
            | Some json => parseSearchResults json reg
            | None => []
            end, fetched w req).
Proof.
  intros req. unfold searchSingle, tryCatch, bind. fold req.
  destruct (bodyOf (net (requests w) req)) as [json|] eqn:E.
  - now rewrite (executeSearch_returns net config reg _ w json E).
  - destruct (executeSearch_throws net config reg _ w E) as [e He]. fold req in He.
    now rewrite He.
Qed.

Section Search.

Variable net : Network.
Variable container : ServiceContainerImpl.
Variable errorMessage : JsError -> string.

(** X14. The search route always answers.  It answers 500 only when the
    body of the request cannot be read, and 400 exactly when the
    registration number is missing or falsy; in both cases no request goes
    out.  Otherwise exactly one request goes out and the answer is 200: with
    the records and no message when there are records, with no records and
    the message "No results found" when there are none -- which is also
    the answer when the lookup fails, so that an outage of the remote
    service shows as "No results found". *)
Theorem searchPOST_responses (body : JsonBody) (w : World) :
  exists response w',
    searchPOST net container errorMessage body w = (Normal response, w')
    /\ (searchStatus response = 500 <-> exists message, body = BodyThrows message)
    /\ (searchStatus response = 400 <->
        exists v, body = BodyObject v /\ falsy v = true)
    /\ (searchStatus response <> 200 -> w' = w)
    /\ (forall v, body = BodyObject v -> falsy v = false ->
        let req := mkRequest (apiUrl (sc_hpcsaConfig container))
                     (RegistrationExtractorService.stringOf v)
                     (timeoutMs (sc_hpcsaConfig container)) in
        w' = fetched w req
        /\ (failed (net (requests w) req) = true ->
            response = SearchOk [] (Some "No results found"%string))
        /\ (forall json, bodyOf (net (requests w) req) = Some json ->
            parseSearchResults json (RegistrationExtractorService.stringOf v) = [] ->
            response = SearchOk [] (Some "No results found"%string))
        /\ (forall json, bodyOf (net (requests w) req) = Some json ->
            parseSearchResults json (RegistrationExtractorService.stringOf v) <> [] ->
            response
            = SearchOk (parseSearchResults json (RegistrationExtractorService.stringOf v))
                None)
        /\ (forall results, response = SearchOk results None -> results <> [])
        /\ (forall results message, response = SearchOk results (Some message) ->
            results = [] /\ message = "No results found"%string)
        /\ searchStatus response = 200).
Proof.
  destruct body as [message|v]; cbn [searchPOST].
  - eexists _, w. split; [reflexivity|]. cbn.
    split; [split; [intros _; now exists message|reflexivity]|].
    split; [split; [discriminate|intros (v & H & _); discriminate]|].
    split; [reflexivity|]. intros v H. discriminate.
  - destruct (falsy v) eqn:Ef.
    + eexists _, w. split; [reflexivity|]. cbn.
      split; [split; [discriminate|intros (m & H); discriminate]|].
      split; [split; [intros _; now exists v|reflexivity]|].
      split; [reflexivity|]. intros v' [= <-] H. congruence.
    + unfold tryCatch, bind. rewrite searchSingle_run. cbn [default so_timeoutMs].
      set (req := mkRequest (apiUrl (sc_hpcsaConfig container))
                    (RegistrationExtractorService.stringOf v)
                    (timeoutMs (sc_hpcsaConfig container))).
      remember (match bodyOf (net (requests w) req) with
                | Some json => parseSearchResults json _
                | None => []
                end) as records eqn:Er.
      assert (Hfail : failed (net (requests w) req) = true -> records = []).
      { intros F. apply failed_bodyOf in F. rewrite Er. now rewrite F. }
      assert (Hbody : forall json, bodyOf (net (requests w) req) = Some json ->
                records = parseSearchResults json (RegistrationExtractorService.stringOf v)).
      { intros json E. rewrite Er. now rewrite E. }
      clear Er. destruct records as [|record rest]; cbn [length Nat.eqb];
        (eexists _, _; split; [reflexivity|]); cbn [searchStatus].
      * split; [split; [discriminate|intros (m & H); discriminate]|].
        split; [split; [discriminate|intros (v' & [= <-] & H); congruence]|].
        split; [congruence|].
        intros v' [= <-] _. cbv zeta. fold req.
        split; [reflexivity|]. split; [reflexivity|]. split; [reflexivity|].
        split; [intros json E Hne; rewrite <- (Hbody json E) in Hne; contradiction|].
        split; [discriminate|]. split; [now intros results message [= <- <-]|].
        reflexivity.
      * split; [split; [discriminate|intros (m & H); discriminate]|].
        split; [split; [discriminate|intros (v' & [= <-] & H); congruence]|].
        split; [congruence|].
        intros v' [= <-] _. cbv zeta. fold req.
        split; [reflexivity|].
        split; [intros F; specialize (Hfail F); discriminate|].
        split; [intros json E Hnil; rewrite <- (Hbody json E) in Hnil; discriminate|].
        split; [intros json E _; now rewrite <- (Hbody json E)|].
        split; [intros results [= <-]; discriminate|]. split; [discriminate|].
        reflexivity.
Qed.

End Search.

End RouteProperties.

Module BatchRouteProperties.

Import Js JsText Types Effects HPCSAService Spec Notions FileParserService
  ServiceContainer Routes RouteNotions DispatcherFacts StatisticsFacts
  ExtractorFacts FileParserProperties.

Ltac settle :=
  repeat split; try discriminate; try (intros []; discriminate);
  try (intros H; exfalso; now apply H).

Section Batch.

Variable net : Network.
Variable defaultConfig : HPCSAApiConfig.
Variables csvFileParser excelFileParser : FileParser.
Variable config : ContainerConfig.
Variable errorMessage : JsError -> string.

(** The route on an uploaded file, branch by branch, for the container
    that [newServiceContainer] builds. *)
Lemma batchPOST_file (fuel : nat) (file : File) (w : World) :
  let container := newServiceContainer defaultConfig csvFileParser excelFileParser config in
  batchPOST net container errorMessage fuel (FormFields (Some file)) w
  = match defaultDetect (file_name file) with
    | None =>
        (Normal (BatchBadRequest
                   "Unsupported file type. Supported formats: .csv, .xlsx, .xls" None), w)
    | Some fileType =>
        match parserOf csvFileParser excelFileParser fileType (file_bytes file) with
        | ParseThrows message =>
            (Normal (BatchFailed "Failed to process file" message), w)
        | ParseReturns parseResult =>
            let extractResult :=
              RegistrationExtractorService.extract (sc_fieldMappings container)
                (data parseResult) fileType in
            if (length (registrationNumbers extractResult) =? 0)%nat
            then
              (Normal (BatchBadRequest
                         (RegistrationExtractorErrorFormatterService.getErrorMessage
                            (sc_fieldMappings container) fileType
                            (skippedCount extractResult) (totalRows extractResult))
                         (Some {| sd_totalRows := totalRows extractResult;
                                  sd_skipped := skippedCount extractResult |})), w)
            else
              tryCatch
                (bind
                   (BatchProcessorService.process net (sc_hpcsaConfig container)
                      (sc_processorConfig container) fuel
                      (registrationNumbers extractResult) None)
                   (fun serviceResponse =>
                      ret (BatchOk
                             {| bb_results := results serviceResponse;
                                bb_activeCount := activeCount (statistics serviceResponse);
                                bb_inactiveCount :=
                                  inactiveCount (statistics serviceResponse);
                                bb_notFoundCount :=
                                  notFoundCount (statistics serviceResponse);
                                bb_totalProcessed :=
                                  totalProcessed (statistics serviceResponse) |})))
                (fun error =>
                   ret (BatchFailed "Failed to process file" (errorMessage error))) w
        end
    end.
Proof.
  cbv zeta. unfold batchPOST.
  set (container := newServiceContainer defaultConfig csvFileParser excelFileParser config).
  pose proof (created_supports FileParser csvFileParser excelFileParser
                (cc_supportedFileExtensions config) (file_name file)) as Hsup.
  pose proof (created_getParserForFile FileParser csvFileParser excelFileParser
                (cc_supportedFileExtensions config) (file_name file)) as Hget.
  change (createFileParserRegistry FileParser csvFileParser excelFileParser
            (Some (DefaultFileTypeDetector (cc_supportedFileExtensions config))))
    with (sc_fileParserRegistry container) in Hsup, Hget.
  cbv zeta. rewrite Hsup, Hget.
  change (detect (sc_fileTypeDetector container) (file_name file))
    with (defaultDetect (file_name file)).
  destruct (defaultDetect (file_name file)) as [fileType|] eqn:Ed.
  - assert (Hk : hasKnownExtension (file_name file) = true)
      by (apply defaultDetect_known; congruence).
    rewrite Hk. cbn [negb].
    destruct fileType; cbn [parserOf];
      (match goal with |- context [?p (file_bytes file)] => destruct (p (file_bytes file)) end;
       [reflexivity|]; cbv zeta; destruct (length _ =? 0)%nat; reflexivity).
  - destruct (hasKnownExtension (file_name file)) eqn:Hk; [|reflexivity].
    apply defaultDetect_known in Hk. congruence.
Qed.

(** X15. The batch route turns a request down before any lookup: 500 when
    the form cannot be read or the parser throws, 400 when there is no
    file, when the name of the file has none of the extensions .csv, .xlsx
    and .xls (in any case, whatever extensions the container was configured
    with), and when the file yields no registration number -- then with
    the row count and the skipped count of the extraction.  The answers
    "Unable to determine file type" and "No parser available" are never
    given. *)
Theorem batchPOST_rejections (fuel : nat) (form : FormData) (w : World) :
  let container := newServiceContainer defaultConfig csvFileParser excelFileParser config in
  let run := batchPOST net container errorMessage fuel form w in
  (forall message, form = FormThrows message ->
     run = (Normal (BatchFailed "Failed to process file" message), w))
  /\ (form = FormFields None ->
      run = (Normal (BatchBadRequest "No file uploaded" None), w))
  /\ (forall file, form = FormFields (Some file) ->
      (hasKnownExtension (file_name file) = false ->
       run = (Normal (BatchBadRequest
                        "Unsupported file type. Supported formats: .csv, .xlsx, .xls"
                        None), w))
      /\ (forall fileType message,
            defaultDetect (file_name file) = Some fileType ->
            parserOf csvFileParser excelFileParser fileType (file_bytes file)
            = ParseThrows message ->
            run = (Normal (BatchFailed "Failed to process file" message), w))
      /\ (forall fileType parseResult,
            defaultDetect (file_name file) = Some fileType ->
            parserOf csvFileParser excelFileParser fileType (file_bytes file)
            = ParseReturns parseResult ->
            let extractResult :=
              RegistrationExtractorService.extract (sc_fieldMappings container)
                (data parseResult) fileType in
            registrationNumbers extractResult = [] ->
            run = (Normal (BatchBadRequest
                             (RegistrationExtractorErrorFormatterService.getErrorMessage
                                (sc_fieldMappings container) fileType
                                (skippedCount extractResult) (length (data parseResult)))
                             (Some {| sd_totalRows := length (data parseResult);
                                      sd_skipped := skippedCount extractResult |})), w)))
  /\ (forall response w', run = (Normal response, w') ->
      response <> BatchBadRequest "Unable to determine file type" None
      /\ (forall fileType,
            response
            <> BatchBadRequest
                 ("No parser available for " +:+ fileTypeKey fileType +:+ " files") None)).
Proof.
  cbv zeta. split; [now intros message ->|]. split; [now intros ->|]. split.
  - intros file ->. rewrite batchPOST_file. cbv zeta. split; [|split].
    + intros Hk. destruct (defaultDetect (file_name file)) eqn:Ed; [|reflexivity].
      assert (hasKnownExtension (file_name file) = true)
        by (apply defaultDetect_known; congruence).
      congruence.
    + intros fileType message -> ->. reflexivity.
    + intros fileType parseResult -> -> Hnone. rewrite Hnone. reflexivity.
  - intros response w' Hrun.
    destruct form as [message|[file|]].
    + injection Hrun as <- <-. settle.
    + rewrite batchPOST_file in Hrun. cbv zeta in Hrun.
      destruct (defaultDetect (file_name file)) as [fileType|].
      * destruct (parserOf csvFileParser excelFileParser fileType (file_bytes file))
          as [message|parseResult].
        -- injection Hrun as <- <-. settle.
        -- destruct (length _ =? 0)%nat.
           ++ injection Hrun as <- <-. settle.
           ++ unfold tryCatch, bind, ret in Hrun.
              destruct (BatchProcessorService.process _ _ _ _ _ _ _) as [[sr|e|] w1];
                [| |discriminate]; injection Hrun as <- <-; settle.
      * injection Hrun as <- <-. settle.
    + injection Hrun as <- <-. settle.
Qed.

(** X16. A file that passes the checks of the batch route and yields
    registration numbers gets the answer 200, whatever the network does:
    one result per registration number that [extract] returned, in that
    order, each an outcome of the retry wrapper for its number; the total
    is the number of these results, the three counts add up to it, and
    together with the skipped rows it does not exceed the rows of the
    file. *)
Theorem batchPOST_success (fuel : nat) (file : File) (fileType : FileType)
  (parseResult : FileParseResult) (w : World) :
  let container := newServiceContainer defaultConfig csvFileParser excelFileParser config in
  let extractResult :=
    RegistrationExtractorService.extract (sc_fieldMappings container)
      (data parseResult) fileType in
  defaultDetect (file_name file) = Some fileType ->
  parserOf csvFileParser excelFileParser fileType (file_bytes file)
  = ParseReturns parseResult ->
  registrationNumbers extractResult <> [] ->
  (length (data parseResult) < fuel)%nat ->
  exists body w',
    batchPOST net container errorMessage fuel (FormFields (Some file)) w
    = (Normal (BatchOk body), w')
    /\ Forall2 (answers net (sc_hpcsaConfig container)
                  (timeoutMs (sc_hpcsaConfig container)))
         (registrationNumbers extractResult) (bb_results body)
    /\ bb_totalProcessed body = length (registrationNumbers extractResult)
    /\ (bb_activeCount body + bb_inactiveCount body + bb_notFoundCount body
        = bb_totalProcessed body)%nat
    /\ (bb_totalProcessed body + skippedCount extractResult
        <= length (data parseResult))%nat.
Proof.
  intros container extractResult Hdetect Hparse Hsome Hfuel.
  rewrite batchPOST_file. cbv zeta. rewrite Hdetect, Hparse.
  fold container. fold extractResult.
  assert (Hnz : (length (registrationNumbers extractResult) =? 0)%nat = false).
  { destruct (registrationNumbers extractResult); [congruence|reflexivity]. }
  rewrite Hnz.
  assert (Hbound : (length (registrationNumbers extractResult)
                    + skippedCount extractResult <= length (data parseResult))%nat).
  { unfold extractResult.
    rewrite ExtractorProperties.extract_registrationNumbers,
      ExtractorProperties.extract_skippedCount.
    pose proof (firstOccurrences_length
                  (candidates (sc_fieldMappings container) fileType (data parseResult))).
    pose proof (ExtractorTheorems.rows_accounted (sc_fieldMappings container) fileType
                  (data parseResult)).
    lia. }
  destruct (ProcessorProperties.process_runs net (sc_hpcsaConfig container)
              (sc_processorConfig container) (registrationNumbers extractResult)
              None fuel w)
    as (rs & w' & Hrun & HF); [reflexivity|intros callback [=]|lia|].
  unfold tryCatch, bind. rewrite Hrun. cbn [ret results statistics].
  eexists _, w'. split; [reflexivity|].
  cbn [bb_results bb_totalProcessed bb_activeCount bb_inactiveCount bb_notFoundCount].
  pose proof (Forall2_length _ _ _ HF) as Hlen.
  assert (Htotal : totalProcessed (BatchProcessorService.calculateStatistics rs)
                   = length rs) by reflexivity.
  split; [exact HF|]. split; [congruence|].
  split; [apply calculateStatistics_sum|].
  rewrite Htotal. lia.
Qed.

End Batch.

(** Witness of X16: the sample attendance report, uploaded as a csv file. *)
Lemma batchPOST_success_witness :
  exists body w',
    batchPOST Demo.steady Uploads.container Uploads.errorName 6
      (FormFields (Some Uploads.report)) Demo.start
    = (Normal (BatchOk body), w')
    /\ bb_totalProcessed body = 2%nat.
Proof.
  destruct (batchPOST_success Demo.steady Demo.defaultConfig (Uploads.reads csv)
              Uploads.breaks Uploads.noConfig Uploads.errorName 6 Uploads.report csv
              {| data := Demo.attendance; fileType := csv |} Demo.start)
    as (body & w' & Hrun & _ & Htotal & _).
  - vm_compute. reflexivity.
  - reflexivity.
  - vm_compute. discriminate.
  - cbn. lia.
  - exists body, w'. split; [exact Hrun|]. rewrite Htotal. vm_compute. reflexivity.
Defined.

End BatchRouteProperties.

(** ** The export routes *)

Module ExportProperties.

Import Js JsText Types Spec JsFacts RegistrationExtractorService ExportRoutes RouteNotions.

Lemma isNotAttended_negb (row : gmap string JsVal) :
  isNotAttended row = negb (isAttended row).
Proof.
  unfold isNotAttended, isAttended.
  destruct (row !! "Attended"%string) as [v|]; [|reflexivity].
  now rewrite negb_andb.
Qed.

Lemma filter_complement {A : Type} (f g : A -> bool) (l : list A) :
  (forall x, g x = negb (f x)) ->
  List.filter f l ++ List.filter g l ≡ₚ l.
Proof.
  intros Hg. induction l as [|x l IH]; [reflexivity|].
  cbn [List.filter]. rewrite Hg. destruct (f x); cbn [negb].
  - cbn. now rewrite IH.
  - rewrite <- Permutation_middle. now rewrite IH.
Qed.

Lemma filter_sublist {A : Type} (f : A -> bool) (l : list A) :
  sublist (List.filter f l) l.
Proof.
  induction l as [|x l IH]; [constructor|].
  cbn [List.filter]. destruct (f x); now constructor.
Qed.

(** X17. The two sheets of an export split the rows between them: a row
    goes to "Attended" when its "Attended" cell is truthy and reads "yes"
    in any case, and to "Did Not Attend" in every other case -- no cell, an
    empty or falsy cell, any other text --, so that every row of the report
    is on exactly one of the two sheets and none is lost or doubled.  Each
    sheet keeps the order of the report: it is a sublist of the rows, and
    the sheets of two reports put end to end are the sheets of the first
    followed by the sheets of the second. *)
Theorem export_sheets_partition (json_data : list (gmap string JsVal)) :
  (forall row, isNotAttended row = negb (isAttended row))
  /\ attendedMembers json_data ++ didNotAttendMembers json_data ≡ₚ json_data
  /\ (length (attendedMembers json_data) + length (didNotAttendMembers json_data)
      = length json_data)%nat
  /\ (forall row, In row json_data ->
        (In row (attendedMembers json_data) /\ ~ In row (didNotAttendMembers json_data))
        \/ (In row (didNotAttendMembers json_data) /\ ~ In row (attendedMembers json_data)))
  /\ (forall row,
        In row (attendedMembers json_data) <->
        In row json_data
        /\ exists v, row !! "Attended"%string = Some v /\ truthy v = true
                     /\ toLowerCase (toString v) = "yes"%string)
  /\ sublist (attendedMembers json_data) json_data
  /\ sublist (didNotAttendMembers json_data) json_data
  /\ (forall rows1 rows2,
        attendedMembers (rows1 ++ rows2) = attendedMembers rows1 ++ attendedMembers rows2
        /\ didNotAttendMembers (rows1 ++ rows2)
           = didNotAttendMembers rows1 ++ didNotAttendMembers rows2).
Proof.
  pose proof (filter_complement isAttended isNotAttended json_data isNotAttended_negb) as Hp.
  split; [exact isNotAttended_negb|]. split; [exact Hp|]. split.
  { rewrite <- length_app. now apply Permutation_length. }
  split.
  { intros row Hin. unfold attendedMembers, didNotAttendMembers.
    rewrite !filter_In, isNotAttended_negb.
    destruct (isAttended row); [left|right]; cbn; intuition congruence. }
  split.
  { intros row. unfold attendedMembers. rewrite filter_In. unfold isAttended.
    split.
    - intros [Hin H]. split; [exact Hin|].
      destruct (row !! "Attended"%string) as [v|]; [|discriminate].
      apply andb_true_iff in H as [Ht He]. apply String.eqb_eq in He. now exists v.
    - intros [Hin (v & -> & Ht & He)]. split; [exact Hin|].
      rewrite Ht, He. reflexivity. }
  split; [apply filter_sublist|]. split; [apply filter_sublist|].
  intros rows1 rows2. unfold attendedMembers, didNotAttendMembers.
  now rewrite !List.filter_app.
Qed.

Lemma whiteSpace_lower (a : ascii) : isWhiteSpace a = true -> toLowerChar a = a.
Proof.
  destruct a as [[] [] [] [] [] [] [] []]; try discriminate; reflexivity.
Qed.

Lemma lower_letter_clean (a l : ascii) :
  toLowerChar a = l -> isWhiteSpace l = false -> isWhiteSpace a = false.
Proof.
  intros Hl Hw. destruct (isWhiteSpace a) eqn:E; [|reflexivity].
  rewrite (whiteSpace_lower a E) in Hl. congruence.
Qed.

Lemma lower_yes_trimmed (s : string) : toLowerCase s = "yes"%string -> trim s = s.
Proof.
  destruct s as [|a [|b [|c [|d s]]]]; try discriminate.
  unfold toLowerCase. cbn [mapChars]. intros [= Ha Hb Hc].
  assert (Wa : isWhiteSpace a = false) by (apply (lower_letter_clean a _ Ha); reflexivity).
  assert (Wc : isWhiteSpace c = false) by (apply (lower_letter_clean c _ Hc); reflexivity).
  unfold trim. cbn [trimStart]. rewrite Wa. cbn [trimEnd]. now rewrite Wc.
Qed.

Lemma truthy_nonEmpty (v : JsVal) : truthy v = true -> nonEmpty (Some v) = true.
Proof. destruct v as [|b|z|[|c s]]; cbn; congruence. Qed.

(** X18. Every row that an export puts on the "Attended" sheet is a row
    that the extractor processes, when "Attended" is the first attendance
    column of the mapping, as it is in the default mappings.  The converse
    does not hold: the extractor turns away only the answers "no", "false"
    and "0", and processes a row that answers "Y", which the export puts
    on "Did Not Attend". *)
Theorem attended_rows_are_processed (row : gmap string JsVal) (rest : list string) :
  isAttended row = true ->
  shouldProcessRow row ("Attended"%string :: rest) = true
  /\ shouldProcessRow row (csv_attended (fm_csv defaultFieldMappings)) = true
  /\ shouldProcessRow (<["Attended"%string := JStr "Y"]> row) ("Attended"%string :: rest)
     = true
  /\ isAttended (<["Attended"%string := JStr "Y"]> row) = false.
Proof.
  unfold isAttended. destruct (row !! "Attended"%string) as [v|] eqn:Ev; [|discriminate].
  intros [Ht Hy]%andb_true_iff. apply String.eqb_eq in Hy.
  assert (Hgen : forall names, shouldProcessRow row ("Attended"%string :: names) = true).
  { intros names. unfold shouldProcessRow. cbn [getFieldValue]. rewrite Ev.
    rewrite (truthy_nonEmpty v Ht). rewrite (truthy_nonEmpty v Ht).
    cbn [negb stringOf]. now rewrite (lower_yes_trimmed _ Hy), Hy. }
  split; [apply Hgen|]. split; [apply Hgen|]. split.
  - unfold shouldProcessRow. cbn [getFieldValue]. now rewrite lookup_insert_eq.
  - now rewrite lookup_insert_eq.
Qed.

(** Witness of X18: the first row of the sample attendance report. *)
Lemma attended_rows_are_processed_witness :
  shouldProcessRow (Demo.attendee (JStr "YES") (JStr "HPCSA") (JStr "MP0001"))
    (csv_attended (fm_csv defaultFieldMappings)) = true.
Proof.
  apply (attended_rows_are_processed
           (Demo.attendee (JStr "YES") (JStr "HPCSA") (JStr "MP0001")) []).
  vm_compute. reflexivity.
Defined.

(** *** The full-list export *)

Lemma scanLine_found (st : Scan) (line : string) :
  headerFound st = true ->
  scanLine st line
  = {| panelistDetails := panelistDetails st; dataLines := dataLines st ++ [line];
       headerFound := true |}.
Proof. unfold scanLine. now intros ->. Qed.

Lemma scanLine_searching (st : Scan) (line : string) :
  headerFound st = false ->
  scanLine st line
  = if isHeaderLine line
    then {| panelistDetails := panelistDetails st; dataLines := dataLines st ++ [line];
            headerFound := true |}
    else {| panelistDetails :=
              panelistDetails st ++ (if nonBlank line then [line] else []);
            dataLines := dataLines st; headerFound := false |}.
Proof.
  unfold scanLine, isHeaderLine, nonBlank. intros H. rewrite H. cbn [negb].
  destruct (JsText.includes line _ && JsText.includes line _); [reflexivity|]. cbn [orb].
  destruct (startsWith line _); [reflexivity|].
  destruct (negb (String.eqb (trim line) "")).
  - reflexivity.
  - rewrite app_nil_r. destruct st. cbn in *. now subst.
Qed.

Lemma scan_found (lines : list string) (st : Scan) :
  headerFound st = true ->
  fold_left scanLine lines st
  = {| panelistDetails := panelistDetails st; dataLines := dataLines st ++ lines;
       headerFound := true |}.
Proof.
  revert st. induction lines as [|line lines IH]; intros st H.
  - cbn. rewrite app_nil_r. destruct st. cbn in *. now subst.
  - cbn [fold_left]. rewrite (scanLine_found st line H), IH by reflexivity.
    cbn [panelistDetails dataLines]. now rewrite <- app_assoc.
Qed.

Lemma scan_searching (lines : list string) (st : Scan) :
  headerFound st = false ->
  (Forall (fun l => isHeaderLine l = false) lines
   /\ fold_left scanLine lines st
      = {| panelistDetails := panelistDetails st ++ List.filter nonBlank lines;
           dataLines := dataLines st; headerFound := false |})
  \/ exists before header after,
       lines = before ++ header :: after
       /\ isHeaderLine header = true
       /\ Forall (fun l => isHeaderLine l = false) before
       /\ fold_left scanLine lines st
          = {| panelistDetails := panelistDetails st ++ List.filter nonBlank before;
               dataLines := dataLines st ++ header :: after; headerFound := true |}.
Proof.
  revert st. induction lines as [|line lines IH]; intros st H.
  - left. split; [constructor|]. cbn. rewrite app_nil_r. destruct st. cbn in *. now subst.
  - cbn [fold_left]. rewrite (scanLine_searching st line H).
    destruct (isHeaderLine line) eqn:E.
    + right. exists [], line, lines. split; [reflexivity|]. split; [exact E|].
      split; [constructor|]. rewrite scan_found by reflexivity.
      cbn [panelistDetails dataLines List.filter]. now rewrite app_nil_r, <- app_assoc.
    + match goal with |- context [fold_left scanLine lines ?s] =>
        destruct (IH s eq_refl)
          as [[Hall Hf]|(before & header & after & -> & Hh & Hb & Hf)]
      end; rewrite Hf; cbn [panelistDetails dataLines].
      * left. split; [now constructor|]. cbn [List.filter].
        rewrite <- app_assoc. now destruct (nonBlank line).
      * right. exists (line :: before), header, after.
        split; [reflexivity|]. split; [exact Hh|]. split; [now constructor|].
        cbn [List.filter]. rewrite <- app_assoc. now destruct (nonBlank line).
Qed.

(** X19. The full-list export splits the lines of the file at the first
    line that mentions both "Attended" and "Professional council number"
    or starts with "User Name (Original Name),": that line and all lines
    after it are the data, and the lines before it that are not blank are
    the panelist details.  Without such a line there is no data, and this
    alone makes the route answer that it found no header: the test on the
    data lines in the same condition adds nothing. *)
Theorem scanLines_splits_at_header (lines : list string) :
  let st := scanLines lines in
  (headerFound st = false <-> Forall (fun l => isHeaderLine l = false) lines)
  /\ (dataLines st = [] <-> headerFound st = false)
  /\ (headerFound st = false -> panelistDetails st = List.filter nonBlank lines)
  /\ (headerFound st = true ->
      exists before header after,
        lines = before ++ header :: after
        /\ isHeaderLine header = true
        /\ Forall (fun l => isHeaderLine l = false) before
        /\ dataLines st = header :: after
        /\ panelistDetails st = List.filter nonBlank before)
  /\ (prepareFullList lines
      = Rejected "Could not find a valid CSV header or any data."%string
      <-> headerFound st = false).
Proof.
  cbv zeta. unfold prepareFullList, scanLines.
  destruct (scan_searching lines
              {| panelistDetails := []; dataLines := []; headerFound := false |} eq_refl)
    as [[Hall Hf]|(before & header & after & Hl & Hh & Hb & Hf)];
    rewrite Hf; cbn [panelistDetails dataLines headerFound app negb andb length Nat.eqb].
  - split; [tauto|]. split; [tauto|]. split; [reflexivity|].
    split; [discriminate|]. tauto.
  - split.
    { split; [discriminate|]. intros Hall. rewrite Hl in Hall.
      apply Forall_app in Hall as [_ [Hx _]%Forall_cons]. congruence. }
    split; [split; discriminate|]. split; [discriminate|].
    split; [intros _; now exists before, header, after|].
    split; [|discriminate].
    destruct (negb (truthyStr (trim _))); discriminate.
Qed.

(** *** The styled export *)




End ExportProperties.

(** ** What a run requests *)

Module RequestProperties.

Import Js Types Effects HPCSAService Spec Notions TaskNotions LookupFacts DispatcherFacts
  DispatcherProperties.

Section Requests.

Variable net : Network.
Variable config : HPCSAApiConfig.

(** X21. A run of [searchBatch] requests nothing but its identifiers: the
    tasks of its waves are, position by position, the tasks of the
    identifiers, and each of them makes either one request, or a request,
    a backoff of 500 ms and the same request once more.  Every request goes
    to the configured address, for the identifier of its task, with the
    timeout of the run. *)
Theorem searchBatch_requests_only_identifiers (ids : list string)
  (options : BatchSearchOptions) (observed : bool) (fuel : nat) (w : World) :
  let c := default (maxConcurrentRequests config) (bo_maxConcurrent options) in
  let t := default (timeoutMs config) (bo_timeoutMs options) in
  0 < c ->
  bo_onProgress options = progressOption observed ->
  (length ids < fuel)%nat ->
  exists results w' evs,
    searchBatch net config fuel ids options w = (Normal results, w')
    /\ trace w' = trace w ++ evs
    /\ Forall2 (lookupTrace config t) ids (taskTraces evs)
    /\ (forall tr e, In tr (taskTraces evs) -> In e tr ->
          e = Delay 500
          \/ exists id, In id ids /\ e = Fetch (mkRequest (apiUrl config) id t)).
Proof.
  intros c t Hc Hcb Hfuel. unfold searchBatch. rewrite Hcb.
  destruct (loop_tasks net config ids c
              (default (delayBetweenBatchesMs config) (bo_delayBetweenBatchesMs options))
              t observed Hc fuel 0 [] w)
    as (rs & w' & evs & Hrun & Htrace & HF & _); [lia|lia|lia|].
  cbn [Z.to_nat drop] in HF. cbn [app] in Hrun.
  exists rs, w', evs. split; [exact Hrun|]. split; [exact Htrace|]. split; [exact HF|].
  intros tr e Htr He.
  apply list_elem_of_In, list_elem_of_lookup in Htr as [k Hk].
  destruct (Forall2_lookup_r _ _ _ _ _ HF Hk) as (id & Hid & Hshape).
  assert (Hin : In id ids).
  { apply list_elem_of_In, list_elem_of_lookup. now exists k. }
  destruct Hshape as [-> | ->]; cbn in He;
    repeat (destruct He as [<- | He]); try contradiction;
    try (now left); right; now exists id.
Qed.

End Requests.

(** Witness of X21: five identifiers, the first request lost. *)
Lemma searchBatch_requests_only_identifiers_witness :
  exists results w',
    searchBatch Demo.flaky Demo.defaultConfig 6 Demo.five (Demo.options 2 None) Demo.start
    = (Normal results, w')
    /\ length (taskTraces (trace w')) = 5%nat.
Proof.
  destruct (searchBatch_requests_only_identifiers Demo.flaky Demo.defaultConfig Demo.five
              (Demo.options 2 None) false 6 Demo.start)
    as (results & w' & evs & Hrun & Htrace & HF & _).
  - reflexivity.
  - reflexivity.
  - cbn. lia.
  - exists results, w'. split; [exact Hrun|].
    cbn [Demo.start trace app] in Htrace. rewrite Htrace.
    symmetry. exact (Forall2_length _ _ _ HF).
Defined.

End RequestProperties.

(** ** The properties on the sample data *)

Module SampleRuns.

Import Js JsText Types Effects HPCSAService Spec Notions FileParserService
  ServiceContainer Routes ExportRoutes RouteNotions RegistrationExtractorService.

(** Witness of X2: the second row of the sample report qualifies. *)
Lemma extract_exactly_qualifying_rows_witness :
  "MP 0002"%string ∈ registrationNumbers (extract defaultFieldMappings Demo.attendance csv).
Proof.
  apply (proj2 (ExtractorProperties.extract_exactly_qualifying_rows
                  defaultFieldMappings csv Demo.attendance "MP 0002")).
  exists (Demo.attendee (JStr "Yes") (JStr "hpcsa") (JStr "MP 0002")).
  split; [apply list_elem_of_further, list_elem_of_here|].
  split; [intros _; vm_compute; reflexivity|].
  split; [intros _ _; vm_compute; reflexivity|].
  split; [vm_compute; reflexivity|discriminate].
Defined.

(** Witness of X12: the extension counts in any case. *)
Lemma created_registry_supports_witness :
  registrySupports FileParser (sc_fileParserRegistry Uploads.container)
    "Webinar Report.CSV" = true
  /\ registrySupports FileParser (sc_fileParserRegistry Uploads.container)
       "report.csv.pdf" = false.
Proof.
  split.
  - etransitivity;
      [exact (proj1 (FileParserProperties.created_registry_supports FileParser
                       (Uploads.reads csv) Uploads.breaks None "Webinar Report.CSV"))|].
    vm_compute. reflexivity.
  - etransitivity;
      [exact (proj1 (FileParserProperties.created_registry_supports FileParser
                       (Uploads.reads csv) Uploads.breaks None "report.csv.pdf"))|].
    vm_compute. reflexivity.
Defined.

(** Witness of X13: two lines of session details, then the marker. *)
Lemma headerRowIndex_first_marker_witness :
  exists before marker after,
    [ [Some (JStr "Topic"); Some (JStr "Webinar ID")];
      [Some (JStr "HIV update"); Some (JNum 123)];
      [Some (JStr "Attendee Details")];
      [Some (JStr "Attended"); Some (JStr "Professional council number")];
      [Some (JStr "Yes"); Some (JStr "MP0001")] ]
    = before ++ marker :: after
    /\ length before = 2%nat
    /\ length after = 2%nat.
Proof.
  destruct (proj2 (proj2 (FileParserProperties.headerRowIndex_first_marker
              [ [Some (JStr "Topic"); Some (JStr "Webinar ID")];
                [Some (JStr "HIV update"); Some (JNum 123)];
                [Some (JStr "Attendee Details")];
                [Some (JStr "Attended"); Some (JStr "Professional council number")];
                [Some (JStr "Yes"); Some (JStr "MP0001")] ])))
    as (before & marker & after & Hrows & _ & _ & Hidx & Hdrop).
  - vm_compute. discriminate.
  - exists before, marker, after. split; [exact Hrows|].
    vm_compute in Hidx. injection Hidx as Hidx. split; [now symmetry|].
    rewrite <- Hdrop. vm_compute. reflexivity.
Defined.

(** Witness of X14: an endpoint that is down answers "No results found". *)
Lemma searchPOST_responses_witness :
  exists w',
    searchPOST Demo.down Uploads.container Uploads.errorName
      (BodyObject (Some (JStr "MP0001"))) Demo.start
    = (Normal (SearchOk [] (Some "No results found"%string)), w').
Proof.
  destruct (RouteProperties.searchPOST_responses Demo.down Uploads.container
              Uploads.errorName (BodyObject (Some (JStr "MP0001"))) Demo.start)
    as (response & w' & Hrun & _ & _ & _ & Hobject).
  destruct (Hobject (Some (JStr "MP0001")) eq_refl eq_refl) as (_ & Hfail & _).
  rewrite (Hfail eq_refl) in Hrun. now exists w'.
Defined.

(** Witness of X15: a file that is no spreadsheet, and a spreadsheet that
    the parser cannot read. *)
Lemma batchPOST_rejections_witness :
  batchPOST Demo.steady Uploads.container Uploads.errorName 6
    (FormFields (Some {| file_name := "report.pdf"; file_bytes := [] |})) Demo.start
  = (Normal (BatchBadRequest
               "Unsupported file type. Supported formats: .csv, .xlsx, .xls" None),
     Demo.start)
  /\ batchPOST Demo.steady Uploads.container Uploads.errorName 6
       (FormFields (Some {| file_name := "report.xlsx"; file_bytes := [] |})) Demo.start
     = (Normal (BatchFailed "Failed to process file" "Unsupported file"), Demo.start).
Proof.
  split.
  - apply (proj1 (proj2 (proj2 (BatchRouteProperties.batchPOST_rejections Demo.steady
             Demo.defaultConfig (Uploads.reads csv) Uploads.breaks Uploads.noConfig
             Uploads.errorName 6
             (FormFields (Some {| file_name := "report.pdf"; file_bytes := [] |}))
             Demo.start)))
           {| file_name := "report.pdf"; file_bytes := [] |} eq_refl).
    vm_compute. reflexivity.
  - apply (proj1 (proj2 (proj1 (proj2 (proj2
             (BatchRouteProperties.batchPOST_rejections Demo.steady
                Demo.defaultConfig (Uploads.reads csv) Uploads.breaks Uploads.noConfig
                Uploads.errorName 6
                (FormFields (Some {| file_name := "report.xlsx"; file_bytes := [] |}))
                Demo.start)))
           {| file_name := "report.xlsx"; file_bytes := [] |} eq_refl)) excel
           "Unsupported file"%string).
    + vm_compute. reflexivity.
    + reflexivity.
Defined.

(** Witness of X19: the sample report has its header on the fifth line. *)
Lemma scanLines_splits_at_header_witness :
  exists before header after,
    Uploads.reportLines = before ++ header :: after
    /\ dataLines (scanLines Uploads.reportLines) = header :: after
    /\ panelistDetails (scanLines Uploads.reportLines) = List.filter nonBlank before.
Proof.
  destruct (proj1 (proj2 (proj2 (proj2
              (ExportProperties.scanLines_splits_at_header Uploads.reportLines)))))
    as (before & header & after & Hl & _ & _ & Hd & Hp).
  - vm_compute. reflexivity.
  - now exists before, header, after.
Defined.


End SampleRuns.

(** ** What the timing of the answers can change *)

Module TimingProperties.

Import Js Types Effects HPCSAService Spec Notions TaskNotions LookupFacts DispatcherFacts
  DispatcherProperties.

(** The first attempts of a wave: the task at position [i] issues the
    request number [requests w + i], and its answer decides whether the
    task backs off. *)
Lemma wave_first_attempts (net : Network) (config : HPCSAApiConfig) (t : Z)
  (batch : list string) (w : World) :
  exists rs traces n',
    promiseAll (latency net) (map (task net config t) batch) w
    = (Normal rs, {| requests := n'; trace := trace w ++ [All traces] |})
    /\ length rs = length batch
    /\ length traces = length batch
    /\ n' = (requests w + length batch + length (List.filter backsOff traces))%nat
    /\ (forall i reg, batch !! i = Some reg ->
          exists r tr,
            rs !! i = Some r /\ traces !! i = Some tr
            /\ match bodyOf (net (requests w + i)%nat (requestFor config t reg)) with
               | Some json =>
                   r = outcomeOf reg json /\ tr = [Fetch (requestFor config t reg)]
               | None =>
                   tr = [Fetch (requestFor config t reg); Delay 500;
                         Fetch (requestFor config t reg)]
               end).
Proof.
  destruct (wave_runs net config t batch w)
    as (rs & traces & n' & Hrun & HF & HFt & Hn & _).
  destruct (wave_jobs net config t batch w) as (jobs & n2 & Hrun2 & Hlen & Hall & _).
  rewrite Hrun in Hrun2. injection Hrun2 as Hrs _ Htr.
  apply app_inv_head in Htr. injection Htr as Htr. symmetry in Hrs.
  exists rs, traces, n'. split; [exact Hrun|].
  split; [symmetry; exact (Forall2_length _ _ _ HF)|].
  split; [symmetry; exact (Forall2_length _ _ _ HFt)|].
  split; [exact Hn|].
  intros i reg Hreg.
  destruct (Forall2_lookup_l _ _ _ _ _ HF Hreg) as (r & Hr & _).
  destruct (Forall2_lookup_l _ _ _ _ _ HFt Hreg) as (tr & Htri & _).
  exists r, tr. split; [exact Hr|]. split; [exact Htri|].
  assert (Hjobs : exists job, jobs !! i = Some job
                    /\ tr = job_events job /\ settled job = Normal r).
  { rewrite Htr in Htri. change (map job_events jobs) with (job_events <$> jobs) in Htri.
    rewrite list_lookup_fmap in Htri.
    destruct (jobs !! i) as [job|] eqn:Hj; [|discriminate]. injection Htri as <-.
    exists job. split; [reflexivity|]. split; [reflexivity|].
    clear - Hrs Hj Hr. revert i rs Hrs Hj Hr.
    induction jobs as [|j jobs IH]; intros i rs Hrs Hj Hr; [destruct i; discriminate|].
    cbn [map settleAll] in Hrs.
    destruct (settled j) as [a| |] eqn:Ej; try (destruct (settleAll _); discriminate).
    destruct (settleAll (map settled jobs)) as [l| |] eqn:El; try discriminate.
    injection Hrs as <-. destruct i as [|i].
    - cbn in Hj, Hr. injection Hj as <-. now injection Hr as <-.
    - cbn in Hj, Hr. exact (IH i l eq_refl Hj Hr). }
  destruct Hjobs as (job & Hj & -> & Hst).
  destruct (Hall i reg Hreg) as [[Hok Hj']|(Hf & b & _ & Hj')];
    rewrite Hj' in Hj; injection Hj as <-.
  - unfold settled, calledJob in Hst. cbn [job_state job_events calledJob] in *.
    destruct (bodyOf (net (requests w + i)%nat (requestFor config t reg)))
      as [json|]; [|congruence].
    split; [congruence|reflexivity].
  - rewrite Hf. reflexivity.
Qed.

Section Timing.

Variables net1 net2 : Network.
Variable config : HPCSAApiConfig.
Hypothesis same_answers : forall k r, net1 k r = net2 k r.

Lemma wave_timing (t : Z) (batch : list string) (w1 w2 : World) :
  requests w1 = requests w2 ->
  exists rs1 rs2 traces n',
    promiseAll (latency net1) (map (task net1 config t) batch) w1
    = (Normal rs1, {| requests := n'; trace := trace w1 ++ [All traces] |})
    /\ promiseAll (latency net2) (map (task net2 config t) batch) w2
       = (Normal rs2, {| requests := n'; trace := trace w2 ++ [All traces] |})
    /\ length rs1 = length batch /\ length rs2 = length batch
    /\ length traces = length batch
    /\ (forall i tr, traces !! i = Some tr -> backsOff tr = false ->
          rs1 !! i = rs2 !! i).
Proof.
  intros Hw.
  destruct (wave_first_attempts net1 config t batch w1)
    as (rs1 & tr1 & n1 & Hrun1 & Hl1 & Ht1 & Hn1 & Hall1).
  destruct (wave_first_attempts net2 config t batch w2)
    as (rs2 & tr2 & n2 & Hrun2 & Hl2 & Ht2 & Hn2 & Hall2).
  assert (Htr : tr1 = tr2).
  { apply list_eq_same_length with (length batch); [exact Ht2|exact Ht1|].
    intros i x y Hi Hx Hy.
    destruct (lookup_lt_is_Some_2 batch i Hi) as [reg Hreg].
    destruct (Hall1 i reg Hreg) as (r1 & x' & _ & Hx' & H1).
    destruct (Hall2 i reg Hreg) as (r2 & y' & _ & Hy' & H2).
    rewrite Hx in Hx'. injection Hx' as <-. rewrite Hy in Hy'. injection Hy' as <-.
    rewrite <- Hw, <- same_answers in H2.
    destruct (bodyOf _); [destruct H1 as [_ ->], H2 as [_ ->]|]; congruence. }
  subst tr2. assert (n1 = n2) as <- by congruence.
  exists rs1, rs2, tr1, n1. split; [exact Hrun1|]. split; [exact Hrun2|].
  split; [exact Hl1|]. split; [exact Hl2|]. split; [exact Ht1|].
  intros i tr Htri Hquiet.
  destruct (lookup_lt_is_Some_2 batch i) as [reg Hreg].
  { rewrite <- Ht1. exact (lookup_lt_Some _ _ _ Htri). }
  destruct (Hall1 i reg Hreg) as (r1 & x' & Hr1 & Hx' & H1).
  destruct (Hall2 i reg Hreg) as (r2 & y' & Hr2 & Hy' & H2).
  rewrite Htri in Hx'. injection Hx' as <-. rewrite Htri in Hy'. injection Hy' as <-.
  rewrite <- Hw, <- same_answers in H2.
  destruct (bodyOf _).
  - destruct H1 as [-> _], H2 as [-> _]. congruence.
  - subst tr. discriminate.
Qed.

Lemma loop_timing (ids : list string) (c d t : Z) (observed : bool) :
  0 < c ->
  forall (fuel : nat) (i : Z) (results1 results2 : list BatchSearchResult)
         (w1 w2 : World),
    0 <= i -> (0 < fuel)%nat -> Z.of_nat (length ids) - i < Z.of_nat fuel ->
    requests w1 = requests w2 ->
    exists rs1 rs2 w1' w2' evs,
      searchBatchLoop net1 config fuel ids c d t (progressOption observed) i results1 w1
      = (Normal (results1 ++ rs1), w1')
      /\ searchBatchLoop net2 config fuel ids c d t (progressOption observed) i results2 w2
         = (Normal (results2 ++ rs2), w2')
      /\ trace w1' = trace w1 ++ evs
      /\ trace w2' = trace w2 ++ evs
      /\ requests w1' = requests w2'
      /\ length rs1 = length (taskTraces evs)
      /\ length rs2 = length (taskTraces evs)
      /\ (forall k tr, taskTraces evs !! k = Some tr -> backsOff tr = false ->
            rs1 !! k = rs2 !! k).
Proof.
  intros Hc. induction fuel as [|fuel IH];
    intros i results1 results2 w1 w2 Hi Hfuel Hlen Hw; [lia|].
  destruct (Z.le_gt_cases (Z.of_nat (length ids)) i) as [Hout|Hin].
  - rewrite !loop_exit by exact Hout. exists [], [], w1, w2, [].
    rewrite !app_nil_r.
    split; [reflexivity|]. split; [reflexivity|]. split; [reflexivity|].
    split; [reflexivity|]. split; [exact Hw|]. split; [reflexivity|].
    split; [reflexivity|]. intros k tr Hk. destruct k; discriminate.
  - set (batch := take (Z.to_nat c) (drop (Z.to_nat i) ids)).
    destruct (wave_timing t batch w1 w2 Hw)
      as (rsA1 & rsA2 & traces & n1 & Hrun1 & Hrun2 & Hl1 & Hl2 & Ht & Hsame).
    set (progress := if observed
                     then [Progress (Z.min (i + c) (Z.of_nat (length ids)))
                             (Z.of_nat (length ids))]
                     else []).
    set (pause := if i + c <? Z.of_nat (length ids) then [Delay d] else []).
    assert (Hprog : forall w0,
              callProgress (progressOption observed)
                (Z.min (i + c) (Z.of_nat (length ids))) (Z.of_nat (length ids)) w0
              = (Normal tt, {| requests := requests w0; trace := trace w0 ++ progress |})).
    { intros w0. unfold progress. destruct observed; cbn; [reflexivity|].
      unfold ret. rewrite app_nil_r. now destruct w0. }
    assert (Hpause : forall w0,
              (if i + c <? Z.of_nat (length ids) then delay d else ret tt) w0
              = (Normal tt, {| requests := requests w0; trace := trace w0 ++ pause |})).
    { intros w0. unfold pause. destruct (i + c <? Z.of_nat (length ids)); cbn;
        [reflexivity|]. unfold ret. rewrite app_nil_r. now destruct w0. }
    assert (Hstep1 :
              searchBatchLoop net1 config (S fuel) ids c d t (progressOption observed)
                i results1 w1
              = searchBatchLoop net1 config fuel ids c d t (progressOption observed)
                  (i + c) (results1 ++ rsA1)
                  {| requests := n1;
                     trace := ((trace w1 ++ [All traces]) ++ progress) ++ pause |}).
    { rewrite loop_step by lia. fold batch. unfold bind at 1. rewrite Hrun1.
      unfold bind at 1. rewrite Hprog. unfold bind at 1. now rewrite Hpause. }
    assert (Hstep2 :
              searchBatchLoop net2 config (S fuel) ids c d t (progressOption observed)
                i results2 w2
              = searchBatchLoop net2 config fuel ids c d t (progressOption observed)
                  (i + c) (results2 ++ rsA2)
                  {| requests := n1;
                     trace := ((trace w2 ++ [All traces]) ++ progress) ++ pause |}).
    { rewrite loop_step by lia. fold batch. unfold bind at 1. rewrite Hrun2.
      unfold bind at 1. rewrite Hprog. unfold bind at 1. now rewrite Hpause. }
    rewrite Hstep1, Hstep2.
    destruct (IH (i + c) (results1 ++ rsA1) (results2 ++ rsA2)
                {| requests := n1;
                   trace := ((trace w1 ++ [All traces]) ++ progress) ++ pause |}
                {| requests := n1;
                   trace := ((trace w2 ++ [All traces]) ++ progress) ++ pause |})
      as (rsB1 & rsB2 & w1' & w2' & evs & Hloop1 & Hloop2 & Htr1 & Htr2 & Hreq
          & HlB1 & HlB2 & HsameB); [lia|lia|lia|reflexivity|].
    rewrite Hloop1, Hloop2.
    exists (rsA1 ++ rsB1), (rsA2 ++ rsB2), w1', w2',
      ([All traces] ++ progress ++ pause ++ evs).
    assert (Hp : taskTraces progress = []) by (unfold progress; now destruct observed).
    assert (Hd : taskTraces pause = [])
      by (unfold pause; now destruct (i + c <? Z.of_nat (length ids))).
    assert (Htt : taskTraces ([All traces] ++ progress ++ pause ++ evs)
                  = traces ++ taskTraces evs).
    { rewrite !taskTraces_app, Hp, Hd. cbn [taskTraces flat_map app].
      now rewrite app_nil_r. }
    split; [now rewrite app_assoc|]. split; [now rewrite app_assoc|].
    split; [rewrite Htr1; cbn [trace]; now rewrite <- !app_assoc|].
    split; [rewrite Htr2; cbn [trace]; now rewrite <- !app_assoc|].
    split; [exact Hreq|]. rewrite Htt, !length_app.
    split; [lia|]. split; [lia|].
    intros k tr Hk Hquiet.
    destruct (Nat.lt_ge_cases k (length traces)) as [Hlt|Hge].
    + rewrite lookup_app_l in Hk by exact Hlt.
      rewrite !lookup_app_l by lia. exact (Hsame k tr Hk Hquiet).
    + rewrite lookup_app_r in Hk by exact Hge.
      rewrite !lookup_app_r by lia.
      replace (k - length rsA1)%nat with (k - length traces)%nat by lia.
      replace (k - length rsA2)%nat with (k - length traces)%nat by lia.
      exact (HsameB _ tr Hk Hquiet).
Qed.

(** X22. The order in which the answers to the requests of a wave arrive
    changes nothing about what a run of [searchBatch] requests: on two
    networks that answer every request alike and differ in their latencies
    only, the two runs leave the same trace -- the same waves, tasks,
    requests, backoffs, progress calls and pauses -- and issue the same
    number of requests.  Their results can differ only at the positions of
    tasks that backed off: an identifier that is answered at the first
    attempt gets the same outcome in both runs. *)
Theorem searchBatch_timing (ids : list string) (options : BatchSearchOptions)
  (observed : bool) (fuel : nat) (w : World) :
  let c := default (maxConcurrentRequests config) (bo_maxConcurrent options) in
  0 < c ->
  bo_onProgress options = progressOption observed ->
  (length ids < fuel)%nat ->
  exists rs1 rs2 w1 w2 evs,
    searchBatch net1 config fuel ids options w = (Normal rs1, w1)
    /\ searchBatch net2 config fuel ids options w = (Normal rs2, w2)
    /\ trace w1 = trace w ++ evs
    /\ trace w2 = trace w ++ evs
    /\ requests w1 = requests w2
    /\ length rs1 = length (taskTraces evs)
    /\ length rs2 = length (taskTraces evs)
    /\ (forall k tr, taskTraces evs !! k = Some tr -> backsOff tr = false ->
          rs1 !! k = rs2 !! k).
Proof.
  intros c Hc Hcb Hfuel. unfold searchBatch. rewrite Hcb.
  destruct (loop_timing ids c
              (default (delayBetweenBatchesMs config) (bo_delayBetweenBatchesMs options))
              (default (timeoutMs config) (bo_timeoutMs options))
              observed Hc fuel 0 [] [] w w)
    as (rs1 & rs2 & w1 & w2 & evs & H); [lia|lia|lia|reflexivity|].
  cbn [app] in H. now exists rs1, rs2, w1, w2, evs.
Qed.

End Timing.

(** Witness of X22: two identifiers on the network that answers the third
    request only, with the first failure handled last and handled first. *)
Lemma searchBatch_timing_witness :
  exists rs1 rs2 w1 w2,
    searchBatch (Samples.thirdOnly 9 1) Demo.defaultConfig 3 ["MP0001"; "MP0002"]%string
      (Demo.options 2 None) Demo.start = (Normal rs1, w1)
    /\ searchBatch (Samples.thirdOnly 1 9) Demo.defaultConfig 3 ["MP0001"; "MP0002"]%string
         (Demo.options 2 None) Demo.start = (Normal rs2, w2)
    /\ trace w1 = trace w2
    /\ requests w1 = requests w2
    /\ rs1 <> rs2.
Proof.
  destruct (searchBatch_timing (Samples.thirdOnly 9 1) (Samples.thirdOnly 1 9)
              Demo.defaultConfig (fun k r => eq_refl) ["MP0001"; "MP0002"]%string
              (Demo.options 2 None) false 3 Demo.start)
    as (rs1 & rs2 & w1 & w2 & evs & Hrun1 & Hrun2 & Ht1 & Ht2 & Hreq & _).
  - reflexivity.
  - reflexivity.
  - cbn. lia.
  - exists rs1, rs2, w1, w2. split; [exact Hrun1|]. split; [exact Hrun2|].
    split; [congruence|]. split; [exact Hreq|].
    vm_compute in Hrun1. vm_compute in Hrun2.
    injection Hrun1 as <- _. injection Hrun2 as <- _. discriminate.
Defined.

End TimingProperties.
